(** * QuizzlerV2: authorization and settlement of survey rewards

    A shallow embedding of the Solidity contract [QuizzlerV2] and the
    proofs of its replay-protection, funding and payout properties.

    Conventions of the embedding:
    - [uint256], [bytes32] and [address] values are binary naturals ([N]);
      arithmetic is Solidity 0.8 checked arithmetic, i.e. an overflow or
      underflow reverts with [Panic 0x11].
    - Solidity mappings are finite maps read with the all-zero default.
    - Contract code runs in a state-and-revert monad.  A revert carries no
      state: the EVM discards every storage write, event and external call
      of a reverted call frame.
    - What the contract gets from outside (hashing, signature recovery, the
      gateway's token registry, the behaviour of the ERC-20 it calls, the
      block and the caller) is a record [Env] the code is read under. *)

From Stdlib Require Import NArith.
From Stdlib.Strings Require Import Byte.
From stdpp Require Import gmap strings list.

Open Scope N_scope.

(** ** Value types *)

Abbreviation uint256 := N (only parsing).
Abbreviation bytes32 := N (only parsing).
Abbreviation address := N (only parsing).
Abbreviation bytes := (list byte) (only parsing).

Definition MAX_UINT256 : N := 2 ^ 256 - 1.

(** ** Solidity mappings: every key is present, unset keys read as zero *)

Class SolDefault (V : Type) := sol_default : V.

Definition mapping_get `{Countable K} `{SolDefault V} (m : gmap K V) (k : K) : V :=
  default sol_default (m !! k).

Notation "m @[ k ]" := (mapping_get m k) (at level 1, left associativity,
  format "m @[ k ]").

#[global] Instance bool_SolDefault : SolDefault bool := false.
#[global] Instance gmap_SolDefault `{Countable K} {V} : SolDefault (gmap K V) :=
  (∅ : gmap K V).

(** ** Storage *)

Record SurveyStruct := mkSurvey {
  surveyCreator : address;
  participantsLimit : uint256;
  rewardAmount : uint256;
  participantsRewarded : uint256;
  surveyHash : bytes32;
  rewardToken : address;
  isCanceled : bool
}.

#[global] Instance SurveyStruct_SolDefault : SolDefault SurveyStruct :=
  mkSurvey 0 0 0 0 0 0 false.

(** Events of the contract, and the external token call it makes, in the
    order in which they happen. *)
Inductive Event :=
| SurveyCreated (surveyId : string) (creator : address)
    (participantsLimit rewardAmount : uint256) (surveyHash : bytes32)
| RewardPaid (participant : address) (surveyId : string) (amount : uint256)
| SurveyFinished (surveyId : string)
| SurveyCanceled (surveyId : string)
| UpdateManager (manager : address) (status : bool)
| ExecuteEventCompleted (commandId : bytes32) (msgId : uint256)
| ERC20_transfer (token to : address) (amount : uint256).

Record State := mkState {
  chainName : string;
  gasStation : address;
  gasOwner : address;
  SENDER_HASH : bytes32;
  owner : address;
  managers : gmap N bool;
  surveys : gmap string SurveyStruct;
  surveysUsersRewarded : gmap string (gmap N bool);
  proofTokens : gmap N bool;
  log : list Event
}.

Definition set_managers (f : gmap N bool -> gmap N bool) (s : State) : State :=
  mkState (chainName s) (gasStation s) (gasOwner s) (SENDER_HASH s) (owner s)
    (f (managers s)) (surveys s) (surveysUsersRewarded s) (proofTokens s) (log s).

Definition set_surveys (f : gmap string SurveyStruct -> gmap string SurveyStruct)
    (s : State) : State :=
  mkState (chainName s) (gasStation s) (gasOwner s) (SENDER_HASH s) (owner s)
    (managers s) (f (surveys s)) (surveysUsersRewarded s) (proofTokens s) (log s).

Definition set_surveysUsersRewarded
    (f : gmap string (gmap N bool) -> gmap string (gmap N bool)) (s : State) : State :=
  mkState (chainName s) (gasStation s) (gasOwner s) (SENDER_HASH s) (owner s)
    (managers s) (surveys s) (f (surveysUsersRewarded s)) (proofTokens s) (log s).

Definition set_proofTokens (f : gmap N bool -> gmap N bool) (s : State) : State :=
  mkState (chainName s) (gasStation s) (gasOwner s) (SENDER_HASH s) (owner s)
    (managers s) (surveys s) (surveysUsersRewarded s) (f (proofTokens s)) (log s).

Definition set_gas (station gowner : address) (s : State) : State :=
  mkState (chainName s) station gowner (SENDER_HASH s) (owner s)
    (managers s) (surveys s) (surveysUsersRewarded s) (proofTokens s) (log s).

Definition set_owner (o : address) (s : State) : State :=
  mkState (chainName s) (gasStation s) (gasOwner s) (SENDER_HASH s) o
    (managers s) (surveys s) (surveysUsersRewarded s) (proofTokens s) (log s).

Definition add_log (e : Event) (s : State) : State :=
  mkState (chainName s) (gasStation s) (gasOwner s) (SENDER_HASH s) (owner s)
    (managers s) (surveys s) (surveysUsersRewarded s) (proofTokens s) (log s ++ [e]).

(** In-place updates of one survey record. *)
Definition with_participantsRewarded (n : uint256) (r : SurveyStruct) : SurveyStruct :=
  mkSurvey (surveyCreator r) (participantsLimit r) (rewardAmount r) n
    (surveyHash r) (rewardToken r) (isCanceled r).

Definition with_isCanceled (b : bool) (r : SurveyStruct) : SurveyStruct :=
  mkSurvey (surveyCreator r) (participantsLimit r) (rewardAmount r)
    (participantsRewarded r) (surveyHash r) (rewardToken r) b.

(** ** Errors and the revert monad *)

Inductive Error :=
| Quizzler__WrongSource
| Quizzler__NoTokens
| Quizzler__WrongSender
| Quizzler__WrongMsgId
| Quizzler_InvalidSigner
| Quizzler__SurveyExists
| Quizzler_InvalidRewardAmount
| Quizzler_InvalidTrxValue
| Quizzler__InvalidGasStationAddress
| Quizzler__InvalidGasOwnerAddress
| Quizzler__InvalidManagerAddress
| Quizzler_OnlyManager
| Quizzler__SurveyDoesNotExist
| Quizzler__SurveyAlreadyCanceled
| Quizzler__OnlyCreatorOrManager
| Quizzler__AllParticipantsRewarded
| Quizzler__ArrayLengthMismatch
| Quizzler__UserAlreadyRewarded
| Quizzler__InvalidMessageHash
| Quizzler__TokenAlreadyUsed
| Quizzler__ProofExpired
| Quizzler__ZeroAddress
| Quizzler__SurveyCancelFailed
| Quizzler__SurveyCreationFailed
| Quizzler__RewardPaymentFailed
| OwnableUnauthorizedAccount    (* OpenZeppelin's onlyOwner *)
| ECDSAInvalidSignature         (* OpenZeppelin's ECDSA.recover *)
| AbiDecodeError                (* abi.decode on a payload of another shape *)
| ExternalCallReverted          (* the called ERC-20 reverted *)
| Panic (code : N).             (* 0x11 arithmetic, 0x32 array index *)

Inductive Result (A : Type) :=
| Ok (a : A)
| Revert (e : Error).
Arguments Ok {A} a.
Arguments Revert {A} e.

Definition M (A : Type) : Type := State -> Result (A * State).

Definition ret {A} (a : A) : M A := fun s => Ok (a, s).

Definition bind {A B} (m : M A) (k : A -> M B) : M B :=
  fun s => match m s with
           | Ok (a, s') => k a s'
           | Revert e => Revert e
           end.

Definition revert {A} (e : Error) : M A := fun _ => Revert e.
Definition get : M State := fun s => Ok (s, s).
Definition modify (f : State -> State) : M unit := fun s => Ok (tt, f s).
Definition emit (e : Event) : M unit := modify (add_log e).

(** [if (c) revert E();] *)
Definition revert_if (c : bool) (e : Error) : M unit :=
  if c then revert e else ret tt.

Notation "'let!' x ':=' c1 'in' c2" := (bind c1 (fun x => c2))
  (at level 10, x name, c1 at level 100, c2 at level 200).
Notation "'run!' c1 'in' c2" := (bind c1 (fun _ => c2))
  (at level 10, c1 at level 100, c2 at level 200).

(** Checked arithmetic of Solidity 0.8. *)
Definition checked_add (a b : uint256) : M uint256 :=
  if a + b <=? MAX_UINT256 then ret (a + b) else revert (Panic 17).

Definition checked_mul (a b : uint256) : M uint256 :=
  if a * b <=? MAX_UINT256 then ret (a * b) else revert (Panic 17).

Definition checked_sub (a b : uint256) : M uint256 :=
  if b <=? a then ret (a - b) else revert (Panic 17).

(** ** The outside world *)

Record Env := mkEnv {
  msg_sender : address;
  block_timestamp : uint256;
  block_chainid : uint256;
  (** [keccak256] on a byte string *)
  keccak256 : bytes -> bytes32;
  (** OpenZeppelin's [ECDSA.recover]; [None] where it reverts *)
  ECDSA_recover : bytes32 -> bytes -> option address;
  (** [gatewayWithToken().tokenAddresses(symbol)] *)
  tokenAddresses : string -> address;
  (** whether [IERC20(token).transfer(to, amount)] returns (its boolean
      result is ignored by the contract) rather than reverts, given what
      has happened so far; the token is assumed not to call back *)
  transfer_returns : list Event -> address -> address -> uint256 -> bool
}.

(** ** abi.encodePacked *)

Definition byte_of_N (x : N) : byte :=
  default "000"%byte (Byte.of_N (x mod 256)).

(** big-endian, [n] bytes *)
Fixpoint be_bytes (n : nat) (x : N) : bytes :=
  match n with
  | O => []
  | S k => be_bytes k (x / 256) ++ [byte_of_N x]
  end.

Definition enc_uint256 (x : uint256) : bytes := be_bytes 32 x.
Definition enc_bytes32 (x : bytes32) : bytes := be_bytes 32 x.
Definition enc_address (x : address) : bytes := be_bytes 20 x.
Definition enc_string (x : string) : bytes := String.list_byte_of_string x.

(** ** Inbound payloads

    A payload is an opaque byte string on which the contract runs
    [abi.decode] at up to two types.  The model keeps, for a payload, what
    each of the decodings the contract performs yields on it, [None]
    where the decoding reverts. *)

Record CreateSurveyArgs := mkCreateArgs {
  cs_signature : bytes;
  cs_token : bytes32;
  cs_timeToExpire : uint256;
  cs_owner : address;
  cs_surveyId : string;
  cs_participantsLimit : uint256;
  cs_rewardAmount : uint256;
  cs_surveyHash : bytes32;
  cs_amountToGasStation : uint256
}.

Record CancelSurveyArgs := mkCancelArgs {
  cn_signature : bytes;
  cn_token : bytes32;
  cn_timeToExpire : uint256;
  cn_surveyId : string
}.

Record PayRewardsArgs := mkRewardArgs {
  pr_signature : bytes;
  pr_token : bytes32;
  pr_timeToExpire : uint256;
  pr_surveyIds : list string;
  pr_participantsEncoded : list address
}.

Record Payload := mkPayload {
  (** [abi.decode(payload, (uint256))] *)
  decode_msgId : option uint256;
  (** [abi.decode(payload, (uint256, bytes, bytes32, uint256, address,
      string, uint256, uint256, bytes32, uint256))], first component dropped *)
  decode_create : option CreateSurveyArgs;
  (** [abi.decode(payload, (uint256, bytes, bytes32, uint256, string))] *)
  decode_cancel : option CancelSurveyArgs;
  (** [abi.decode(payload, (uint256, bytes, bytes32, uint256, string[],
      address[]))] *)
  decode_reward : option PayRewardsArgs
}.

Definition abi_decode {A} (o : option A) : M A :=
  match o with
  | Some a => ret a
  | None => revert AbiDecodeError
  end.

Definition CREATE_SURVEY_MSG_ID : uint256 := 0.
Definition CANCEL_SURVEY_MSG_ID : uint256 := 1.
Definition PAY_REWARDS_MSG_ID : uint256 := 2.

(** ** The contract *)

Section Contract.

Variable env : Env.

(** [keccak256(bytes("agoric"))] *)
Definition AGORIC_CHAIN_HASH : bytes32 := keccak256 env (enc_string "agoric").

Definition getChainID : uint256 := block_chainid env.

(** *** Administration *)

Definition onlyOwner : M unit :=
  let! s := get in
  revert_if (negb (owner s =? msg_sender env)) OwnableUnauthorizedAccount.

Definition setManager (_manager : address) (_status : bool) : M unit :=
  run! onlyOwner in
  run! revert_if (_manager =? 0) Quizzler__InvalidManagerAddress in
  run! modify (set_managers <[_manager := _status]>) in
  emit (UpdateManager _manager _status).

Definition setGasStation (_gasStation _gasOwner : address) : M unit :=
  run! onlyOwner in
  run! revert_if (_gasStation =? 0) Quizzler__InvalidGasStationAddress in
  run! revert_if (_gasOwner =? 0) Quizzler__InvalidGasOwnerAddress in
  modify (set_gas _gasStation _gasOwner).

(** *** Views *)

Definition getSurveyAmountToFund (_surveyId : string) : M uint256 :=
  let! s := get in
  checked_mul (participantsLimit (surveys s)@[_surveyId])
              (rewardAmount (surveys s)@[_surveyId]).

Definition getSurveysRewardsAmountPayded (_surveyId : string) : M uint256 :=
  let! s := get in
  checked_mul (participantsRewarded (surveys s)@[_surveyId])
              (rewardAmount (surveys s)@[_surveyId]).

(** *** Proof digests *)

Definition createProof (s : State) (_token : bytes32) (_timeToExpire : uint256)
    (_owner : address) (_surveyId : string)
    (_participantsLimit _rewardAmount : uint256) (_surveyHash : bytes32)
    (_amountToGasStation : uint256) : bytes32 :=
  if (proofTokens s)@[_token] then 0
  else keccak256 env
         (enc_uint256 getChainID ++ enc_bytes32 _token ++ enc_uint256 _timeToExpire
          ++ enc_address _owner ++ enc_string _surveyId
          ++ enc_uint256 _participantsLimit ++ enc_uint256 _rewardAmount
          ++ enc_bytes32 _surveyHash ++ enc_uint256 _amountToGasStation).

Definition cancelProof (s : State) (_token : bytes32) (_timeToExpire : uint256)
    (_surveyId : string) : bytes32 :=
  if (proofTokens s)@[_token] then 0
  else keccak256 env
         (enc_uint256 getChainID ++ enc_bytes32 _token ++ enc_uint256 _timeToExpire
          ++ enc_string _surveyId).

Definition rewardProof (s : State) (_token : bytes32) (_timeToExpire : uint256)
    (_surveyIds : list string) (_participantsEncoded : list address) : bytes32 :=
  if (proofTokens s)@[_token] then 0
  else keccak256 env
         (enc_uint256 getChainID ++ enc_bytes32 _token ++ enc_uint256 _timeToExpire
          ++ enc_uint256 (N.of_nat (length _surveyIds))
          ++ enc_uint256 (N.of_nat (length _participantsEncoded))).

(** *** Signature validation *)

(** OpenZeppelin's [MessageHashUtils.toEthSignedMessageHash]:
    the hash of the 28-byte prefix followed by the digest. *)
Definition toEthSignedMessageHash (message : bytes32) : bytes32 :=
  keccak256 env
    ([Byte.x19] ++ enc_string "Ethereum Signed Message:" ++ [Byte.x0a]
     ++ enc_string "32" ++ enc_bytes32 message).

Definition getSigner (message : bytes32) (signature : bytes) : M address :=
  match ECDSA_recover env (toEthSignedMessageHash message) signature with
  | Some signer => ret signer
  | None => revert ECDSAInvalidSignature
  end.

Definition preAuthValidations (_message _token : bytes32) (_timeToExpire : uint256)
    (_signature : bytes) : M address :=
  run! revert_if (_message =? 0) Quizzler__InvalidMessageHash in
  let! s := get in
  run! revert_if (proofTokens s)@[_token] Quizzler__TokenAlreadyUsed in
  run! revert_if (_timeToExpire <? block_timestamp env) Quizzler__ProofExpired in
  let! signer := getSigner _message _signature in
  run! revert_if (signer =? 0) Quizzler__ZeroAddress in
  run! modify (set_proofTokens <[_token := true]>) in
  ret signer.

(** [IERC20(token).transfer(to, amount)], result ignored. *)
Definition IERC20_transfer (token to : address) (amount : uint256) : M unit :=
  let! s := get in
  if transfer_returns env (log s) token to amount
  then emit (ERC20_transfer token to amount)
  else revert ExternalCallReverted.

(** *** Handlers *)

Definition _handleCreateSurvey (payload : Payload) (amount : uint256)
    (tokenAddress : address) : M bool :=
  let! a := abi_decode (decode_create payload) in
  let! s := get in
  let message := createProof s (cs_token a) (cs_timeToExpire a) (cs_owner a)
                   (cs_surveyId a) (cs_participantsLimit a) (cs_rewardAmount a)
                   (cs_surveyHash a) (cs_amountToGasStation a) in
  let! signer := preAuthValidations message (cs_token a) (cs_timeToExpire a)
                   (cs_signature a) in
  let! s := get in
  run! revert_if (negb (managers s)@[signer]) Quizzler_InvalidSigner in
  run! revert_if (negb (surveyCreator (surveys s)@[cs_surveyId a] =? 0))
         Quizzler__SurveyExists in
  run! modify (set_surveys <[cs_surveyId a :=
         {| surveyCreator := msg_sender env;
            participantsLimit := cs_participantsLimit a;
            rewardAmount := cs_rewardAmount a;
            participantsRewarded := 0;
            surveyHash := cs_surveyHash a;
            rewardToken := tokenAddress;
            isCanceled := false |}]>) in
  let! amountToSurvey := checked_mul (cs_participantsLimit a) (cs_rewardAmount a) in
  let! required := checked_add amountToSurvey (cs_amountToGasStation a) in
  run! revert_if (negb (amount =? required)) Quizzler_InvalidTrxValue in
  let! toFund := getSurveyAmountToFund (cs_surveyId a) in
  run! revert_if (negb (amountToSurvey =? toFund)) Quizzler_InvalidRewardAmount in
  let! s := get in
  run! IERC20_transfer tokenAddress (gasStation s) (cs_amountToGasStation a) in
  run! emit (SurveyCreated (cs_surveyId a) (msg_sender env) (cs_participantsLimit a)
               (cs_rewardAmount a) (cs_surveyHash a)) in
  ret true.

Definition _handleCancelSurvey (_signature : bytes) (_token : bytes32)
    (_timeToExpire : uint256) (_surveyId : string) : M bool :=
  let! s := get in
  run! revert_if (surveyCreator (surveys s)@[_surveyId] =? 0)
         Quizzler__SurveyDoesNotExist in
  run! revert_if (isCanceled (surveys s)@[_surveyId])
         Quizzler__SurveyAlreadyCanceled in
  run! revert_if (negb (msg_sender env =? surveyCreator (surveys s)@[_surveyId])
                  && negb (managers s)@[msg_sender env])
         Quizzler__OnlyCreatorOrManager in
  run! revert_if (participantsLimit (surveys s)@[_surveyId]
                  <=? participantsRewarded (surveys s)@[_surveyId])
         Quizzler__AllParticipantsRewarded in
  let message := cancelProof s _token _timeToExpire _surveyId in
  let! signer := preAuthValidations message _token _timeToExpire _signature in
  let! s := get in
  run! revert_if (negb (managers s)@[signer]) Quizzler_InvalidSigner in
  let! toFund := getSurveyAmountToFund _surveyId in
  let! payded := getSurveysRewardsAmountPayded _surveyId in
  let! returnAmount := checked_sub toFund payded in
  run! IERC20_transfer (rewardToken (surveys s)@[_surveyId])
         (surveyCreator (surveys s)@[_surveyId]) returnAmount in
  run! modify (set_surveys (fun m =>
         <[_surveyId := with_isCanceled true m@[_surveyId]]> m)) in
  run! emit (SurveyCanceled _surveyId) in
  ret true.

(** One iteration of the loop of [_handleRewardPayment]. *)
Definition payReward (surveyId : string) (participant : address) : M unit :=
  let! s := get in
  run! revert_if (isCanceled (surveys s)@[surveyId])
         Quizzler__SurveyAlreadyCanceled in
  run! revert_if (participantsLimit (surveys s)@[surveyId]
                  <=? participantsRewarded (surveys s)@[surveyId])
         Quizzler__AllParticipantsRewarded in
  run! revert_if (surveysUsersRewarded s)@[surveyId]@[participant]
         Quizzler__UserAlreadyRewarded in
  run! IERC20_transfer (rewardToken (surveys s)@[surveyId]) participant
         (rewardAmount (surveys s)@[surveyId]) in
  let! incremented := checked_add (participantsRewarded (surveys s)@[surveyId]) 1 in
  run! modify (set_surveys (fun m =>
         <[surveyId := with_participantsRewarded incremented m@[surveyId]]> m)) in
  run! modify (set_surveysUsersRewarded (fun m =>
         <[surveyId := <[participant := true]> m@[surveyId]]> m)) in
  run! emit (RewardPaid participant surveyId (rewardAmount (surveys s)@[surveyId])) in
  let! s := get in
  if participantsRewarded (surveys s)@[surveyId]
     =? participantsLimit (surveys s)@[surveyId]
  then emit (SurveyFinished surveyId)
  else ret tt.

(** [for (j = 0; j < _participantsEncoded.length; j++)] reading
    [_surveyIds[j]]: the loop runs over the participants, and a missing
    survey id is an out-of-bounds read. *)
Fixpoint payRewards (_surveyIds : list string) (_participantsEncoded : list address)
    {struct _participantsEncoded} : M unit :=
  match _participantsEncoded with
  | [] => ret tt
  | participant :: participants =>
      match _surveyIds with
      | [] => revert (Panic 50)
      | surveyId :: surveyIds =>
          run! payReward surveyId participant in
          payRewards surveyIds participants
      end
  end.

Definition _handleRewardPayment (_signature : bytes) (_token : bytes32)
    (_timeToExpire : uint256) (_surveyIds : list string)
    (_participantsEncoded : list address) : M bool :=
  run! revert_if (negb (N.of_nat (length _surveyIds)
                        =? N.of_nat (length _participantsEncoded)))
         Quizzler__ArrayLengthMismatch in
  let! s := get in
  let message := rewardProof s _token _timeToExpire _surveyIds _participantsEncoded in
  let! signer := preAuthValidations message _token _timeToExpire _signature in
  let! s := get in
  run! revert_if (negb (managers s)@[signer]) Quizzler_InvalidSigner in
  run! payRewards _surveyIds _participantsEncoded in
  ret true.

(** *** Entry points from the gateway *)

Definition _executeWithToken (commandId : bytes32) (sourceChain sourceAddress : string)
    (payload : Payload) (tokenSymbol : string) (amount : uint256) : M unit :=
  let! s := get in
  run! revert_if (negb (keccak256 env (enc_string sourceChain) =? AGORIC_CHAIN_HASH))
         Quizzler__WrongSource in
  run! revert_if (negb (keccak256 env (enc_string sourceAddress) =? SENDER_HASH s))
         Quizzler__WrongSender in
  run! revert_if (0 <? amount) Quizzler__NoTokens in
  let tokenAddress := tokenAddresses env tokenSymbol in
  let! msgId := abi_decode (decode_msgId payload) in
  run! revert_if (negb (msgId =? CREATE_SURVEY_MSG_ID)) Quizzler__WrongMsgId in
  let! ok := _handleCreateSurvey payload amount tokenAddress in
  run! revert_if (negb ok) Quizzler__SurveyCreationFailed in
  emit (ExecuteEventCompleted commandId msgId).

Definition _execute (commandId : bytes32) (sourceChain sourceAddress : string)
    (payload : Payload) : M unit :=
  let! s := get in
  run! revert_if (negb (keccak256 env (enc_string sourceChain) =? AGORIC_CHAIN_HASH))
         Quizzler__WrongSource in
  run! revert_if (negb (keccak256 env (enc_string sourceAddress) =? SENDER_HASH s))
         Quizzler__WrongSender in
  let! msgId := abi_decode (decode_msgId payload) in
  run! (if msgId =? CANCEL_SURVEY_MSG_ID then
          let! a := abi_decode (decode_cancel payload) in
          let! ok := _handleCancelSurvey (cn_signature a) (cn_token a)
                       (cn_timeToExpire a) (cn_surveyId a) in
          revert_if (negb ok) Quizzler__SurveyCancelFailed
        else if msgId =? PAY_REWARDS_MSG_ID then
          let! a := abi_decode (decode_reward payload) in
          let! ok := _handleRewardPayment (pr_signature a) (pr_token a)
                       (pr_timeToExpire a) (pr_surveyIds a)
                       (pr_participantsEncoded a) in
          revert_if (negb ok) Quizzler__RewardPaymentFailed
        else revert Quizzler__WrongMsgId) in
  emit (ExecuteEventCompleted commandId msgId).

End Contract.

(** ** Transactions

    The state-changing external functions of the contract.  [execute] and
    [executeWithToken] are inherited from Axelar's executable base
    contract, which asks the gateway to approve the call and then runs
    [_execute] / [_executeWithToken]; the model takes every call as
    approved, which only adds behaviours. *)

Inductive Call :=
| Call_execute (commandId : bytes32) (sourceChain sourceAddress : string)
    (payload : Payload)
| Call_executeWithToken (commandId : bytes32) (sourceChain sourceAddress : string)
    (payload : Payload) (tokenSymbol : string) (amount : uint256)
| Call_setManager (_manager : address) (_status : bool)
| Call_setGasStation (_gasStation _gasOwner : address)
| Call_preAuthValidations (_message _token : bytes32) (_timeToExpire : uint256)
    (_signature : bytes).

Definition dispatch (env : Env) (c : Call) : M unit :=
  match c with
  | Call_execute cid sc sa p => _execute env cid sc sa p
  | Call_executeWithToken cid sc sa p sym amt => _executeWithToken env cid sc sa p sym amt
  | Call_setManager m b => setManager env m b
  | Call_setGasStation g o => setGasStation env g o
  | Call_preAuthValidations m t e sig =>
      run! preAuthValidations env m t e sig in ret tt
  end.

(** The state after a transaction: a reverted one leaves no trace. *)
Definition transact (env : Env) (c : Call) (s : State) : State :=
  match dispatch env c s with
  | Ok (_, s') => s'
  | Revert _ => s
  end.

(** The state after running a piece of contract code as a whole call. *)
Definition state_after {A} (m : M A) (s : State) : State :=
  match m s with
  | Ok (_, s') => s'
  | Revert _ => s
  end.

Definition reverts {A} (r : Result A) : Prop := exists e, r = Revert e.

(** A history: transactions in order, each under its own environment
    (caller, block, and the outside world at that time). *)
Fixpoint run_calls (calls : list (Env * Call)) (s : State) : State :=
  match calls with
  | [] => s
  | (env, c) :: rest => run_calls rest (transact env c s)
  end.

(** No transaction is sent from the zero address. *)
Definition senders_nonzero (calls : list (Env * Call)) : Prop :=
  Forall (fun ec => msg_sender (fst ec) <> 0) calls.

(** The constructor fixes the trusted sender and the chain name; all
    mappings start empty. *)
Definition constructor (env : Env) (sender_ _chainName : string) : State :=
  {| chainName := _chainName;
     gasStation := 0;
     gasOwner := 0;
     SENDER_HASH := keccak256 env (enc_string sender_);
     owner := 0;
     managers := ∅;
     surveys := ∅;
     surveysUsersRewarded := ∅;
     proofTokens := ∅;
     log := [] |}.

(** [initialize]: the caller becomes owner ([__Ownable_init]) and manager.
    The once-only guard of [initializer] is left out: the model runs it
    once, on the constructed state. *)
Definition initialize (env : Env) : M unit :=
  run! modify (set_owner (msg_sender env)) in
  modify (set_managers <[msg_sender env := true]>).

(** The contract as deployed and initialized by the caller of [env]. *)
Definition initial_state (env : Env) (sender_ _chainName : string) : State :=
  state_after (initialize env) (constructor env sender_ _chainName).

(** How often [SurveyFinished(id)] occurs in a log. *)
Definition is_finished_of (id : string) (e : Event) : bool :=
  match e with
  | SurveyFinished id' => bool_decide (id' = id)
  | _ => false
  end.

Definition count_finished (id : string) (l : list Event) : nat :=
  length (filter (fun e => is_finished_of id e = true) l).

(** The token calls recorded in a log. *)
Definition is_transfer (e : Event) : bool :=
  match e with
  | ERC20_transfer _ _ _ => true
  | _ => false
  end.

Definition transfers (l : list Event) : list Event :=
  filter (fun e => is_transfer e = true) l.

(** ** The states successful handlers leave *)

(** The record written by a create. *)
Definition created_record (env : Env) (a : CreateSurveyArgs) (tokenAddress : address)
    : SurveyStruct :=
  {| surveyCreator := msg_sender env;
     participantsLimit := cs_participantsLimit a;
     rewardAmount := cs_rewardAmount a;
     participantsRewarded := 0;
     surveyHash := cs_surveyHash a;
     rewardToken := tokenAddress;
     isCanceled := false |}.

(** The state a successful cancel leaves. *)
Definition canceled_state (id : string) (tok : bytes32) (s : State) : State :=
  let r := (surveys s)@[id] in
  add_log (SurveyCanceled id)
    (set_surveys <[id := with_isCanceled true r]>
       (add_log (ERC20_transfer (rewardToken r) (surveyCreator r)
                   (participantsLimit r * rewardAmount r
                    - participantsRewarded r * rewardAmount r))
          (set_proofTokens <[tok := true]> s))).

(** The state a successful payment of one reward leaves. *)
Definition paid_state (id : string) (participant : address) (s : State) : State :=
  let r := (surveys s)@[id] in
  let s4 :=
    add_log (RewardPaid participant id (rewardAmount r))
      (set_surveysUsersRewarded
         <[id := <[participant := true]> (surveysUsersRewarded s)@[id]]>
         (set_surveys <[id := with_participantsRewarded (participantsRewarded r + 1) r]>
            (add_log (ERC20_transfer (rewardToken r) participant (rewardAmount r)) s)))
  in
  if participantsRewarded r + 1 =? participantsLimit r
  then add_log (SurveyFinished id) s4
  else s4.

(** The source checks shared by both entry points. *)
Definition trusted_source (env : Env) (sourceChain sourceAddress : string) (s : State) : Prop :=
  keccak256 env (enc_string sourceChain) = AGORIC_CHAIN_HASH env /\
  keccak256 env (enc_string sourceAddress) = SENDER_HASH s.

(** ** Accepted and rejected proofs *)

(** What validation and the manager check that follows it demand of a
    digest, a token, an expiry and a signature. *)
Definition proof_accepted (env : Env) (s : State) (message tok : bytes32)
    (expiry : uint256) (sig : bytes) : Prop :=
  message <> 0 /\
  (proofTokens s)@[tok] = false /\
  block_timestamp env <= expiry /\
  exists signer,
    ECDSA_recover env (toEthSignedMessageHash env message) sig = Some signer /\
    signer <> 0 /\
    (managers s)@[signer] = true.

(** The ways a proof fails: expired, signed by the zero identity, signed by
    someone who is not a manager, or carrying a token already used. *)
Definition proof_rejected (env : Env) (s : State) (message tok : bytes32)
    (expiry : uint256) (sig : bytes) : Prop :=
  expiry < block_timestamp env \/
  ECDSA_recover env (toEthSignedMessageHash env message) sig = Some 0 \/
  (exists signer,
     ECDSA_recover env (toEthSignedMessageHash env message) sig = Some signer /\
     (managers s)@[signer] = false) \/
  (proofTokens s)@[tok] = true.



(** Two create payloads that differ at most in the decoded owner and in
    the signature. *)
Definition same_but_owner (a a2 : CreateSurveyArgs) : Prop :=
  cs_token a2 = cs_token a /\
  cs_timeToExpire a2 = cs_timeToExpire a /\
  cs_surveyId a2 = cs_surveyId a /\
  cs_participantsLimit a2 = cs_participantsLimit a /\
  cs_rewardAmount a2 = cs_rewardAmount a /\
  cs_surveyHash a2 = cs_surveyHash a /\
  cs_amountToGasStation a2 = cs_amountToGasStation a.

(** The business-state checks of a cancel, one of which fails. *)
Definition cancel_check_fails (env : Env) (id : string) (s : State) : Prop :=
  let r := (surveys s)@[id] in
  surveyCreator r = 0 \/
  isCanceled r = true \/
  (msg_sender env <> surveyCreator r /\ (managers s)@[msg_sender env] = false) \/
  participantsLimit r <= participantsRewarded r.

Definition cancel_business_error (e : Error) : Prop :=
  e = Quizzler__SurveyDoesNotExist \/ e = Quizzler__SurveyAlreadyCanceled \/
  e = Quizzler__OnlyCreatorOrManager \/ e = Quizzler__AllParticipantsRewarded.

(** ** Elementary effects

    Every successful call is a sequence of a few elementary state changes,
    each with the guard the code has checked before it. *)

Inductive effect (env : Env) (s : State) : State -> Prop :=
| eff_token tok :
    (proofTokens s)@[tok] = false ->
    effect env s (set_proofTokens <[tok := true]> s)
| eff_log e :
    (forall id, e <> SurveyFinished id) ->
    effect env s (add_log e s)
| eff_managers f :
    effect env s (set_managers f s)
| eff_gas g o :
    effect env s (set_gas g o s)
| eff_create id r :
    surveyCreator (surveys s)@[id] = 0 ->
    surveyCreator r = msg_sender env ->
    participantsRewarded r = 0 ->
    isCanceled r = false ->
    effect env s (set_surveys <[id := r]> s)
| eff_cancel id :
    surveyCreator (surveys s)@[id] <> 0 ->
    participantsRewarded (surveys s)@[id] < participantsLimit (surveys s)@[id] ->
    effect env s (set_surveys <[id := with_isCanceled true (surveys s)@[id]]> s)
| eff_pay id participant :
    isCanceled (surveys s)@[id] = false ->
    participantsRewarded (surveys s)@[id] < participantsLimit (surveys s)@[id] ->
    effect env s (paid_state id participant s).

(** ** Invariants *)

(** The rewarded count never exceeds the limit. *)
Definition limit_respected (s : State) : Prop :=
  forall id, participantsRewarded (surveys s)@[id] <= participantsLimit (surveys s)@[id].

(** A survey counts as finished when its positive limit has been reached. *)
Definition finished_flag (r : SurveyStruct) : nat :=
  if (0 <? participantsLimit r) && (participantsRewarded r =? participantsLimit r)
  then 1%nat else 0%nat.

(** The ledger and the log agree: an absent survey has the zero limit, a
    canceled survey has not reached its limit, and [SurveyFinished] has
    been logged for exactly the finished surveys, once each. *)
Definition survey_consistent (id : string) (s : State) : Prop :=
  let r := (surveys s)@[id] in
  participantsRewarded r <= participantsLimit r /\
  (surveyCreator r = 0 -> participantsLimit r = 0) /\
  (isCanceled r = true -> participantsRewarded r < participantsLimit r) /\
  count_finished id (log s) = finished_flag r.

Definition ledger_consistent (s : State) : Prop :=
  forall id, survey_consistent id s.

(** How an existing survey record may evolve. *)
Definition survey_extends (r r' : SurveyStruct) : Prop :=
  surveyCreator r <> 0 ->
  surveyCreator r' = surveyCreator r /\
  participantsLimit r' = participantsLimit r /\
  rewardAmount r' = rewardAmount r /\
  surveyHash r' = surveyHash r /\
  rewardToken r' = rewardToken r /\
  participantsRewarded r <= participantsRewarded r' /\
  (isCanceled r = true -> isCanceled r' = true).

(** How the state may evolve: existing surveys as above, and used tokens
    stay used. *)
Definition extends (s s' : State) : Prop :=
  (forall id, survey_extends (surveys s)@[id] (surveys s')@[id]) /\
  (forall tok, (proofTokens s)@[tok] = true -> (proofTokens s')@[tok] = true).

(** ** The survey view *)

Record SurveyView := mkView {
  v_surveyCreator : address;
  v_participantsLimit : uint256;
  v_rewardAmount : uint256;
  v_participantsRewarded : uint256;
  v_amountToFund : uint256;
  v_surveyHash : bytes32;
  v_isCanceled : bool
}.

Definition getSurvey (_surveyId : string) : M SurveyView :=
  let! s := get in
  let r := (surveys s)@[_surveyId] in
  let! amountToFund := getSurveyAmountToFund _surveyId in
  ret {| v_surveyCreator := surveyCreator r;
         v_participantsLimit := participantsLimit r;
         v_rewardAmount := rewardAmount r;
         v_participantsRewarded := participantsRewarded r;
         v_amountToFund := amountToFund;
         v_surveyHash := surveyHash r;
         v_isCanceled := isCanceled r |}.

(** ** The byte strings the proof digests hash *)

Definition createProof_packed (env : Env) (_token : bytes32) (_timeToExpire : uint256)
    (_owner : address) (_surveyId : string)
    (_participantsLimit _rewardAmount : uint256) (_surveyHash : bytes32)
    (_amountToGasStation : uint256) : bytes :=
  enc_uint256 (getChainID env) ++ enc_bytes32 _token ++ enc_uint256 _timeToExpire
  ++ enc_address _owner ++ enc_string _surveyId
  ++ enc_uint256 _participantsLimit ++ enc_uint256 _rewardAmount
  ++ enc_bytes32 _surveyHash ++ enc_uint256 _amountToGasStation.

Definition cancelProof_packed (env : Env) (_token : bytes32) (_timeToExpire : uint256)
    (_surveyId : string) : bytes :=
  enc_uint256 (getChainID env) ++ enc_bytes32 _token ++ enc_uint256 _timeToExpire
  ++ enc_string _surveyId.

Definition rewardProof_packed (env : Env) (_token : bytes32) (_timeToExpire : uint256)
    (_surveyIds : list string) (_participantsEncoded : list address) : bytes :=
  enc_uint256 (getChainID env) ++ enc_bytes32 _token ++ enc_uint256 _timeToExpire
  ++ enc_uint256 (N.of_nat (length _surveyIds))
  ++ enc_uint256 (N.of_nat (length _participantsEncoded)).

(** Values in the range of their Solidity type. *)
Definition is_uint256 (x : N) : Prop := x < 2 ^ 256.
Definition is_address (x : N) : Prop := x < 2 ^ 160.

(** ** Further invariants *)

(** The administrative part of the storage that this contract writes. *)
Definition admin_state (s : State) :=
  (managers s, gasStation s, gasOwner s, SENDER_HASH s, chainName s).

(** The funding of every survey fits a [uint256]. *)
Definition funding_bounded (s : State) : Prop :=
  forall id,
    participantsLimit (surveys s)@[id] * rewardAmount (surveys s)@[id] <= MAX_UINT256.

Definition is_zero_transfer (e : Event) : Prop :=
  match e with
  | ERC20_transfer _ _ amount => amount = 0
  | _ => True
  end.

(** No survey needs funds and no token call has moved any. *)
Definition unfunded (s : State) : Prop :=
  (forall id,
     participantsLimit (surveys s)@[id] * rewardAmount (surveys s)@[id] = 0) /\
  Forall is_zero_transfer (log s).

(** The membership maps hold [true] only, and as many entries as the
    survey has rewarded participants. *)
Definition membership_consistent (s : State) : Prop :=
  forall id,
    (forall p v, (surveysUsersRewarded s)@[id] !! p = Some v -> v = true) /\
    N.of_nat (size (surveysUsersRewarded s)@[id])
    = participantsRewarded (surveys s)@[id].

(** How often a survey id occurs in a batch. *)
Definition occurrences (id : string) (ids : list string) : N :=
  N.of_nat (length (filter (fun x => x = id) ids)).

Definition is_completion (e : Event) : bool :=
  match e with
  | ExecuteEventCompleted _ _ => true
  | _ => false
  end.

(** The completion events in a log. *)
Definition completions (l : list Event) : list Event :=
  filter (fun e => is_completion e = true) l.

(** The proof a payload of a given kind presents in a state: digest,
    token, expiry and signature. *)
Definition presented_proof (env : Env) (s : State) (kind : uint256) (payload : Payload)
    : option (bytes32 * bytes32 * uint256 * bytes) :=
  if kind =? CREATE_SURVEY_MSG_ID then
    match decode_create payload with
    | Some a =>
        Some (createProof env s (cs_token a) (cs_timeToExpire a) (cs_owner a)
                (cs_surveyId a) (cs_participantsLimit a) (cs_rewardAmount a)
                (cs_surveyHash a) (cs_amountToGasStation a),
              cs_token a, cs_timeToExpire a, cs_signature a)
    | None => None
    end
  else if kind =? CANCEL_SURVEY_MSG_ID then
    match decode_cancel payload with
    | Some a =>
        Some (cancelProof env s (cn_token a) (cn_timeToExpire a) (cn_surveyId a),
              cn_token a, cn_timeToExpire a, cn_signature a)
    | None => None
    end
  else if kind =? PAY_REWARDS_MSG_ID then
    match decode_reward payload with
    | Some a =>
        Some (rewardProof env s (pr_token a) (pr_timeToExpire a) (pr_surveyIds a)
                (pr_participantsEncoded a),
              pr_token a, pr_timeToExpire a, pr_signature a)
    | None => None
    end
  else None.

(** ** Actions

    What a successful call does, handler by handler, each with all the
    guards the code has checked. *)

(** The state a successful create handler leaves. *)
Definition created_state (env : Env) (a : CreateSurveyArgs) (tokenAddress : address)
    (s : State) : State :=
  add_log (SurveyCreated (cs_surveyId a) (msg_sender env) (cs_participantsLimit a)
             (cs_rewardAmount a) (cs_surveyHash a))
    (add_log (ERC20_transfer tokenAddress (gasStation s) (cs_amountToGasStation a))
       (set_surveys <[cs_surveyId a := created_record env a tokenAddress]>
          (set_proofTokens <[cs_token a := true]> s))).

Inductive action (env : Env) (s : State) : State -> Prop :=
| act_validate tok :
    (proofTokens s)@[tok] = false ->
    action env s (set_proofTokens <[tok := true]> s)
| act_pay id participant :
    isCanceled (surveys s)@[id] = false ->
    participantsRewarded (surveys s)@[id] < participantsLimit (surveys s)@[id] ->
    (surveysUsersRewarded s)@[id]@[participant] = false ->
    action env s (paid_state id participant s)
| act_cancel id tok :
    surveyCreator (surveys s)@[id] <> 0 ->
    isCanceled (surveys s)@[id] = false ->
    participantsRewarded (surveys s)@[id] < participantsLimit (surveys s)@[id] ->
    (proofTokens s)@[tok] = false ->
    action env s (canceled_state id tok s)
| act_create a tokenAddress :
    surveyCreator (surveys s)@[cs_surveyId a] = 0 ->
    (proofTokens s)@[cs_token a] = false ->
    cs_participantsLimit a * cs_rewardAmount a = 0 ->
    cs_amountToGasStation a = 0 ->
    action env s (created_state env a tokenAddress s)
| act_complete cid kind :
    action env s (add_log (ExecuteEventCompleted cid kind) s)
| act_setManager m b :
    owner s = msg_sender env ->
    action env s (add_log (UpdateManager m b) (set_managers <[m := b]> s))
| act_setGasStation g o :
    owner s = msg_sender env ->
    action env s (set_gas g o s).

(** ** The errors a call can fail with *)

Definition validation_error (e : Error) : bool :=
  match e with
  | Quizzler__InvalidMessageHash | Quizzler__TokenAlreadyUsed | Quizzler__ProofExpired
  | ECDSAInvalidSignature | Quizzler__ZeroAddress => true
  | _ => false
  end.

Definition origin_error (e : Error) : bool :=
  match e with
  | Quizzler__WrongSource | Quizzler__WrongSender | AbiDecodeError
  | Quizzler__WrongMsgId => true
  | _ => false
  end.

Definition transfer_error (e : Error) : bool :=
  match e with
  | ExternalCallReverted => true
  | Panic code => code =? 17
  | _ => false
  end.

Definition create_error (e : Error) : bool :=
  validation_error e || transfer_error e ||
  match e with
  | AbiDecodeError | Quizzler_InvalidSigner | Quizzler__SurveyExists
  | Quizzler_InvalidTrxValue => true
  | _ => false
  end.

Definition cancel_error (e : Error) : bool :=
  validation_error e || transfer_error e ||
  match e with
  | Quizzler__SurveyDoesNotExist | Quizzler__SurveyAlreadyCanceled
  | Quizzler__OnlyCreatorOrManager | Quizzler__AllParticipantsRewarded
  | Quizzler_InvalidSigner => true
  | _ => false
  end.

Definition payment_error (e : Error) : bool :=
  transfer_error e ||
  match e with
  | Quizzler__SurveyAlreadyCanceled | Quizzler__AllParticipantsRewarded
  | Quizzler__UserAlreadyRewarded => true
  | _ => false
  end.

Definition reward_error (e : Error) : bool :=
  validation_error e || payment_error e ||
  match e with
  | Quizzler__ArrayLengthMismatch | Quizzler_InvalidSigner => true
  | _ => false
  end.

Definition call_error (c : Call) (e : Error) : bool :=
  match c with
  | Call_execute _ _ _ _ => origin_error e || cancel_error e || reward_error e
  | Call_executeWithToken _ _ _ _ _ _ =>
      origin_error e || create_error e ||
      match e with Quizzler__NoTokens => true | _ => false end
  | Call_setManager _ _ =>
      match e with
      | OwnableUnauthorizedAccount | Quizzler__InvalidManagerAddress => true
      | _ => false
      end
  | Call_setGasStation _ _ =>
      match e with
      | OwnableUnauthorizedAccount | Quizzler__InvalidGasStationAddress
      | Quizzler__InvalidGasOwnerAddress => true
      | _ => false
      end
  | Call_preAuthValidations _ _ _ _ => validation_error e
  end.

(** ** A small concrete environment, to run the contract on examples

    The hash folds the bytes into a nonzero number; a signature by signer
    [a] (one byte) over a hash [h] is the byte [a] followed by the 32 bytes
    of [h], and recovery checks the hash and returns [a]; as in the
    library, it fails where the signer would be the zero identity. *)
Module Demo.

Definition demo_keccak (bs : bytes) : bytes32 :=
  1 + fold_left (fun acc b => (acc * 257 + Byte.to_N b + 1) mod (2 ^ 255)) bs 0.

Definition demo_recover (h : bytes32) (sig : bytes) : option address :=
  match sig with
  | [] => None
  | a :: rest => if bool_decide (Byte.to_N <$> rest = Byte.to_N <$> enc_bytes32 h)
                    && negb (Byte.to_N a =? 0)
                 then Some (Byte.to_N a) else None
  end.

Definition demo_tokens (symbol : string) : address :=
  if bool_decide (symbol = "aUSDC"%string) then 900 else 0.

Definition env_at (sender : address) (now : uint256) : Env :=
  {| msg_sender := sender;
     block_timestamp := now;
     block_chainid := 43113;
     keccak256 := demo_keccak;
     ECDSA_recover := demo_recover;
     tokenAddresses := demo_tokens;
     transfer_returns := fun _ token _ _ => negb (token =? 0) |}.

Definition sign (env : Env) (signer : address) (message : bytes32) : bytes :=
  byte_of_N signer :: enc_bytes32 (toEthSignedMessageHash env message).

Definition relayer : address := 77.
Definition manager : address := 5.
Definition stranger : address := 9.

(** deployed by [manager], trusted sender "agoric1sender" *)
Definition s0 : State :=
  initial_state (env_at manager 0) "agoric1sender" "Avalanche".

Definition env : Env := env_at relayer 1000.

Definition create_payload (s : State) (signer : address) (token : bytes32)
    (expiry : uint256) (own : address) (id : string) (limit reward hash gas : uint256)
    : Payload :=
  {| decode_msgId := Some CREATE_SURVEY_MSG_ID;
     decode_create := Some
       {| cs_signature := sign env signer
                            (createProof env s token expiry own id limit reward hash gas);
          cs_token := token; cs_timeToExpire := expiry; cs_owner := own;
          cs_surveyId := id; cs_participantsLimit := limit;
          cs_rewardAmount := reward; cs_surveyHash := hash;
          cs_amountToGasStation := gas |};
     decode_cancel := None;
     decode_reward := None |}.

Definition cancel_payload (s : State) (signer : address) (token : bytes32)
    (expiry : uint256) (id : string) : Payload :=
  {| decode_msgId := Some CANCEL_SURVEY_MSG_ID;
     decode_create := None;
     decode_cancel := Some
       {| cn_signature := sign env signer (cancelProof env s token expiry id);
          cn_token := token; cn_timeToExpire := expiry; cn_surveyId := id |};
     decode_reward := None |}.

Definition reward_payload (s : State) (signer : address) (token : bytes32)
    (expiry : uint256) (ids : list string) (ps : list address) : Payload :=
  {| decode_msgId := Some PAY_REWARDS_MSG_ID;
     decode_create := None;
     decode_cancel := None;
     decode_reward := Some
       {| pr_signature := sign env signer (rewardProof env s token expiry ids ps);
          pr_token := token; pr_timeToExpire := expiry;
          pr_surveyIds := ids; pr_participantsEncoded := ps |} |}.

(** A state holding survey "S2" (limit 3, reward 5, one participant paid),
    created by [relayer]. *)
Definition s_funded : State :=
  set_surveysUsersRewarded <["S2"%string := {[ 21 := true ]}]>
    (set_surveys <["S2"%string := mkSurvey relayer 3 5 1 1234 900 false]> s0).

(** Messages and a history used in the examples. *)
Definition funded_create : Payload :=
  create_payload s0 manager 11 2000 42 "S1" 2 10 99 1.

Definition free_create : Payload :=
  create_payload s0 manager 11 2000 42 "S1" 2 0 99 0.

Definition pay_S1 : Payload :=
  reward_payload s0 manager 12 2000 ["S1"; "S1"]%string [31; 32].

Definition history : list (Env * Call) :=
  [ (env, Call_executeWithToken 1 "agoric" "agoric1sender" free_create "aUSDC" 0);
    (env, Call_execute 2 "agoric" "agoric1sender" pay_S1) ].

Definition cancel_S2 : Payload := cancel_payload s_funded manager 21 2000 "S2".
Definition expired_cancel : Payload := cancel_payload s_funded manager 22 500 "S2".



Definition stranger_pay : Payload :=
  reward_payload s_funded stranger 25 2000 ["S2"]%string [41].
Definition stranger_create : Payload :=
  create_payload s_funded stranger 26 2000 42 "S3" 4 0 99 0.

End Demo.

(** * Proofs *)

(** ** Reasoning about the monad *)

Lemma bind_Ok {A B} (m : M A) (k : A -> M B) s r :
  bind m k s = Ok r -> exists a s', m s = Ok (a, s') /\ k a s' = Ok r.
Proof.
  unfold bind. destruct (m s) as [ [a s'] | e]; [eauto | discriminate].
Qed.

Lemma bind_Revert {A B} (m : M A) (k : A -> M B) s e :
  m s = Revert e -> bind m k s = Revert e.
Proof. unfold bind. intros ->. reflexivity. Qed.

Lemma bind_step {A B} (m : M A) (k : A -> M B) s a s' :
  m s = Ok (a, s') -> bind m k s = k a s'.
Proof. unfold bind. intros ->. reflexivity. Qed.

Lemma revert_if_Ok c e s u s' :
  revert_if c e s = Ok (u, s') -> c = false /\ s' = s.
Proof. destruct c; cbv; [discriminate | intros [= <- <-]; auto]. Qed.

Lemma revert_if_false e s : revert_if false e s = Ok (tt, s).
Proof. reflexivity. Qed.

Lemma revert_if_true e s : revert_if true e s = Revert e.
Proof. reflexivity. Qed.

Lemma checked_add_Ok a b s r s' :
  checked_add a b s = Ok (r, s') -> r = a + b /\ a + b <= MAX_UINT256 /\ s' = s.
Proof.
  unfold checked_add. destruct (a + b <=? MAX_UINT256) eqn:E; [|discriminate].
  intros [= <- <-]. apply N.leb_le in E. auto.
Qed.

Lemma checked_mul_Ok a b s r s' :
  checked_mul a b s = Ok (r, s') -> r = a * b /\ a * b <= MAX_UINT256 /\ s' = s.
Proof.
  unfold checked_mul. destruct (a * b <=? MAX_UINT256) eqn:E; [|discriminate].
  intros [= <- <-]. apply N.leb_le in E. auto.
Qed.

Lemma checked_sub_Ok a b s r s' :
  checked_sub a b s = Ok (r, s') -> r = a - b /\ b <= a /\ s' = s.
Proof.
  unfold checked_sub. destruct (b <=? a) eqn:E; [|discriminate].
  intros [= <- <-]. apply N.leb_le in E. auto.
Qed.

Lemma abi_decode_Ok {A} (o : option A) s a s' :
  abi_decode o s = Ok (a, s') -> o = Some a /\ s' = s.
Proof. destruct o; cbv; [intros [= <- <-]; auto | discriminate]. Qed.

Lemma getSurveyAmountToFund_Ok id s r s' :
  getSurveyAmountToFund id s = Ok (r, s') ->
  r = participantsLimit (surveys s)@[id] * rewardAmount (surveys s)@[id] /\
  participantsLimit (surveys s)@[id] * rewardAmount (surveys s)@[id] <= MAX_UINT256 /\
  s' = s.
Proof.
  unfold getSurveyAmountToFund, bind, get. apply checked_mul_Ok.
Qed.

Lemma getSurveysRewardsAmountPayded_Ok id s r s' :
  getSurveysRewardsAmountPayded id s = Ok (r, s') ->
  r = participantsRewarded (surveys s)@[id] * rewardAmount (surveys s)@[id] /\
  participantsRewarded (surveys s)@[id] * rewardAmount (surveys s)@[id] <= MAX_UINT256 /\
  s' = s.
Proof.
  unfold getSurveysRewardsAmountPayded, bind, get. apply checked_mul_Ok.
Qed.

Lemma IERC20_transfer_Ok env token to amount s u s' :
  IERC20_transfer env token to amount s = Ok (u, s') ->
  transfer_returns env (log s) token to amount = true /\
  s' = add_log (ERC20_transfer token to amount) s.
Proof.
  unfold IERC20_transfer, bind, get.
  destruct (transfer_returns env (log s) token to amount); [|discriminate].
  intros [= <- <-]. auto.
Qed.

(** Take a successful run apart, one statement at a time. *)
Ltac inv_run H :=
  cbv beta zeta in H;
  lazymatch type of H with
  | bind _ _ _ = Ok _ =>
      let a := fresh "v" in
      let s' := fresh "s" in
      let H1 := fresh "Hrun" in
      apply bind_Ok in H; destruct H as (a & s' & H1 & H);
      inv_run H1; inv_run H
  | revert_if _ _ _ = Ok _ =>
      let Hc := fresh "Hchk" in
      apply revert_if_Ok in H; destruct H as [Hc ->]
  | get _ = Ok _ => injection H as <- <-
  | ret _ _ = Ok _ => injection H as <- <-
  | modify _ _ = Ok _ => injection H as <- <-
  | emit _ _ = Ok _ => injection H as <- <-
  | revert _ _ = Ok _ => discriminate H
  | Ok _ = Ok _ => injection H as <- <-
  | Revert _ = Ok _ => discriminate H
  | checked_add _ _ _ = Ok _ =>
      let Hv := fresh "Hval" in
      let Hb := fresh "Hbound" in
      apply checked_add_Ok in H; destruct H as (Hv & Hb & ->)
  | checked_mul _ _ _ = Ok _ =>
      let Hv := fresh "Hval" in
      let Hb := fresh "Hbound" in
      apply checked_mul_Ok in H; destruct H as (Hv & Hb & ->)
  | checked_sub _ _ _ = Ok _ =>
      let Hv := fresh "Hval" in
      let Hb := fresh "Hbound" in
      apply checked_sub_Ok in H; destruct H as (Hv & Hb & ->)
  | abi_decode _ _ = Ok _ =>
      let Hd := fresh "Hdec" in
      apply abi_decode_Ok in H; destruct H as [Hd ->]
  | getSurveyAmountToFund _ _ = Ok _ =>
      let Hv := fresh "Hval" in
      let Hb := fresh "Hbound" in
      apply getSurveyAmountToFund_Ok in H; destruct H as (Hv & Hb & ->)
  | getSurveysRewardsAmountPayded _ _ = Ok _ =>
      let Hv := fresh "Hval" in
      let Hb := fresh "Hbound" in
      apply getSurveysRewardsAmountPayded_Ok in H; destruct H as (Hv & Hb & ->)
  | IERC20_transfer _ _ _ _ _ = Ok _ =>
      let Ht := fresh "Hcall" in
      apply IERC20_transfer_Ok in H; destruct H as (Ht & ->)
  | _ => idtac
  end.

(** ** Mappings *)

Lemma mapping_get_insert `{Countable K} `{SolDefault V} (m : gmap K V) i j v :
  (<[i := v]> m)@[j] = if decide (i = j) then v else m@[j].
Proof.
  unfold mapping_get. rewrite lookup_insert. destruct (decide (i = j)); reflexivity.
Qed.

Lemma mapping_get_insert_eq `{Countable K} `{SolDefault V} (m : gmap K V) i v :
  (<[i := v]> m)@[i] = v.
Proof. rewrite mapping_get_insert. destruct (decide (i = i)); congruence. Qed.

Lemma mapping_get_insert_ne `{Countable K} `{SolDefault V} (m : gmap K V) i j v :
  i <> j -> (<[i := v]> m)@[j] = m@[j].
Proof. intros. rewrite mapping_get_insert. destruct (decide (i = j)); congruence. Qed.

Lemma mapping_get_empty `{Countable K} `{SolDefault V} (k : K) :
  (∅ : gmap K V)@[k] = sol_default.
Proof. unfold mapping_get. rewrite lookup_empty. reflexivity. Qed.

(** ** Proof validation *)

Section Validation.

Variable env : Env.

(** What a successful validation has checked, and its only effect. *)
Lemma preAuthValidations_Ok m tok e sig s signer s' :
  preAuthValidations env m tok e sig s = Ok (signer, s') ->
  m <> 0 /\ (proofTokens s)@[tok] = false /\ block_timestamp env <= e /\
  ECDSA_recover env (toEthSignedMessageHash env m) sig = Some signer /\
  signer <> 0 /\ s' = set_proofTokens <[tok := true]> s.
Proof.
  unfold preAuthValidations, getSigner. intros Hrun. inv_run Hrun.
  destruct (ECDSA_recover _ _ _) as [a|] eqn:Hrec; inv_run Hrun0.
  apply N.eqb_neq in Hchk, Hchk2. apply N.ltb_ge in Hchk1.
  repeat split; auto.
Qed.

(** A consumed token fails validation whatever else is presented. *)
Lemma preAuthValidations_used m tok e sig s :
  (proofTokens s)@[tok] = true ->
  preAuthValidations env m tok e sig s = Revert Quizzler__InvalidMessageHash \/
  preAuthValidations env m tok e sig s = Revert Quizzler__TokenAlreadyUsed.
Proof.
  intros Hused. unfold preAuthValidations.
  destruct (m =? 0) eqn:Hm.
  - left. reflexivity.
  - right. cbv [bind revert_if ret get revert]. rewrite Hused. reflexivity.
Qed.

Lemma preAuthValidations_expired m tok e sig s :
  e < block_timestamp env ->
  reverts (preAuthValidations env m tok e sig s).
Proof.
  intros Hexp. apply N.ltb_lt in Hexp. unfold preAuthValidations.
  cbv [bind revert_if ret get revert].
  destruct (m =? 0); [eexists; reflexivity|].
  destruct ((proofTokens s)@[tok]); [eexists; reflexivity|].
  rewrite Hexp. eexists; reflexivity.
Qed.

End Validation.

(** ** The handlers, when they succeed *)

Section Handlers.

Variable env : Env.

Lemma _handleCreateSurvey_Ok payload amount tokenAddress s b s' :
  _handleCreateSurvey env payload amount tokenAddress s = Ok (b, s') ->
  exists a,
    decode_create payload = Some a /\
    b = true /\
    amount = cs_participantsLimit a * cs_rewardAmount a + cs_amountToGasStation a /\
    proof_accepted env s
      (createProof env s (cs_token a) (cs_timeToExpire a) (cs_owner a) (cs_surveyId a)
         (cs_participantsLimit a) (cs_rewardAmount a) (cs_surveyHash a)
         (cs_amountToGasStation a))
      (cs_token a) (cs_timeToExpire a) (cs_signature a) /\
    transfer_returns env (log s) tokenAddress (gasStation s) (cs_amountToGasStation a)
      = true /\
    surveyCreator (surveys s)@[cs_surveyId a] = 0 /\
    s' = add_log (SurveyCreated (cs_surveyId a) (msg_sender env)
                    (cs_participantsLimit a) (cs_rewardAmount a) (cs_surveyHash a))
           (add_log (ERC20_transfer tokenAddress (gasStation s)
                       (cs_amountToGasStation a))
              (set_surveys <[cs_surveyId a := created_record env a tokenAddress]>
                 (set_proofTokens <[cs_token a := true]> s))).
Proof.
  unfold _handleCreateSurvey. intros Hrun. inv_run Hrun.
  apply preAuthValidations_Ok in Hrun0 as (Hm & Hfresh & Hexp & Hrec & Hnz & ->).
  simpl in *. subst.
  apply negb_false_iff in Hchk, Hchk0, Hchk1. apply N.eqb_eq in Hchk0, Hchk1.
  exists v. unfold proof_accepted. repeat split; eauto.
Qed.

Lemma _handleCancelSurvey_Ok sig tok e id s b s' :
  _handleCancelSurvey env sig tok e id s = Ok (b, s') ->
  b = true /\
  surveyCreator (surveys s)@[id] <> 0 /\
  isCanceled (surveys s)@[id] = false /\
  (msg_sender env = surveyCreator (surveys s)@[id]
   \/ (managers s)@[msg_sender env] = true) /\
  participantsRewarded (surveys s)@[id] < participantsLimit (surveys s)@[id] /\
  proof_accepted env s (cancelProof env s tok e id) tok e sig /\
  s' = canceled_state id tok s.
Proof.
  unfold _handleCancelSurvey. intros Hrun. inv_run Hrun.
  apply preAuthValidations_Ok in Hrun0 as (Hm & Hfresh & Hexp & Hrec & Hnz & ->).
  simpl in *. subst.
  apply N.eqb_neq in Hchk. apply N.leb_gt in Hchk2. apply negb_false_iff in Hchk3.
  unfold proof_accepted. repeat split; eauto.
  apply andb_false_iff in Hchk1 as [Hc|Hc]; apply negb_false_iff in Hc.
  - left. apply N.eqb_eq in Hc. exact Hc.
  - right. exact Hc.
Qed.

Lemma payReward_Ok id participant s u s' :
  payReward env id participant s = Ok (u, s') ->
  isCanceled (surveys s)@[id] = false /\
  participantsRewarded (surveys s)@[id] < participantsLimit (surveys s)@[id] /\
  (surveysUsersRewarded s)@[id]@[participant] = false /\
  s' = paid_state id participant s.
Proof.
  unfold payReward. intros Hrun. inv_run Hrun.
  simpl in Hrun. rewrite mapping_get_insert_eq in Hrun. simpl in Hrun.
  apply N.leb_gt in Hchk0.
  repeat split; auto.
  unfold paid_state. subst v3.
  destruct (_ =? _); inv_run Hrun; reflexivity.
Qed.

Lemma _handleRewardPayment_Ok sig tok e ids ps s b s' :
  _handleRewardPayment env sig tok e ids ps s = Ok (b, s') ->
  b = true /\
  length ids = length ps /\
  proof_accepted env s (rewardProof env s tok e ids ps) tok e sig /\
  payRewards env ids ps (set_proofTokens <[tok := true]> s) = Ok (tt, s').
Proof.
  unfold _handleRewardPayment. intros Hrun. inv_run Hrun.
  apply preAuthValidations_Ok in Hrun0 as (Hm & Hfresh & Hexp & Hrec & Hnz & ->).
  simpl in *.
  apply negb_false_iff in Hchk, Hchk0. apply N.eqb_eq in Hchk.
  match goal with H : payRewards _ _ _ _ = Ok (?u, _) |- _ => destruct u end.
  unfold proof_accepted. repeat split; eauto. lia.
Qed.

Lemma _executeWithToken_Ok cid sc sa payload sym amount s u s' :
  _executeWithToken env cid sc sa payload sym amount s = Ok (u, s') ->
  trusted_source env sc sa s /\
  amount = 0 /\
  decode_msgId payload = Some CREATE_SURVEY_MSG_ID /\
  exists s1,
    _handleCreateSurvey env payload amount (tokenAddresses env sym) s = Ok (true, s1) /\
    s' = add_log (ExecuteEventCompleted cid CREATE_SURVEY_MSG_ID) s1.
Proof.
  unfold _executeWithToken. intros Hrun. inv_run Hrun.
  repeat match goal with
         | H : negb (_ =? _) = false |- _ => apply negb_false_iff, N.eqb_eq in H
         | H : (0 <? _) = false |- _ => apply N.ltb_ge in H
         | H : negb ?b = false |- _ => apply negb_false_iff in H
         end.
  subst. repeat split; auto; [lia | eauto].
Qed.

Lemma _execute_Ok cid sc sa payload s u s' :
  _execute env cid sc sa payload s = Ok (u, s') ->
  trusted_source env sc sa s /\
  ((decode_msgId payload = Some CANCEL_SURVEY_MSG_ID /\
    exists a s1,
      decode_cancel payload = Some a /\
      _handleCancelSurvey env (cn_signature a) (cn_token a) (cn_timeToExpire a)
        (cn_surveyId a) s = Ok (true, s1) /\
      s' = add_log (ExecuteEventCompleted cid CANCEL_SURVEY_MSG_ID) s1)
   \/
   (decode_msgId payload = Some PAY_REWARDS_MSG_ID /\
    exists a s1,
      decode_reward payload = Some a /\
      _handleRewardPayment env (pr_signature a) (pr_token a) (pr_timeToExpire a)
        (pr_surveyIds a) (pr_participantsEncoded a) s = Ok (true, s1) /\
      s' = add_log (ExecuteEventCompleted cid PAY_REWARDS_MSG_ID) s1)).
Proof.
  unfold _execute. intros Hrun. inv_run Hrun.
  repeat match goal with
         | H : negb (_ =? _) = false |- _ => apply negb_false_iff, N.eqb_eq in H
         end.
  split; [split; assumption|].
  match goal with H : (if ?m =? _ then _ else _) _ = Ok _ |- _ =>
    destruct (m =? CANCEL_SURVEY_MSG_ID) eqn:E1;
      [|destruct (m =? PAY_REWARDS_MSG_ID) eqn:E2]; inv_run H
  end.
  - apply N.eqb_eq in E1. subst. left. split; [assumption|].
    match goal with H : negb _ = false |- _ => apply negb_false_iff in H; subst end.
    eauto.
  - apply N.eqb_eq in E2. subst. right. split; [assumption|].
    match goal with H : negb _ = false |- _ => apply negb_false_iff in H; subst end.
    eauto.
Qed.

End Handlers.

#[local] Hint Constructors effect : core.

Lemma effects_step env s1 s2 s3 :
  rtc (effect env) s1 s2 -> effect env s2 s3 -> rtc (effect env) s1 s3.
Proof. intros H12 H23. eapply rtc_r; eauto. Qed.

Lemma payRewards_effects env ids ps s u s' :
  payRewards env ids ps s = Ok (u, s') -> rtc (effect env) s s'.
Proof.
  revert ids s. induction ps as [|p ps IH]; intros ids s Hrun; simpl in Hrun.
  - inv_run Hrun. apply rtc_refl.
  - destruct ids as [|id ids]; [discriminate|].
    inv_run Hrun.
    apply payReward_Ok in Hrun0 as (Hc & Hlt & _ & ->).
    eapply rtc_l; [apply eff_pay; eassumption|]. eapply IH; eassumption.
Qed.

Lemma _handleRewardPayment_effects env sig tok e ids ps s b s' :
  _handleRewardPayment env sig tok e ids ps s = Ok (b, s') -> rtc (effect env) s s'.
Proof.
  intros Hrun. apply _handleRewardPayment_Ok in Hrun as (_ & _ & Hacc & Hrun).
  destruct Hacc as (_ & Hfresh & _).
  eapply rtc_l; [apply eff_token; eassumption|].
  eapply payRewards_effects; eassumption.
Qed.

Lemma _handleCancelSurvey_effects env sig tok e id s b s' :
  _handleCancelSurvey env sig tok e id s = Ok (b, s') -> rtc (effect env) s s'.
Proof.
  intros Hrun. apply _handleCancelSurvey_Ok in Hrun
    as (_ & Hex & Hnc & _ & Hlt & Hacc & ->).
  destruct Hacc as (_ & Hfresh & _).
  unfold canceled_state.
  eapply effects_step; [|apply eff_log; discriminate].
  eapply effects_step;
    [|exact (eff_cancel env (add_log _ (set_proofTokens <[tok := true]> s)) id Hex Hlt)].
  eapply effects_step; [|apply eff_log; discriminate].
  apply rtc_once, eff_token, Hfresh.
Qed.

Lemma _handleCreateSurvey_effects env payload amount tk s b s' :
  _handleCreateSurvey env payload amount tk s = Ok (b, s') -> rtc (effect env) s s'.
Proof.
  intros Hrun. apply _handleCreateSurvey_Ok in Hrun
    as (a & _ & _ & _ & Hacc & _ & Hnew & ->).
  destruct Hacc as (_ & Hfresh & _).
  eapply effects_step; [|apply eff_log; discriminate].
  eapply effects_step; [|apply eff_log; discriminate].
  eapply effects_step; [|apply eff_create; simpl; auto].
  apply rtc_once, eff_token, Hfresh.
Qed.

Lemma dispatch_effects env c s u s' :
  dispatch env c s = Ok (u, s') -> rtc (effect env) s s'.
Proof.
  destruct c; simpl; intros Hrun.
  - apply _execute_Ok in Hrun
      as (_ & [(_ & a & s1 & _ & Hh & ->) | (_ & a & s1 & _ & Hh & ->)]).
    + eapply effects_step; [|apply eff_log; discriminate].
      eapply _handleCancelSurvey_effects; eassumption.
    + eapply effects_step; [|apply eff_log; discriminate].
      eapply _handleRewardPayment_effects; eassumption.
  - apply _executeWithToken_Ok in Hrun as (_ & _ & _ & s1 & Hh & ->).
    eapply effects_step; [|apply eff_log; discriminate].
    eapply _handleCreateSurvey_effects; eassumption.
  - unfold setManager, onlyOwner in Hrun. inv_run Hrun.
    eapply effects_step; [|apply eff_log; discriminate].
    apply rtc_once, eff_managers.
  - unfold setGasStation, onlyOwner in Hrun. inv_run Hrun.
    apply rtc_once, eff_gas.
  - inv_run Hrun.
    apply preAuthValidations_Ok in Hrun0 as (_ & Hfresh & _ & _ & _ & ->).
    apply rtc_once, eff_token, Hfresh.
Qed.

(** A property kept by every elementary effect is kept by every history. *)
Lemma transact_preserves (P : State -> Prop) env c s :
  (forall s1 s2, effect env s1 s2 -> P s1 -> P s2) ->
  P s -> P (transact env c s).
Proof.
  intros Hstep Hs. unfold transact.
  destruct (dispatch env c s) as [ [u s'] | e] eqn:Hrun; [|exact Hs].
  apply dispatch_effects in Hrun.
  induction Hrun; eauto.
Qed.

Lemma run_calls_preserves (P : State -> Prop) calls s :
  (forall env s1 s2, effect env s1 s2 -> P s1 -> P s2) ->
  P s -> P (run_calls calls s).
Proof.
  intros Hstep. revert s.
  induction calls as [| [env c] calls IH]; intros s Hs; simpl; [exact Hs|].
  apply IH, transact_preserves; eauto.
Qed.

Lemma run_calls_preserves_senders (P : State -> Prop) calls s :
  (forall env s1 s2, msg_sender env <> 0 -> effect env s1 s2 -> P s1 -> P s2) ->
  senders_nonzero calls ->
  P s -> P (run_calls calls s).
Proof.
  intros Hstep Hsend. revert s.
  induction Hsend as [| [env c] calls Hne Hsend IH]; intros s Hs; simpl; [exact Hs|].
  apply IH, transact_preserves; eauto.
Qed.

(** ** What an elementary effect changes *)

Lemma paid_state_surveys id p s :
  surveys (paid_state id p s) =
  <[id := with_participantsRewarded (participantsRewarded (surveys s)@[id] + 1)
            (surveys s)@[id]]> (surveys s).
Proof. unfold paid_state. destruct (_ =? _); reflexivity. Qed.

Lemma paid_state_proofTokens id p s :
  proofTokens (paid_state id p s) = proofTokens s.
Proof. unfold paid_state. destruct (_ =? _); reflexivity. Qed.

Lemma paid_state_log id p s :
  log (paid_state id p s) =
  log s ++ [ERC20_transfer (rewardToken (surveys s)@[id]) p (rewardAmount (surveys s)@[id]);
            RewardPaid p id (rewardAmount (surveys s)@[id])]
        ++ (if participantsRewarded (surveys s)@[id] + 1 =? participantsLimit (surveys s)@[id]
            then [SurveyFinished id] else []).
Proof.
  unfold paid_state. destruct (_ =? _); simpl; rewrite <- ?app_assoc; reflexivity.
Qed.

Lemma count_finished_app id l1 l2 :
  count_finished id (l1 ++ l2) = (count_finished id l1 + count_finished id l2)%nat.
Proof. unfold count_finished. rewrite filter_app, length_app. reflexivity. Qed.

Lemma count_finished_other id e :
  (forall id', e <> SurveyFinished id') -> count_finished id [e] = 0%nat.
Proof. intros Hne. destruct e; try reflexivity. destruct (Hne surveyId eq_refl). Qed.

Lemma count_finished_pay id token p amount id' amount' :
  count_finished id [ERC20_transfer token p amount; RewardPaid p id' amount'] = 0%nat.
Proof. reflexivity. Qed.

Lemma count_finished_same id : count_finished id [SurveyFinished id] = 1%nat.
Proof.
  unfold count_finished. simpl. rewrite filter_cons_True; [reflexivity|].
  apply bool_decide_eq_true. reflexivity.
Qed.

Lemma count_finished_diff id id' :
  id' <> id -> count_finished id [SurveyFinished id'] = 0%nat.
Proof.
  intros Hne. unfold count_finished. simpl. rewrite filter_cons_False; [reflexivity|].
  simpl. rewrite bool_decide_eq_false_2; [discriminate | assumption].
Qed.

(** ** The rewarded count never exceeds the limit *)

Lemma effect_limit_respected env s s' :
  effect env s s' -> limit_respected s -> limit_respected s'.
Proof.
  intros Heff Hinv id'. specialize (Hinv id').
  destruct Heff; simpl; try exact Hinv.
  - rewrite mapping_get_insert. destruct (decide (id = id')); [|exact Hinv].
    match goal with H : participantsRewarded r = 0 |- _ => rewrite H end. lia.
  - rewrite mapping_get_insert. destruct (decide (id = id')); [|exact Hinv].
    subst. simpl. exact Hinv.
  - rewrite paid_state_surveys, mapping_get_insert.
    destruct (decide (id = id')); [|exact Hinv].
    subst. simpl. lia.
Qed.

Lemma initial_state_limit_respected env sender_ name :
  limit_respected (initial_state env sender_ name).
Proof. intros id. simpl. rewrite mapping_get_empty. reflexivity. Qed.

Lemma run_calls_limit_respected calls s :
  limit_respected s -> limit_respected (run_calls calls s).
Proof.
  apply (run_calls_preserves limit_respected). apply effect_limit_respected.
Qed.

(** ** The ledger and the log stay consistent *)

Lemma finished_flag_below r :
  participantsRewarded r < participantsLimit r -> finished_flag r = 0%nat.
Proof.
  intros Hlt. unfold finished_flag.
  replace (participantsRewarded r =? participantsLimit r) with false.
  - rewrite andb_false_r. reflexivity.
  - symmetry. apply N.eqb_neq. lia.
Qed.

Lemma finished_flag_absent r :
  participantsLimit r = 0 -> finished_flag r = 0%nat.
Proof. intros H0. unfold finished_flag. rewrite H0. reflexivity. Qed.

Lemma effect_ledger_consistent env s s' :
  msg_sender env <> 0 ->
  effect env s s' -> ledger_consistent s -> ledger_consistent s'.
Proof.
  intros Hsender Heff Hinv id'.
  destruct (Hinv id') as (Hle & Habs & Hcan & Hcount).
  unfold survey_consistent.
  destruct Heff as [tok Hf | e He | f | g o | id r Hnew Hcr Hp Hc | id Hex Hlt
                    | id p Hc Hlt]; simpl.
  - repeat split; assumption.
  - rewrite count_finished_app, (count_finished_other _ _ He), Nat.add_0_r.
    repeat split; assumption.
  - repeat split; assumption.
  - repeat split; assumption.
  - rewrite mapping_get_insert. destruct (decide (id = id')) as [->|Hne];
      [|repeat split; assumption].
    repeat split.
    + rewrite Hp. lia.
    + intros Hz. congruence.
    + rewrite Hc. discriminate.
    + rewrite Hcount, (finished_flag_absent _ (Habs Hnew)).
      unfold finished_flag. rewrite Hp.
      destruct (participantsLimit r) eqn:HL; reflexivity.
  - rewrite mapping_get_insert. destruct (decide (id = id')) as [->|Hne];
      [|repeat split; assumption].
    simpl. repeat split; auto.
  - rewrite paid_state_surveys, paid_state_log, mapping_get_insert.
    rewrite !count_finished_app.
    destruct (decide (id = id')) as [->|Hne].
    + simpl. specialize (Hinv id'). rewrite Hcount, (finished_flag_below _ Hlt).
      repeat split.
      * lia.
      * assumption.
      * rewrite Hc. discriminate.
      * unfold finished_flag. simpl.
        replace (0 <? participantsLimit (surveys s)@[id']) with true
          by (symmetry; apply N.ltb_lt; lia).
        destruct (_ =? _); [apply count_finished_same | reflexivity].
    + repeat split; try assumption.
      rewrite Hcount, count_finished_pay.
      destruct (_ =? _);
        [rewrite (count_finished_diff _ _ Hne) | change (count_finished id' []) with 0%nat];
        simpl; apply Nat.add_0_r.
Qed.

Lemma run_calls_ledger_consistent calls s :
  senders_nonzero calls -> ledger_consistent s -> ledger_consistent (run_calls calls s).
Proof.
  apply (run_calls_preserves_senders ledger_consistent).
  intros env s1 s2 Hne. apply effect_ledger_consistent. exact Hne.
Qed.

Lemma initial_state_ledger_consistent env sender_ name :
  ledger_consistent (initial_state env sender_ name).
Proof.
  intros id. unfold survey_consistent. simpl. rewrite mapping_get_empty. simpl.
  repeat split; [lia | discriminate].
Qed.

(** ** Existing surveys and used tokens are stable *)

Lemma survey_extends_refl r : survey_extends r r.
Proof. intros _. repeat split; auto; lia. Qed.

Lemma extends_refl s : extends s s.
Proof. split; [intros id; apply survey_extends_refl | auto]. Qed.

Lemma extends_trans s1 s2 s3 : extends s1 s2 -> extends s2 s3 -> extends s1 s3.
Proof.
  intros [Hs12 Ht12] [Hs23 Ht23]. split; [|auto].
  intros id Hex.
  destruct (Hs12 id Hex) as (Hc & HL & HR & HH & HT & HP & HC).
  destruct (Hs23 id) as (Hc' & HL' & HR' & HH' & HT' & HP' & HC'); [congruence|].
  repeat split; try congruence; [lia | auto].
Qed.

Lemma effect_extends env s s' : effect env s s' -> extends s s'.
Proof.
  intros Heff.
  destruct Heff as [tok Hf | e He | f | g o | id r Hnew Hcr Hp Hc | id Hex Hlt
                    | id p Hc Hlt].
  - split; [intros id; apply survey_extends_refl|].
    intros t Ht. simpl. rewrite mapping_get_insert.
    destruct (decide (tok = t)); [reflexivity | exact Ht].
  - split; [intros id; apply survey_extends_refl | auto].
  - split; [intros id; apply survey_extends_refl | auto].
  - split; [intros id; apply survey_extends_refl | auto].
  - split; [|auto]. intros id'. simpl. rewrite mapping_get_insert.
    destruct (decide (id = id')) as [->|Hne]; [|apply survey_extends_refl].
    intros Hex. contradiction.
  - split; [|auto]. intros id'. simpl. rewrite mapping_get_insert.
    destruct (decide (id = id')) as [->|Hne]; [|apply survey_extends_refl].
    intros _. simpl. repeat split; auto; lia.
  - split; [|rewrite paid_state_proofTokens; auto].
    intros id'. rewrite paid_state_surveys, mapping_get_insert.
    destruct (decide (id = id')) as [->|Hne]; [|apply survey_extends_refl].
    intros _. simpl. repeat split; auto; lia.
Qed.

Lemma run_calls_extends calls s : extends s (run_calls calls s).
Proof.
  apply (run_calls_preserves (extends s)); [|apply extends_refl].
  intros env s1 s2 Heff Hs1. eapply extends_trans; [exact Hs1|].
  eapply effect_extends; eassumption.
Qed.

(** ** Results of calls *)

Lemma not_Ok_reverts {A} (r : Result A) : (forall x, r <> Ok x) -> reverts r.
Proof.
  destruct r as [x|e]; intros Hno; [destruct (Hno x eq_refl) | exists e; reflexivity].
Qed.

Lemma reverts_not_Ok {A} (r : Result A) x : reverts r -> r <> Ok x.
Proof. intros [e ->]. discriminate. Qed.

Lemma transact_reverts env c s : reverts (dispatch env c s) -> transact env c s = s.
Proof. intros [e He]. unfold transact. rewrite He. reflexivity. Qed.

Lemma state_after_reverts {A} (m : M A) s : reverts (m s) -> state_after m s = s.
Proof. intros [e He]. unfold state_after. rewrite He. reflexivity. Qed.

Lemma proof_rejected_not_accepted env s m tok e sig :
  proof_rejected env s m tok e sig -> ~ proof_accepted env s m tok e sig.
Proof.
  intros Hrej (Hm & Hfresh & Hexp & signer & Hrec & Hnz & Hman).
  destruct Hrej as [Hlate | [Hzero | [(signer' & Hrec' & Hnot) | Hused] ] ].
  - lia.
  - congruence.
  - rewrite Hrec in Hrec'. injection Hrec' as <-. congruence.
  - congruence.
Qed.

(** ** Creating a survey *)

(** C1. A create-survey envelope whose required funding
    [participantsLimit * rewardAmount + gasStationAmount] is positive cannot
    be handled successfully.  From a trusted source, the token-bearing entry
    point rejects every positive attached amount with [NoTokens]; the create
    handler succeeds only when the attached amount equals the required
    funding; so the entry point reverts whenever the required funding is
    positive, and where it succeeds the required funding is zero.  The entry
    point without token does not accept create messages at all. *)
Theorem funded_create_always_fails env cid sc sa payload sym amount a s :
  decode_create payload = Some a ->
  let required :=
    cs_participantsLimit a * cs_rewardAmount a + cs_amountToGasStation a in
  (trusted_source env sc sa s -> 0 < amount ->
   _executeWithToken env cid sc sa payload sym amount s = Revert Quizzler__NoTokens) /\
  (forall tk b s',
     _handleCreateSurvey env payload amount tk s = Ok (b, s') -> amount = required) /\
  (0 < required -> reverts (_executeWithToken env cid sc sa payload sym amount s)) /\
  (forall u s',
     _executeWithToken env cid sc sa payload sym amount s = Ok (u, s') -> required = 0) /\
  (decode_msgId payload = Some CREATE_SURVEY_MSG_ID ->
   reverts (_execute env cid sc sa payload s)).
Proof.
  intros Hdec required.
  assert (Hsucc : forall u s',
             _executeWithToken env cid sc sa payload sym amount s = Ok (u, s') ->
             required = 0).
  { intros u s' Hrun.
    apply _executeWithToken_Ok in Hrun as (_ & Hzero & _ & s1 & Hh & _).
    apply _handleCreateSurvey_Ok in Hh as (a' & Hdec' & _ & Hamount & _).
    rewrite Hdec in Hdec'. injection Hdec' as <-. subst required. congruence. }
  repeat split.
  - intros [Hchain Hsender] Hpos. unfold _executeWithToken, bind, get.
    rewrite Hchain, Hsender, !N.eqb_refl. simpl.
    apply N.ltb_lt in Hpos. rewrite Hpos. reflexivity.
  - intros tk b s' Hh.
    apply _handleCreateSurvey_Ok in Hh as (a' & Hdec' & _ & Hamount & _).
    rewrite Hdec in Hdec'. injection Hdec' as <-. exact Hamount.
  - intros Hpos. apply not_Ok_reverts. intros [u s'] Hrun.
    apply Hsucc in Hrun. lia.
  - exact Hsucc.
  - intros Hid. apply not_Ok_reverts. intros [u s'] Hrun.
    apply _execute_Ok in Hrun as (_ & [(Hid' & _) | (Hid' & _)]);
      rewrite Hid in Hid'; discriminate.
Qed.

(** C5. A create whose received amount differs from
    [participantsLimit * rewardAmount + gasStationAmount] fails, in the
    handler and so in the entry point, and the state after the transaction
    is the state before it: if no survey was recorded under the id, none is
    afterwards.  (The handler writes the record before it checks the
    funding; the revert discards that write.) *)
Theorem misfunded_create_leaves_no_record env cid sc sa payload sym amount tk a s :
  decode_create payload = Some a ->
  amount <> cs_participantsLimit a * cs_rewardAmount a + cs_amountToGasStation a ->
  reverts (_handleCreateSurvey env payload amount tk s) /\
  reverts (_executeWithToken env cid sc sa payload sym amount s) /\
  state_after (_handleCreateSurvey env payload amount tk) s = s /\
  transact env (Call_executeWithToken cid sc sa payload sym amount) s = s /\
  (surveyCreator (surveys s)@[cs_surveyId a] = 0 ->
   surveyCreator
     (surveys (transact env (Call_executeWithToken cid sc sa payload sym amount) s))
       @[cs_surveyId a] = 0).
Proof.
  intros Hdec Hne.
  assert (Hh : forall tk', reverts (_handleCreateSurvey env payload amount tk' s)).
  { intros tk'. apply not_Ok_reverts. intros [b s'] Hrun.
    apply _handleCreateSurvey_Ok in Hrun as (a' & Hdec' & _ & Hamount & _).
    rewrite Hdec in Hdec'. injection Hdec' as <-. contradiction. }
  assert (He : reverts (_executeWithToken env cid sc sa payload sym amount s)).
  { apply not_Ok_reverts. intros [u s'] Hrun.
    apply _executeWithToken_Ok in Hrun as (_ & _ & _ & s1 & Hrun & _).
    revert Hrun. apply reverts_not_Ok, Hh. }
  assert (Ht : transact env (Call_executeWithToken cid sc sa payload sym amount) s = s)
    by (apply transact_reverts, He).
  repeat split; auto.
  - apply state_after_reverts, Hh.
  - rewrite Ht. auto.
Qed.

Lemma canceled_state_log id tok s :
  log (canceled_state id tok s) =
  log s ++ [ERC20_transfer (rewardToken (surveys s)@[id]) (surveyCreator (surveys s)@[id])
              (participantsLimit (surveys s)@[id] * rewardAmount (surveys s)@[id]
               - participantsRewarded (surveys s)@[id] * rewardAmount (surveys s)@[id]);
            SurveyCanceled id].
Proof. unfold canceled_state. simpl. rewrite <- app_assoc. reflexivity. Qed.

Lemma canceled_state_survey id tok s :
  (surveys (canceled_state id tok s))@[id] = with_isCanceled true (surveys s)@[id].
Proof. unfold canceled_state. simpl. apply mapping_get_insert_eq. Qed.

(** The state a successful create transaction leaves. *)
Lemma _executeWithToken_state env cid sc sa payload sym amount s u s' :
  _executeWithToken env cid sc sa payload sym amount s = Ok (u, s') ->
  exists a,
    decode_create payload = Some a /\
    s' = add_log (ExecuteEventCompleted cid CREATE_SURVEY_MSG_ID)
           (add_log (SurveyCreated (cs_surveyId a) (msg_sender env)
                       (cs_participantsLimit a) (cs_rewardAmount a) (cs_surveyHash a))
              (add_log (ERC20_transfer (tokenAddresses env sym) (gasStation s)
                          (cs_amountToGasStation a))
                 (set_surveys
                    <[cs_surveyId a := created_record env a (tokenAddresses env sym)]>
                    (set_proofTokens <[cs_token a := true]> s)))).
Proof.
  intros Hrun. apply _executeWithToken_Ok in Hrun as (_ & _ & _ & s1 & Hh & ->).
  apply _handleCreateSurvey_Ok in Hh as (a & Hdec & _ & _ & _ & _ & _ & ->).
  exists a. split; [assumption | reflexivity].
Qed.

(** C10. After a successful create, the creator stored in the survey record
    is the caller of the entry point ([msg.sender]), whatever owner the
    payload carries: a payload that differs in the owner (and the
    signature) leaves, where it succeeds too, the very same state.  So
    every later successful cancel of that survey is by that caller or by a
    manager, and sends its refund to that caller. *)
Theorem created_survey_belongs_to_caller env cid sc sa payload sym amount s u s' :
  _executeWithToken env cid sc sa payload sym amount s = Ok (u, s') ->
  exists a,
    decode_create payload = Some a /\
    (surveys s')@[cs_surveyId a] = created_record env a (tokenAddresses env sym) /\
    surveyCreator (surveys s')@[cs_surveyId a] = msg_sender env /\
    (forall payload2 a2 u2 s2,
       decode_create payload2 = Some a2 -> same_but_owner a a2 ->
       _executeWithToken env cid sc sa payload2 sym amount s = Ok (u2, s2) ->
       s2 = s') /\
    (msg_sender env <> 0 ->
     forall calls env2 sig tok e b s3,
       _handleCancelSurvey env2 sig tok e (cs_surveyId a) (run_calls calls s')
         = Ok (b, s3) ->
       (msg_sender env2 = msg_sender env
        \/ (managers (run_calls calls s'))@[msg_sender env2] = true) /\
       exists refund,
         log s3 = log (run_calls calls s')
                  ++ [ERC20_transfer (tokenAddresses env sym) (msg_sender env) refund;
                      SurveyCanceled (cs_surveyId a)]).
Proof.
  intros Hrun.
  destruct (_executeWithToken_state _ _ _ _ _ _ _ _ _ _ Hrun) as (a & Hdec & Hs').
  assert (Hrec : (surveys s')@[cs_surveyId a]
                 = created_record env a (tokenAddresses env sym)).
  { rewrite Hs'. simpl. apply mapping_get_insert_eq. }
  exists a.
  split; [exact Hdec|]. split; [exact Hrec|].
  split; [rewrite Hrec; reflexivity|]. split; [|intros H calls env2 sig tok e b s3 H0; split].
  - intros payload2 a2 u2 s2 Hdec2 (Etok & Eexp & Eid & EL & ER & EH & EG) Hrun2.
    destruct (_executeWithToken_state _ _ _ _ _ _ _ _ _ _ Hrun2) as (a2' & Hdec2' & ->).
    rewrite Hdec2 in Hdec2'. injection Hdec2' as <-.
    rewrite Hs'. unfold created_record.
    rewrite Etok, Eid, EL, ER, EH, EG. reflexivity.
  - apply _handleCancelSurvey_Ok in H0 as (_ & _ & _ & Hauth & _).
    destruct (run_calls_extends calls s') as [Hext _].
    destruct (Hext (cs_surveyId a)) as (Hcr & _); [rewrite Hrec; exact H|].
    rewrite Hcr, Hrec in Hauth. exact Hauth.
  - apply _handleCancelSurvey_Ok in H0 as (_ & _ & _ & _ & _ & _ & ->).
    destruct (run_calls_extends calls s') as [Hext _].
    destruct (Hext (cs_surveyId a)) as (Hcr & _ & _ & _ & Htk & _);
      [rewrite Hrec; exact H|].
    rewrite canceled_state_log, Hcr, Htk, Hrec. simpl. eauto.
Qed.

(** ** Rejected proofs *)

Lemma preAuthValidations_marks env m tok e sig s signer s1 :
  preAuthValidations env m tok e sig s = Ok (signer, s1) ->
  (proofTokens s1)@[tok] = true.
Proof.
  intros Hrun. apply preAuthValidations_Ok in Hrun as (_ & _ & _ & _ & _ & ->).
  simpl. apply mapping_get_insert_eq.
Qed.

(** A rejected proof makes each handler revert. *)
Lemma rejected_proof_reverts env s :
  (forall payload a amount tk,
     decode_create payload = Some a ->
     proof_rejected env s
       (createProof env s (cs_token a) (cs_timeToExpire a) (cs_owner a) (cs_surveyId a)
          (cs_participantsLimit a) (cs_rewardAmount a) (cs_surveyHash a)
          (cs_amountToGasStation a))
       (cs_token a) (cs_timeToExpire a) (cs_signature a) ->
     reverts (_handleCreateSurvey env payload amount tk s)) /\
  (forall sig tok e id,
     proof_rejected env s (cancelProof env s tok e id) tok e sig ->
     reverts (_handleCancelSurvey env sig tok e id s)) /\
  (forall sig tok e ids ps,
     proof_rejected env s (rewardProof env s tok e ids ps) tok e sig ->
     reverts (_handleRewardPayment env sig tok e ids ps s)).
Proof.
  split; [|split].
  - intros payload a amount tk Hdec Hrej.
    apply not_Ok_reverts. intros [b s'] Hrun.
    apply _handleCreateSurvey_Ok in Hrun as (a' & Hdec' & _ & _ & Hacc & _).
    rewrite Hdec in Hdec'. injection Hdec' as <-.
    exact (proof_rejected_not_accepted _ _ _ _ _ _ Hrej Hacc).
  - intros sig tok e id Hrej.
    apply not_Ok_reverts. intros [b s'] Hrun.
    apply _handleCancelSurvey_Ok in Hrun as (_ & _ & _ & _ & _ & Hacc & _).
    exact (proof_rejected_not_accepted _ _ _ _ _ _ Hrej Hacc).
  - intros sig tok e ids ps Hrej.
    apply not_Ok_reverts. intros [b s'] Hrun.
    apply _handleRewardPayment_Ok in Hrun as (_ & _ & Hacc & _).
    exact (proof_rejected_not_accepted _ _ _ _ _ _ Hrej Hacc).
Qed.







(** ** One-time tokens *)

Lemma used_token_rejected env s m tok e sig :
  (proofTokens s)@[tok] = true -> proof_rejected env s m tok e sig.
Proof. intros Hused. right. right. right. exact Hused. Qed.

(** C3. A successful validation marks its token as consumed.  Once a token
    is marked, it stays marked through every later history of
    transactions (the set of consumed tokens only grows), and every later
    validation that uses it fails: the validation function itself for any
    digest, expiry and signature, and the create, cancel and pay-rewards
    handlers for any arguments. *)
Theorem used_token_never_validates_again tok :
  (forall env m e sig s signer s1,
     preAuthValidations env m tok e sig s = Ok (signer, s1) ->
     (proofTokens s1)@[tok] = true) /\
  (forall s calls,
     (proofTokens s)@[tok] = true ->
     (proofTokens (run_calls calls s))@[tok] = true /\
     forall env,
       (forall m e sig,
          reverts (preAuthValidations env m tok e sig (run_calls calls s))) /\
       (forall payload a amount tk,
          decode_create payload = Some a -> cs_token a = tok ->
          reverts (_handleCreateSurvey env payload amount tk (run_calls calls s))) /\
       (forall sig e id,
          reverts (_handleCancelSurvey env sig tok e id (run_calls calls s))) /\
       (forall sig e ids ps,
          reverts (_handleRewardPayment env sig tok e ids ps (run_calls calls s)))).
Proof.
  split; [intros env m e sig s signer s1; apply preAuthValidations_marks|].
  intros s calls Hused.
  assert (Hlater : (proofTokens (run_calls calls s))@[tok] = true)
    by (apply (run_calls_extends calls s), Hused).
  split; [exact Hlater|]. intros env.
  destruct (rejected_proof_reverts env (run_calls calls s))
    as (Hcreate & Hcancel & Hreward).
  repeat split.
  - intros m e sig.
    destruct (preAuthValidations_used env m tok e sig _ Hlater) as [-> | ->];
      eexists; reflexivity.
  - intros payload a amount tk Hdec <-.
    eapply Hcreate; [exact Hdec | apply used_token_rejected, Hlater].
  - intros sig e id. apply Hcancel, used_token_rejected, Hlater.
  - intros sig e ids ps. apply Hreward, used_token_rejected, Hlater.
Qed.

(** ** The pay-rewards digest *)

(** C7. Two pay-rewards batches with the same token and expiry, whose
    survey-id arrays have the same length and whose participant arrays have
    the same length, have the same proof digest, whatever the arrays
    contain. *)
Theorem rewardProof_commits_to_lengths_only env s tok e
    (ids ids' : list string) (ps ps' : list address) :
  length ids = length ids' ->
  length ps = length ps' ->
  rewardProof env s tok e ids ps = rewardProof env s tok e ids' ps'.
Proof.
  intros Hids Hps. unfold rewardProof. rewrite Hids, Hps. reflexivity.
Qed.

(** ** Cancelling a survey *)

(** C8. The cancel handler checks the state of the survey before it looks
    at the proof: whatever signature, token and expiry are presented, an
    absent survey fails with [SurveyDoesNotExist], then a canceled one with
    [SurveyAlreadyCanceled], then a caller who is neither creator nor
    manager with [OnlyCreatorOrManager], then a fully rewarded survey with
    [AllParticipantsRewarded]; and whenever one of these checks fails, the
    token is as consumed after the call as it was before. *)
Theorem cancel_checks_state_before_proof env sig tok e id s :
  let r := (surveys s)@[id] in
  let cancel := _handleCancelSurvey env sig tok e id in
  (surveyCreator r = 0 -> cancel s = Revert Quizzler__SurveyDoesNotExist) /\
  (surveyCreator r <> 0 -> isCanceled r = true ->
   cancel s = Revert Quizzler__SurveyAlreadyCanceled) /\
  (surveyCreator r <> 0 -> isCanceled r = false ->
   msg_sender env <> surveyCreator r -> (managers s)@[msg_sender env] = false ->
   cancel s = Revert Quizzler__OnlyCreatorOrManager) /\
  (surveyCreator r <> 0 -> isCanceled r = false ->
   msg_sender env = surveyCreator r \/ (managers s)@[msg_sender env] = true ->
   participantsLimit r <= participantsRewarded r ->
   cancel s = Revert Quizzler__AllParticipantsRewarded) /\
  (cancel_check_fails env id s ->
   (exists err, cancel_business_error err /\ cancel s = Revert err) /\
   (proofTokens (state_after cancel s))@[tok] = (proofTokens s)@[tok]).
Proof.
  intros r cancel.
  assert (H1 : surveyCreator r = 0 -> cancel s = Revert Quizzler__SurveyDoesNotExist).
  { intros Hz. subst cancel r. unfold _handleCancelSurvey, bind, get.
    rewrite Hz. reflexivity. }
  assert (H2 : surveyCreator r <> 0 -> isCanceled r = true ->
               cancel s = Revert Quizzler__SurveyAlreadyCanceled).
  { intros Hnz Hc. subst cancel r. unfold _handleCancelSurvey, bind, get.
    apply N.eqb_neq in Hnz. rewrite Hnz, Hc. reflexivity. }
  assert (H3 : surveyCreator r <> 0 -> isCanceled r = false ->
               msg_sender env <> surveyCreator r ->
               (managers s)@[msg_sender env] = false ->
               cancel s = Revert Quizzler__OnlyCreatorOrManager).
  { intros Hnz Hc Hs Hm. subst cancel r. unfold _handleCancelSurvey, bind, get.
    apply N.eqb_neq in Hnz, Hs. rewrite Hnz, Hc, Hs, Hm. reflexivity. }
  assert (H4 : surveyCreator r <> 0 -> isCanceled r = false ->
               msg_sender env = surveyCreator r \/ (managers s)@[msg_sender env] = true ->
               participantsLimit r <= participantsRewarded r ->
               cancel s = Revert Quizzler__AllParticipantsRewarded).
  { intros Hnz Hc Ha Hl. subst cancel r. unfold _handleCancelSurvey, bind, get.
    apply N.eqb_neq in Hnz. apply N.leb_le in Hl. rewrite Hnz, Hc. simpl.
    assert (Hauth : negb (msg_sender env =? surveyCreator (surveys s)@[id])
                    && negb (managers s)@[msg_sender env] = false).
    { destruct Ha as [Ha | Ha].
      - apply N.eqb_eq in Ha. rewrite Ha. reflexivity.
      - rewrite Ha. apply andb_false_r. }
    rewrite Hauth. simpl. rewrite Hl. reflexivity. }
  split; [exact H1|]. split; [exact H2|]. split; [exact H3|]. split; [exact H4|].
  intros Hfail. unfold cancel_check_fails in Hfail. fold r in Hfail. split.
  - unfold cancel_business_error.
    destruct (N.eq_dec (surveyCreator r) 0) as [Hz | Hnz]; [eauto 6|].
    destruct (isCanceled r) eqn:Hc; [eauto 6|].
    destruct (N.eq_dec (msg_sender env) (surveyCreator r)) as [Hs | Hs].
    + destruct Hfail as [Hz | [Hc' | [ [Hs' _] | Hl] ] ];
        [contradiction | congruence | contradiction | eauto 8].
    + destruct ((managers s)@[msg_sender env]) eqn:Hm; [|eauto 8].
      destruct Hfail as [Hz | [Hc' | [ [_ Hm'] | Hl] ] ];
        [contradiction | congruence | congruence | eauto 8].
  - rewrite state_after_reverts; [reflexivity|].
    apply not_Ok_reverts. intros [b s'] Hrun.
    apply _handleCancelSurvey_Ok in Hrun as (_ & Hex & Hnc & Hauth & Hlt & _).
    fold r in Hex, Hnc, Hauth, Hlt.
    destruct Hfail as [Hz | [Hc' | [ [Hs' Hm'] | Hl] ] ].
    + contradiction.
    + congruence.
    + destruct Hauth; [contradiction | congruence].
    + lia.
Qed.

Lemma _handleCancelSurvey_canceled env sig tok e id s :
  surveyCreator (surveys s)@[id] <> 0 ->
  isCanceled (surveys s)@[id] = true ->
  _handleCancelSurvey env sig tok e id s = Revert Quizzler__SurveyAlreadyCanceled.
Proof.
  intros Hnz Hc. unfold _handleCancelSurvey, bind, get.
  apply N.eqb_neq in Hnz. rewrite Hnz, Hc. reflexivity.
Qed.

(** A cancel message through the entry point fails when its handler does. *)
Lemma _execute_cancel_reverts env cid sc sa payload a s :
  decode_msgId payload = Some CANCEL_SURVEY_MSG_ID ->
  decode_cancel payload = Some a ->
  reverts (_handleCancelSurvey env (cn_signature a) (cn_token a) (cn_timeToExpire a)
             (cn_surveyId a) s) ->
  reverts (_execute env cid sc sa payload s).
Proof.
  intros Hid Hdec Hr. apply not_Ok_reverts. intros [u s'] Hrun.
  apply _execute_Ok in Hrun
    as (_ & [(_ & a' & s1 & Hdec' & Hh & _) | (Hid' & _)]).
  - rewrite Hdec in Hdec'. injection Hdec' as <-.
    revert Hh. apply reverts_not_Ok, Hr.
  - rewrite Hid in Hid'. discriminate.
Qed.

(** C6. A cancel message that is handled successfully finds the survey
    existing, not canceled and not fully rewarded; it makes exactly one
    token transfer, of [participantsLimit * rewardAmount -
    participantsRewarded * rewardAmount] to the recorded creator, and sets
    the canceled flag.  After it, through any history of transactions, a
    cancel of the same survey fails with [SurveyAlreadyCanceled] in the
    handler, the cancel message reverts, and the log, hence the list of
    transfers, is left as it was. *)
Theorem cancel_refunds_once env cid sc sa payload a s u s' :
  decode_msgId payload = Some CANCEL_SURVEY_MSG_ID ->
  decode_cancel payload = Some a ->
  _execute env cid sc sa payload s = Ok (u, s') ->
  let id := cn_surveyId a in
  let r := (surveys s)@[id] in
  surveyCreator r <> 0 /\ isCanceled r = false /\
  participantsRewarded r < participantsLimit r /\
  participantsRewarded r * rewardAmount r <= participantsLimit r * rewardAmount r /\
  log s' = log s ++ [ERC20_transfer (rewardToken r) (surveyCreator r)
                       (participantsLimit r * rewardAmount r
                        - participantsRewarded r * rewardAmount r);
                     SurveyCanceled id;
                     ExecuteEventCompleted cid CANCEL_SURVEY_MSG_ID] /\
  isCanceled (surveys s')@[id] = true /\
  forall calls env2,
    (forall sig2 tok2 e2,
       _handleCancelSurvey env2 sig2 tok2 e2 id (run_calls calls s')
       = Revert Quizzler__SurveyAlreadyCanceled) /\
    (forall cid2 sc2 sa2 payload2 a2,
       decode_msgId payload2 = Some CANCEL_SURVEY_MSG_ID ->
       decode_cancel payload2 = Some a2 ->
       cn_surveyId a2 = id ->
       reverts (_execute env2 cid2 sc2 sa2 payload2 (run_calls calls s')) /\
       transfers (log (transact env2 (Call_execute cid2 sc2 sa2 payload2)
                         (run_calls calls s')))
       = transfers (log (run_calls calls s'))).
Proof.
  intros Hid Hdec Hrun id r.
  apply _execute_Ok in Hrun
    as (_ & [(_ & a' & s1 & Hdec' & Hh & ->) | (Hid' & _)]);
    [|rewrite Hid in Hid'; discriminate].
  rewrite Hdec in Hdec'. injection Hdec' as <-.
  apply _handleCancelSurvey_Ok in Hh as (_ & Hex & Hnc & _ & Hlt & _ & ->).
  fold id in Hex, Hnc, Hlt. fold r in Hex, Hnc, Hlt.
  assert (Hflag : isCanceled
                    (surveys (add_log (ExecuteEventCompleted cid CANCEL_SURVEY_MSG_ID)
                                (canceled_state id (cn_token a) s)))@[id] = true).
  { simpl. rewrite mapping_get_insert_eq. reflexivity. }
  assert (Hcr : surveyCreator
                  (surveys (add_log (ExecuteEventCompleted cid CANCEL_SURVEY_MSG_ID)
                              (canceled_state id (cn_token a) s)))@[id] <> 0).
  { simpl. rewrite mapping_get_insert_eq. exact Hex. }
  split; [exact Hex|]. split; [exact Hnc|]. split; [exact Hlt|].
  split; [apply N.mul_le_mono_r; lia|].
  split; [simpl; rewrite <- !app_assoc; reflexivity|].
  split; [exact Hflag|].
  intros calls env2.
  destruct (run_calls_extends calls
              (add_log (ExecuteEventCompleted cid CANCEL_SURVEY_MSG_ID)
                 (canceled_state id (cn_token a) s))) as [Hext _].
  destruct (Hext id Hcr) as (Hcr' & _ & _ & _ & _ & _ & Hflag').
  assert (Hagain : forall sig2 tok2 e2,
             _handleCancelSurvey env2 sig2 tok2 e2 id
               (run_calls calls
                  (add_log (ExecuteEventCompleted cid CANCEL_SURVEY_MSG_ID)
                     (canceled_state id (cn_token a) s)))
             = Revert Quizzler__SurveyAlreadyCanceled).
  { intros sig2 tok2 e2. apply _handleCancelSurvey_canceled.
    - rewrite Hcr'. exact Hcr.
    - apply Hflag', Hflag. }
  split; [exact Hagain|].
  intros cid2 sc2 sa2 payload2 a2 Hid2 Hdec2 Hsame.
  assert (Hr : reverts (_execute env2 cid2 sc2 sa2 payload2
                          (run_calls calls
                             (add_log (ExecuteEventCompleted cid CANCEL_SURVEY_MSG_ID)
                                (canceled_state id (cn_token a) s))))).
  { eapply _execute_cancel_reverts; [exact Hid2 | exact Hdec2 |].
    rewrite Hsame, Hagain. eexists; reflexivity. }
  split; [exact Hr|].
  fold id. rewrite (transact_reverts _ (Call_execute cid2 sc2 sa2 payload2) _ Hr).
  reflexivity.
Qed.

(** ** The participant limit *)

(** C4. In the contract as deployed no survey has more rewarded
    participants than its limit, and every transaction keeps it so: from
    any state where [participantsRewarded <= participantsLimit] holds for
    every survey, it holds for every survey after any history of
    transactions. *)
Theorem rewarded_never_exceeds_limit :
  (forall env sender_ name, limit_respected (initial_state env sender_ name)) /\
  (forall s0 calls,
     limit_respected s0 ->
     forall id,
       participantsRewarded (surveys (run_calls calls s0))@[id]
       <= participantsLimit (surveys (run_calls calls s0))@[id]).
Proof.
  split.
  - apply initial_state_limit_respected.
  - intros s0 calls Hinv. apply run_calls_limit_respected, Hinv.
Qed.

(** ** The finished signal *)

Lemma payReward_limit_reached env id p s :
  isCanceled (surveys s)@[id] = false ->
  participantsLimit (surveys s)@[id] <= participantsRewarded (surveys s)@[id] ->
  payReward env id p s = Revert Quizzler__AllParticipantsRewarded.
Proof.
  intros Hc Hl. unfold payReward, bind, get.
  apply N.leb_le in Hl. rewrite Hc, Hl. reflexivity.
Qed.

(** Every survey paid in a successful batch was below its limit when the
    batch started. *)
Lemma payRewards_Ok_below env ids ps s u s' :
  payRewards env ids ps s = Ok (u, s') ->
  length ids = length ps ->
  forall id, In id ids ->
    participantsRewarded (surveys s)@[id] < participantsLimit (surveys s)@[id].
Proof.
  revert ids s. induction ps as [|p ps IH]; intros ids s Hrun Hlen id Hin.
  - destruct ids; [destruct Hin | discriminate Hlen].
  - destruct ids as [|id0 ids]; [destruct Hin|].
    simpl in Hrun. inv_run Hrun.
    apply payReward_Ok in Hrun0 as (_ & Hlt & _ & ->).
    destruct Hin as [-> | Hin]; [exact Hlt|].
    injection Hlen as Hlen.
    specialize (IH _ _ Hrun Hlen id Hin).
    rewrite paid_state_surveys, mapping_get_insert in IH.
    destruct (decide (id0 = id)) as [->|Hne]; [simpl in IH; lia | exact IH].
Qed.

Lemma finished_flag_one r :
  finished_flag r = 1%nat ->
  0 < participantsLimit r /\ participantsRewarded r = participantsLimit r.
Proof.
  unfold finished_flag.
  destruct (0 <? participantsLimit r) eqn:Hpos; [|discriminate].
  destruct (participantsRewarded r =? participantsLimit r) eqn:Heq; [|discriminate].
  intros _. split; [apply N.ltb_lt, Hpos | apply N.eqb_eq, Heq].
Qed.

Lemma finished_flag_le_1 r : (finished_flag r <= 1)%nat.
Proof. unfold finished_flag. destruct (_ && _); auto. Qed.

(** C9. Through any history of transactions (none from the zero address),
    starting from a consistent ledger, [SurveyFinished] has been logged for
    a survey once if its positive limit is reached and not at all
    otherwise, so never more than once.  It is logged by the payment whose
    increment brings the count to the limit: a successful payment adds one
    to the count and logs the signal exactly when the new count equals the
    limit.  Once it is logged, every payment for that survey fails with
    [AllParticipantsRewarded], and so does every batch that names the
    survey. *)
Theorem finished_signal_exactly_once s0 calls id :
  ledger_consistent s0 ->
  senders_nonzero calls ->
  let s := run_calls calls s0 in
  let r := (surveys s)@[id] in
  count_finished id (log s) = finished_flag r /\
  (count_finished id (log s) <= 1)%nat /\
  (forall env p u s',
     payReward env id p s = Ok (u, s') ->
     count_finished id (log s) = 0%nat /\
     participantsRewarded (surveys s')@[id] = participantsRewarded r + 1 /\
     count_finished id (log s') =
       if participantsRewarded r + 1 =? participantsLimit r then 1%nat else 0%nat) /\
  (count_finished id (log s) = 1%nat ->
   forall env,
     (forall p, payReward env id p s = Revert Quizzler__AllParticipantsRewarded) /\
     (forall sig tok e ids ps,
        In id ids -> reverts (_handleRewardPayment env sig tok e ids ps s))).
Proof.
  intros Hinv Hsend s r.
  pose proof (run_calls_ledger_consistent calls s0 Hsend Hinv id)
    as (Hle & Habs & Hcan & Hcount).
  fold s in Hle, Habs, Hcan, Hcount. fold r in Hle, Habs, Hcan, Hcount.
  split; [exact Hcount|].
  split; [rewrite Hcount; apply finished_flag_le_1|].
  split.
  - intros env p u s' Hrun.
    apply payReward_Ok in Hrun as (_ & Hlt & _ & ->). fold r in Hlt.
    assert (Hzero : count_finished id (log s) = 0%nat)
      by (rewrite Hcount; apply finished_flag_below, Hlt).
    split; [exact Hzero|]. split.
    + rewrite paid_state_surveys, mapping_get_insert_eq. reflexivity.
    + rewrite paid_state_log, !count_finished_app, Hzero, count_finished_pay.
      fold r. destruct (_ =? _); [apply count_finished_same | reflexivity].
  - intros Hone env. rewrite Hcount in Hone.
    apply finished_flag_one in Hone as [Hpos Hfull].
    assert (Hnc : isCanceled r = false).
    { destruct (isCanceled r) eqn:Hc; [|reflexivity].
      specialize (Hcan eq_refl). lia. }
    split.
    + intros p. apply payReward_limit_reached; [exact Hnc | fold r; lia].
    + intros sig tok e ids ps Hin.
      apply not_Ok_reverts. intros [b s'] Hrun.
      apply _handleRewardPayment_Ok in Hrun as (_ & Hlen & _ & Hrun).
      pose proof (payRewards_Ok_below _ _ _ _ _ _ Hrun Hlen id Hin) as Hlt.
      simpl in Hlt. fold r in Hlt. lia.
Qed.

(** * Examples

    The theorems above, at concrete messages under the environment of
    [Demo]. *)

Lemma funded_create_always_fails_witness :
  _executeWithToken Demo.env 1 "agoric" "agoric1sender" Demo.funded_create "aUSDC" 21
    Demo.s0 = Revert Quizzler__NoTokens /\
  reverts (_executeWithToken Demo.env 1 "agoric" "agoric1sender" Demo.funded_create
             "aUSDC" 0 Demo.s0).
Proof.
  split.
  - refine (proj1 (funded_create_always_fails Demo.env 1 "agoric" "agoric1sender"
                     Demo.funded_create "aUSDC" 21 _ Demo.s0 eq_refl) _ _).
    + split; vm_compute; reflexivity.
    + vm_compute; reflexivity.
  - refine (proj1 (proj2 (proj2
              (funded_create_always_fails Demo.env 1 "agoric" "agoric1sender"
                 Demo.funded_create "aUSDC" 0 _ Demo.s0 eq_refl))) _).
    vm_compute; reflexivity.
Defined.



Lemma used_token_never_validates_again_witness :
  (proofTokens (transact Demo.env
                  (Call_execute 1 "agoric" "agoric1sender" Demo.cancel_S2)
                  Demo.s_funded))@[21] = true /\
  (proofTokens (run_calls Demo.history
                  (transact Demo.env
                     (Call_execute 1 "agoric" "agoric1sender" Demo.cancel_S2)
                     Demo.s_funded)))@[21] = true.
Proof.
  assert (Hused : (proofTokens (transact Demo.env
                     (Call_execute 1 "agoric" "agoric1sender" Demo.cancel_S2)
                     Demo.s_funded))@[21] = true)
    by (vm_compute; reflexivity).
  split; [exact Hused|].
  exact (proj1 (proj2 (used_token_never_validates_again 21) _ Demo.history Hused)).
Defined.

Lemma rewarded_never_exceeds_limit_witness :
  limit_respected Demo.s0 /\
  participantsRewarded (surveys (run_calls Demo.history Demo.s0))@["S1"%string]
  <= participantsLimit (surveys (run_calls Demo.history Demo.s0))@["S1"%string].
Proof.
  assert (H0 : limit_respected Demo.s0).
  { intros id. unfold Demo.s0. simpl. rewrite mapping_get_empty. simpl. lia. }
  split; [exact H0|].
  exact (proj2 rewarded_never_exceeds_limit Demo.s0 Demo.history H0 "S1"%string).
Defined.

Lemma misfunded_create_leaves_no_record_witness :
  21 <> 2 * 10 + 1 + 1 /\
  transact Demo.env
    (Call_executeWithToken 1 "agoric" "agoric1sender"
       (Demo.create_payload Demo.s0 Demo.manager 11 2000 42 "S1" 2 10 99 2) "aUSDC" 21)
    Demo.s0 = Demo.s0.
Proof.
  assert (Hne : 21 <> 2 * 10 + 1 + 1) by (vm_compute; discriminate).
  split; [exact Hne|].
  refine (proj1 (proj2 (proj2 (proj2
            (misfunded_create_leaves_no_record Demo.env 1 "agoric" "agoric1sender"
               (Demo.create_payload Demo.s0 Demo.manager 11 2000 42 "S1" 2 10 99 2)
               "aUSDC" 21 900 _ Demo.s0 eq_refl _))))).
  vm_compute; discriminate.
Defined.

Lemma cancel_refunds_once_witness :
  log (transact Demo.env (Call_execute 1 "agoric" "agoric1sender" Demo.cancel_S2)
         Demo.s_funded)
  = [ERC20_transfer 900 Demo.relayer 10; SurveyCanceled "S2";
     ExecuteEventCompleted 1 CANCEL_SURVEY_MSG_ID].
Proof.
  destruct (dispatch Demo.env (Call_execute 1 "agoric" "agoric1sender" Demo.cancel_S2)
              Demo.s_funded) as [ [u s'] | err] eqn:Hrun;
    [|vm_compute in Hrun; discriminate Hrun].
  unfold transact. rewrite Hrun.
  destruct (cancel_refunds_once Demo.env 1 "agoric" "agoric1sender" Demo.cancel_S2 _
              Demo.s_funded u s' eq_refl eq_refl Hrun) as (_ & _ & _ & _ & Hlog & _).
  rewrite Hlog. vm_compute. reflexivity.
Defined.

Lemma rewardProof_commits_to_lengths_only_witness :
  rewardProof Demo.env Demo.s0 12 2000 ["S1"; "S1"]%string [31; 32]
  = rewardProof Demo.env Demo.s0 12 2000 ["S7"; "S8"]%string [55; 66].
Proof.
  apply rewardProof_commits_to_lengths_only; reflexivity.
Defined.

Lemma cancel_checks_state_before_proof_witness :
  _handleCancelSurvey Demo.env [] 21 2000 "S9" Demo.s_funded
  = Revert Quizzler__SurveyDoesNotExist.
Proof.
  apply (proj1 (cancel_checks_state_before_proof Demo.env [] 21 2000 "S9" Demo.s_funded)).
  vm_compute; reflexivity.
Defined.

Lemma finished_signal_exactly_once_witness :
  count_finished "S1" (log (run_calls Demo.history Demo.s0)) = 1%nat /\
  forall p, payReward Demo.env "S1" p (run_calls Demo.history Demo.s0)
            = Revert Quizzler__AllParticipantsRewarded.
Proof.
  assert (Hs : senders_nonzero Demo.history)
    by (repeat constructor; vm_compute; discriminate).
  destruct (finished_signal_exactly_once Demo.s0 Demo.history "S1"
              (initial_state_ledger_consistent _ _ _) Hs) as (_ & _ & _ & Hafter).
  assert (Hone : count_finished "S1" (log (run_calls Demo.history Demo.s0)) = 1%nat)
    by (vm_compute; reflexivity).
  split; [exact Hone | apply (Hafter Hone Demo.env)].
Defined.

Lemma created_survey_belongs_to_caller_witness :
  surveyCreator
    (surveys (transact Demo.env
                (Call_executeWithToken 1 "agoric" "agoric1sender" Demo.free_create
                   "aUSDC" 0) Demo.s0))@["S1"%string] = Demo.relayer.
Proof.
  destruct (dispatch Demo.env
              (Call_executeWithToken 1 "agoric" "agoric1sender" Demo.free_create
                 "aUSDC" 0) Demo.s0) as [ [u s'] | err] eqn:Hrun;
    [|vm_compute in Hrun; discriminate Hrun].
  unfold transact. rewrite Hrun.
  destruct (created_survey_belongs_to_caller _ _ _ _ _ _ _ _ _ _ Hrun)
    as (a & Hdec & _ & Hcreator & _).
  injection Hdec as <-. exact Hcreator.
Defined.

(** Survey "S2" (limit 3, reward 5, one participant paid): a second payment
    to the participant already paid fails. *)
Example pay_same_participant_twice :
  dispatch Demo.env
    (Call_execute 3 "agoric" "agoric1sender"
       (Demo.reward_payload Demo.s_funded Demo.manager 30 2000 ["S2"]%string [21]))
    Demo.s_funded
  = Revert Quizzler__UserAlreadyRewarded.
Proof. vm_compute. reflexivity. Qed.

(** After the cancel of "S2" a payment for it fails. *)
Example pay_after_cancel :
  dispatch Demo.env
    (Call_execute 3 "agoric" "agoric1sender"
       (Demo.reward_payload Demo.s_funded Demo.manager 30 2000 ["S2"]%string [41]))
    (transact Demo.env (Call_execute 1 "agoric" "agoric1sender" Demo.cancel_S2)
       Demo.s_funded)
  = Revert Quizzler__SurveyAlreadyCanceled.
Proof. vm_compute. reflexivity. Qed.

(** A message from another chain is rejected and leaves its token usable:
    the same message from the trusted chain then succeeds. *)
Example wrong_source_keeps_token :
  dispatch Demo.env (Call_execute 1 "osmosis" "agoric1sender" Demo.cancel_S2)
    Demo.s_funded = Revert Quizzler__WrongSource /\
  log (run_calls
         [ (Demo.env, Call_execute 1 "osmosis" "agoric1sender" Demo.cancel_S2);
           (Demo.env, Call_execute 2 "agoric" "agoric1sender" Demo.cancel_S2) ]
         Demo.s_funded)
  = [ERC20_transfer 900 Demo.relayer 10; SurveyCanceled "S2";
     ExecuteEventCompleted 2 CANCEL_SURVEY_MSG_ID].
Proof. split; vm_compute; reflexivity. Qed.

(** The validation function called on its own consumes the token of a
    proof signed by a stranger: it does not look at the manager set. *)
Example direct_validation_by_stranger :
  (proofTokens
     (transact Demo.env
        (Call_preAuthValidations (cancelProof Demo.env Demo.s_funded 24 2000 "S2")
           24 2000
           (Demo.sign Demo.env Demo.stranger
              (cancelProof Demo.env Demo.s_funded 24 2000 "S2")))
        Demo.s_funded))@[24] = true.
Proof. vm_compute. reflexivity. Qed.

(** * Further properties of the contract *)

(** ** Administration *)

Lemma onlyOwner_Ok env s u s' :
  onlyOwner env s = Ok (u, s') -> owner s = msg_sender env /\ s' = s.
Proof.
  unfold onlyOwner. intros Hrun. inv_run Hrun.
  match goal with H : negb _ = false |- _ => apply negb_false_iff, N.eqb_eq in H end.
  auto.
Qed.

Lemma setManager_Ok env m b s u s' :
  setManager env m b s = Ok (u, s') ->
  owner s = msg_sender env /\ m <> 0 /\
  s' = add_log (UpdateManager m b) (set_managers <[m := b]> s).
Proof.
  unfold setManager. intros Hrun. inv_run Hrun.
  match goal with H : onlyOwner _ _ = Ok _ |- _ => apply onlyOwner_Ok in H as [Ho ->] end.
  match goal with H : (_ =? 0) = false |- _ => apply N.eqb_neq in H end.
  auto.
Qed.

Lemma setGasStation_Ok env g o s u s' :
  setGasStation env g o s = Ok (u, s') ->
  owner s = msg_sender env /\ g <> 0 /\ o <> 0 /\ s' = set_gas g o s.
Proof.
  unfold setGasStation. intros Hrun. inv_run Hrun.
  match goal with H : onlyOwner _ _ = Ok _ |- _ => apply onlyOwner_Ok in H as [Ho ->] end.
  repeat match goal with H : (_ =? 0) = false |- _ => apply N.eqb_neq in H end.
  auto.
Qed.

(** X1. [setManager] is for the owner only and rejects the zero address;
    when it succeeds it sets the flag of that one address, leaves every
    other flag and the rest of the storage alone, and logs the update.
    Removing a manager takes effect on the proofs: every create, cancel or
    pay-rewards message whose proof is signed by the removed address
    reverts afterwards. *)
Theorem setManager_sets_one_flag env m b s :
  (owner s <> msg_sender env ->
   setManager env m b s = Revert OwnableUnauthorizedAccount) /\
  (owner s = msg_sender env -> m = 0 ->
   setManager env m b s = Revert Quizzler__InvalidManagerAddress) /\
  (owner s = msg_sender env -> m <> 0 ->
   exists s',
     setManager env m b s = Ok (tt, s') /\
     (managers s')@[m] = b /\
     (forall m', m' <> m -> (managers s')@[m'] = (managers s)@[m']) /\
     surveys s' = surveys s /\
     surveysUsersRewarded s' = surveysUsersRewarded s /\
     proofTokens s' = proofTokens s /\
     (owner s', gasStation s', gasOwner s', SENDER_HASH s')
     = (owner s, gasStation s, gasOwner s, SENDER_HASH s) /\
     log s' = log s ++ [UpdateManager m b] /\
     (b = false ->
      forall env2 message tok e sig,
        ECDSA_recover env2 (toEthSignedMessageHash env2 message) sig = Some m ->
        proof_rejected env2 s' message tok e sig)).
Proof.
  split; [|split].
  - intros Hne. unfold setManager, onlyOwner, bind, get.
    apply N.eqb_neq in Hne. rewrite Hne. reflexivity.
  - intros Ho ->. unfold setManager, onlyOwner, bind, get.
    rewrite Ho, N.eqb_refl. reflexivity.
  - intros Ho Hnz.
    exists (add_log (UpdateManager m b) (set_managers <[m := b]> s)).
    split.
    { unfold setManager, onlyOwner, bind, get.
      rewrite Ho, N.eqb_refl. simpl.
      apply N.eqb_neq in Hnz. rewrite Hnz. reflexivity. }
    simpl. split; [apply mapping_get_insert_eq|].
    split; [intros m' Hm'; apply mapping_get_insert_ne; congruence|].
    repeat split; try reflexivity.
    intros -> env2 message tok e sig Hrec.
    right. right. left. exists m. split; [exact Hrec|].
    simpl. apply mapping_get_insert_eq.
Qed.

(** X2. [setGasStation] is for the owner only and rejects a zero station
    and a zero owner, in that order; when it succeeds it replaces the two
    addresses and nothing else, and logs nothing.  From then on a create
    that succeeds forwards its gas-station amount to the new station. *)
Theorem setGasStation_sets_both env g o s :
  (owner s <> msg_sender env ->
   setGasStation env g o s = Revert OwnableUnauthorizedAccount) /\
  (owner s = msg_sender env -> g = 0 ->
   setGasStation env g o s = Revert Quizzler__InvalidGasStationAddress) /\
  (owner s = msg_sender env -> g <> 0 -> o = 0 ->
   setGasStation env g o s = Revert Quizzler__InvalidGasOwnerAddress) /\
  (owner s = msg_sender env -> g <> 0 -> o <> 0 ->
   exists s',
     setGasStation env g o s = Ok (tt, s') /\
     gasStation s' = g /\ gasOwner s' = o /\
     (owner s', managers s', SENDER_HASH s', chainName s')
     = (owner s, managers s, SENDER_HASH s, chainName s) /\
     (surveys s', surveysUsersRewarded s', proofTokens s', log s')
     = (surveys s, surveysUsersRewarded s, proofTokens s, log s) /\
     (forall env2 payload amount tk b s2,
        _handleCreateSurvey env2 payload amount tk s' = Ok (b, s2) ->
        exists a,
          decode_create payload = Some a /\
          log s2 = log s ++ [ERC20_transfer tk g (cs_amountToGasStation a);
                             SurveyCreated (cs_surveyId a) (msg_sender env2)
                               (cs_participantsLimit a) (cs_rewardAmount a)
                               (cs_surveyHash a)])).
Proof.
  split; [|split; [|split] ].
  - intros Hne. unfold setGasStation, onlyOwner, bind, get.
    apply N.eqb_neq in Hne. rewrite Hne. reflexivity.
  - intros Ho ->. unfold setGasStation, onlyOwner, bind, get.
    rewrite Ho, N.eqb_refl. reflexivity.
  - intros Ho Hg ->. unfold setGasStation, onlyOwner, bind, get.
    rewrite Ho, N.eqb_refl. simpl. apply N.eqb_neq in Hg. rewrite Hg. reflexivity.
  - intros Ho Hg Hgo. exists (set_gas g o s). split.
    { unfold setGasStation, onlyOwner, bind, get.
      rewrite Ho, N.eqb_refl. simpl.
      apply N.eqb_neq in Hg, Hgo. rewrite Hg, Hgo. reflexivity. }
    split; [reflexivity|]. split; [reflexivity|].
    split; [reflexivity|]. split; [reflexivity|].
    intros env2 payload amount tk b s2 Hrun.
    apply _handleCreateSurvey_Ok in Hrun as (a & Hdec & _ & _ & _ & _ & _ & ->).
    exists a. split; [exact Hdec|]. simpl. rewrite <- app_assoc. reflexivity.
Qed.

(** Payments leave the administrative storage alone. *)
Lemma paid_state_admin id p s : admin_state (paid_state id p s) = admin_state s.
Proof. unfold paid_state. destruct (_ =? _); reflexivity. Qed.

Lemma payRewards_admin env ids ps s u s' :
  payRewards env ids ps s = Ok (u, s') -> admin_state s' = admin_state s.
Proof.
  revert ids s. induction ps as [|p ps IH]; intros ids s Hrun; simpl in Hrun.
  - inv_run Hrun. reflexivity.
  - destruct ids as [|id ids]; [discriminate|].
    inv_run Hrun.
    match goal with H : payReward _ _ _ _ = Ok _ |- _ =>
      apply payReward_Ok in H as (_ & _ & _ & ->) end.
    rewrite (IH _ _ Hrun). apply paid_state_admin.
Qed.

Lemma dispatch_admin env c s u s' :
  dispatch env c s = Ok (u, s') ->
  admin_state s' = admin_state s \/
  (owner s = msg_sender env /\
   ((exists m b, c = Call_setManager m b) \/ (exists g o, c = Call_setGasStation g o))).
Proof.
  destruct c; simpl; intros Hrun.
  - left. apply _execute_Ok in Hrun
      as (_ & [(_ & a & s1 & _ & Hh & ->) | (_ & a & s1 & _ & Hh & ->)]).
    + apply _handleCancelSurvey_Ok in Hh as (_ & _ & _ & _ & _ & _ & ->). reflexivity.
    + apply _handleRewardPayment_Ok in Hh as (_ & _ & _ & Hh).
      apply payRewards_admin in Hh. exact Hh.
  - left. apply _executeWithToken_state in Hrun as (a & _ & ->). reflexivity.
  - right. apply setManager_Ok in Hrun as (Ho & _). eauto.
  - right. apply setGasStation_Ok in Hrun as (Ho & _). eauto.
  - left. inv_run Hrun.
    match goal with H : preAuthValidations _ _ _ _ _ _ = Ok _ |- _ =>
      apply preAuthValidations_Ok in H as (_ & _ & _ & _ & _ & ->) end.
    reflexivity.
Qed.

(** X3. The manager set, the gas-station addresses, the trusted sender
    and the chain name are changed by no message from the gateway and by
    no validation call, and by no call at all from someone who is not the
    owner: only a [setManager] or [setGasStation] sent by the owner changes
    them; the trusted sender and the chain name are changed by no call. *)
Theorem admin_state_changed_by_owner_only env c s :
  (admin_state (transact env c s) <> admin_state s ->
   owner s = msg_sender env /\
   ((exists m b, c = Call_setManager m b) \/ (exists g o, c = Call_setGasStation g o))) /\
  (owner s <> msg_sender env -> admin_state (transact env c s) = admin_state s) /\
  (SENDER_HASH (transact env c s), chainName (transact env c s))
  = (SENDER_HASH s, chainName s).
Proof.
  unfold transact.
  destruct (dispatch env c s) as [ [u s'] | err] eqn:Hrun.
  - pose proof (dispatch_admin _ _ _ _ _ Hrun) as Hadm.
    split; [|split].
    + intros Hne. destruct Hadm as [Heq | Hown]; [contradiction | exact Hown].
    + intros Hne. destruct Hadm as [Heq | [Hown _] ]; [exact Heq | contradiction].
    + destruct Hadm as [Heq | [_ [(m & b & ->) | (g & o & ->)] ] ].
      * unfold admin_state in Heq. congruence.
      * simpl in Hrun. apply setManager_Ok in Hrun as (_ & _ & ->). reflexivity.
      * simpl in Hrun. apply setGasStation_Ok in Hrun as (_ & _ & _ & ->). reflexivity.
  - split; [intros Hne; contradiction | split; reflexivity].
Qed.

(** ** Routing *)

Lemma trusted_source_checks env sc sa s :
  trusted_source env sc sa s ->
  negb (keccak256 env (enc_string sc) =? AGORIC_CHAIN_HASH env) = false /\
  negb (keccak256 env (enc_string sa) =? SENDER_HASH s) = false.
Proof.
  intros [Hc Hs]. rewrite Hc, Hs, !N.eqb_refl. auto.
Qed.

(** X4. Both entry points look at the origin first: a message whose source
    chain does not hash to the hash of "agoric" fails with [WrongSource],
    and one from that chain but from another sender with [WrongSender],
    whatever the payload is.  From the trusted origin, the entry point
    without token fails with [WrongMsgId] on every message kind other
    than cancel (1) and pay-rewards (2), and the entry point with token, at
    amount zero, on every kind other than create (0); a payload too short
    to carry a kind fails to decode. *)
Theorem envelopes_are_routed_by_origin_and_kind env cid sc sa payload sym amount s :
  (keccak256 env (enc_string sc) <> AGORIC_CHAIN_HASH env ->
   _execute env cid sc sa payload s = Revert Quizzler__WrongSource /\
   _executeWithToken env cid sc sa payload sym amount s = Revert Quizzler__WrongSource) /\
  (keccak256 env (enc_string sc) = AGORIC_CHAIN_HASH env ->
   keccak256 env (enc_string sa) <> SENDER_HASH s ->
   _execute env cid sc sa payload s = Revert Quizzler__WrongSender /\
   _executeWithToken env cid sc sa payload sym amount s = Revert Quizzler__WrongSender) /\
  (trusted_source env sc sa s ->
   (decode_msgId payload = None ->
    _execute env cid sc sa payload s = Revert AbiDecodeError /\
    _executeWithToken env cid sc sa payload sym 0 s = Revert AbiDecodeError) /\
   (forall kind,
      decode_msgId payload = Some kind ->
      (kind <> CANCEL_SURVEY_MSG_ID -> kind <> PAY_REWARDS_MSG_ID ->
       _execute env cid sc sa payload s = Revert Quizzler__WrongMsgId) /\
      (kind <> CREATE_SURVEY_MSG_ID ->
       _executeWithToken env cid sc sa payload sym 0 s = Revert Quizzler__WrongMsgId))).
Proof.
  split; [|split].
  - intros Hne. apply N.eqb_neq in Hne.
    unfold _execute, _executeWithToken, bind, get. rewrite Hne. split; reflexivity.
  - intros Hc Hne. apply N.eqb_neq in Hne.
    unfold _execute, _executeWithToken, bind, get.
    rewrite Hc, N.eqb_refl, Hne. split; reflexivity.
  - intros Htrust. destruct (trusted_source_checks _ _ _ _ Htrust) as [H1 H2].
    split.
    + intros Hnone. unfold _execute, _executeWithToken, bind, get.
      rewrite H1, H2, Hnone. split; reflexivity.
    + intros kind Hkind. split.
      * intros Hn1 Hn2. apply N.eqb_neq in Hn1, Hn2.
        unfold _execute, bind, get. rewrite H1, H2, Hkind. simpl.
        rewrite Hn1, Hn2. reflexivity.
      * intros Hn0. apply N.eqb_neq in Hn0.
        unfold _executeWithToken, bind, get. rewrite H1, H2, Hkind. simpl.
        rewrite Hn0. reflexivity.
Qed.

(** ** Batches of payments *)

Lemma preAuthValidations_accepted env s m tok e sig :
  proof_accepted env s m tok e sig ->
  exists signer,
    preAuthValidations env m tok e sig s
    = Ok (signer, set_proofTokens <[tok := true]> s) /\
    (managers s)@[signer] = true.
Proof.
  intros (Hm & Hfresh & Hexp & signer & Hrec & Hnz & Hman).
  exists signer. split; [|exact Hman].
  unfold preAuthValidations, getSigner, bind, get.
  apply N.eqb_neq in Hm, Hnz. apply N.ltb_ge in Hexp.
  rewrite Hm. simpl. rewrite Hfresh. simpl. rewrite Hexp. simpl.
  rewrite Hrec. simpl. rewrite Hnz. reflexivity.
Qed.

(** X5. A pay-rewards message whose two arrays differ in length fails with
    [ArrayLengthMismatch] whatever signature, token and expiry it carries,
    before the proof is looked at: the token is as consumed after the call
    as before. *)
Theorem mismatched_batch_fails_before_validation env sig tok e
    (ids : list string) (ps : list address) s :
  length ids <> length ps ->
  _handleRewardPayment env sig tok e ids ps s = Revert Quizzler__ArrayLengthMismatch /\
  proofTokens (state_after (_handleRewardPayment env sig tok e ids ps) s)
  = proofTokens s.
Proof.
  intros Hne.
  assert (Hr : _handleRewardPayment env sig tok e ids ps s
               = Revert Quizzler__ArrayLengthMismatch).
  { unfold _handleRewardPayment, bind.
    replace (N.of_nat (length ids) =? N.of_nat (length ps)) with false;
      [reflexivity|].
    symmetry. apply N.eqb_neq. lia. }
  split; [exact Hr|]. unfold state_after. rewrite Hr. reflexivity.
Qed.

(** X6. With arrays of equal length and an accepted proof, the pay-rewards
    handler is its loop run on the state in which the token is consumed:
    it succeeds with the state the loop leaves, or fails with the error of
    the loop.  In particular the empty batch succeeds and does nothing but
    consume its token. *)
Theorem accepted_batch_runs_the_loop env sig tok e
    (ids : list string) (ps : list address) s :
  length ids = length ps ->
  proof_accepted env s (rewardProof env s tok e ids ps) tok e sig ->
  _handleRewardPayment env sig tok e ids ps s
  = match payRewards env ids ps (set_proofTokens <[tok := true]> s) with
    | Ok (_, s') => Ok (true, s')
    | Revert err => Revert err
    end /\
  (ids = [] ->
   _handleRewardPayment env sig tok e ids ps s
   = Ok (true, set_proofTokens <[tok := true]> s)).
Proof.
  intros Hlen Hacc.
  destruct (preAuthValidations_accepted _ _ _ _ _ _ Hacc) as (signer & Hval & Hman).
  assert (Hmain : _handleRewardPayment env sig tok e ids ps s
                  = match payRewards env ids ps (set_proofTokens <[tok := true]> s) with
                    | Ok (_, s') => Ok (true, s')
                    | Revert err => Revert err
                    end).
  { unfold _handleRewardPayment.
    rewrite Hlen, N.eqb_refl. simpl.
    unfold bind at 1. simpl. unfold bind at 1. unfold get at 1.
    unfold bind at 1. rewrite Hval.
    unfold bind at 1. unfold get at 1.
    unfold bind at 1. simpl. rewrite Hman. simpl.
    unfold bind at 1.
    destruct (payRewards env ids ps _) as [ [u s'] | err]; reflexivity. }
  split; [exact Hmain|].
  intros ->. destruct ps; [|discriminate Hlen].
  rewrite Hmain. reflexivity.
Qed.

(** ** Calls as sequences of actions *)

Lemma paid_state_membership id p s :
  surveysUsersRewarded (paid_state id p s) =
  <[id := <[p := true]> (surveysUsersRewarded s)@[id]]> (surveysUsersRewarded s).
Proof. unfold paid_state. destruct (_ =? _); reflexivity. Qed.

Lemma payRewards_actions env ids ps s u s' :
  payRewards env ids ps s = Ok (u, s') -> rtc (action env) s s'.
Proof.
  revert ids s. induction ps as [|p ps IH]; intros ids s Hrun; simpl in Hrun.
  - inv_run Hrun. apply rtc_refl.
  - destruct ids as [|id ids]; [discriminate|].
    inv_run Hrun.
    match goal with H : payReward _ _ _ _ = Ok _ |- _ =>
      apply payReward_Ok in H as (Hc & Hlt & Hnew & ->) end.
    eapply rtc_l; [apply act_pay; eassumption|]. eapply IH; eassumption.
Qed.

Lemma dispatch_actions env c s u s' :
  dispatch env c s = Ok (u, s') -> rtc (action env) s s'.
Proof.
  destruct c; simpl; intros Hrun.
  - apply _execute_Ok in Hrun
      as (_ & [(_ & a & s1 & _ & Hh & ->) | (_ & a & s1 & _ & Hh & ->)]).
    + apply _handleCancelSurvey_Ok in Hh as (_ & Hex & Hnc & _ & Hlt & Hacc & ->).
      destruct Hacc as (_ & Hfresh & _).
      eapply rtc_l; [apply (act_cancel env s (cn_surveyId a) (cn_token a)); assumption|].
      apply rtc_once, act_complete.
    + apply _handleRewardPayment_Ok in Hh as (_ & _ & Hacc & Hh).
      destruct Hacc as (_ & Hfresh & _).
      eapply rtc_l; [apply act_validate; eassumption|].
      eapply rtc_r; [eapply payRewards_actions; eassumption | apply act_complete].
  - apply _executeWithToken_Ok in Hrun as (_ & Hzero & _ & s1 & Hh & ->).
    apply _handleCreateSurvey_Ok in Hh as (a & _ & _ & Hamount & Hacc & _ & Hnew & ->).
    destruct Hacc as (_ & Hfresh & _).
    rewrite Hzero in Hamount. symmetry in Hamount.
    apply N.eq_add_0 in Hamount as [HLR Hgas].
    eapply rtc_l;
      [apply (act_create env s a (tokenAddresses env tokenSymbol)); assumption|].
    apply rtc_once, act_complete.
  - apply setManager_Ok in Hrun as (Ho & _ & ->). apply rtc_once, act_setManager, Ho.
  - apply setGasStation_Ok in Hrun as (Ho & _ & _ & ->).
    apply rtc_once, act_setGasStation, Ho.
  - inv_run Hrun.
    match goal with H : preAuthValidations _ _ _ _ _ _ = Ok _ |- _ =>
      apply preAuthValidations_Ok in H as (_ & Hfresh & _ & _ & _ & ->) end.
    apply rtc_once, act_validate, Hfresh.
Qed.

Lemma transact_preserves_actions (P : State -> Prop) env c s :
  (forall s1 s2, action env s1 s2 -> P s1 -> P s2) ->
  P s -> P (transact env c s).
Proof.
  intros Hstep Hs. unfold transact.
  destruct (dispatch env c s) as [ [u s'] | e] eqn:Hrun; [|exact Hs].
  apply dispatch_actions in Hrun.
  induction Hrun; eauto.
Qed.

Lemma run_calls_preserves_actions (P : State -> Prop) calls s :
  (forall env s1 s2, action env s1 s2 -> P s1 -> P s2) ->
  P s -> P (run_calls calls s).
Proof.
  intros Hstep. revert s.
  induction calls as [| [env c] calls IH]; intros s Hs; simpl; [exact Hs|].
  apply IH, transact_preserves_actions; eauto.
Qed.

Lemma run_calls_preserves_actions_senders (P : State -> Prop) calls s :
  (forall env s1 s2, msg_sender env <> 0 -> action env s1 s2 -> P s1 -> P s2) ->
  senders_nonzero calls ->
  P s -> P (run_calls calls s).
Proof.
  intros Hstep Hsend. revert s.
  induction Hsend as [| [env c] calls Hne Hsend IH]; intros s Hs; simpl; [exact Hs|].
  apply IH, transact_preserves_actions; eauto.
Qed.

(** Every action is a sequence of elementary effects. *)
Lemma action_effects env s s' : action env s s' -> rtc (effect env) s s'.
Proof.
  intros Hact.
  destruct Hact as [tok Hf | id p Hc Hlt Hnew | id tok Hex Hnc Hlt Hf
                    | a tk Hnew Hf HLR Hgas | cid kind | m b Ho | g o Ho].
  - apply rtc_once, eff_token, Hf.
  - apply rtc_once, eff_pay; assumption.
  - unfold canceled_state.
    eapply rtc_r; [|apply eff_log; discriminate].
    eapply rtc_r;
      [|exact (eff_cancel env (add_log _ (set_proofTokens <[tok := true]> s)) id Hex Hlt)].
    eapply rtc_r; [|apply eff_log; discriminate].
    apply rtc_once, eff_token, Hf.
  - unfold created_state.
    eapply rtc_r; [|apply eff_log; discriminate].
    eapply rtc_r; [|apply eff_log; discriminate].
    eapply rtc_r; [|apply eff_create; simpl; auto].
    apply rtc_once, eff_token, Hf.
  - apply rtc_once, eff_log. discriminate.
  - eapply rtc_r; [|apply eff_log; discriminate].
    apply rtc_once, eff_managers.
  - apply rtc_once, eff_gas.
Qed.

Lemma action_ledger_consistent env s s' :
  msg_sender env <> 0 -> action env s s' -> ledger_consistent s -> ledger_consistent s'.
Proof.
  intros Hne Hact Hinv. apply action_effects in Hact.
  induction Hact; [exact Hinv|].
  apply IHHact. eapply effect_ledger_consistent; eassumption.
Qed.

Lemma action_limit_respected env s s' :
  action env s s' -> limit_respected s -> limit_respected s'.
Proof.
  intros Hact Hinv. apply action_effects in Hact.
  induction Hact; [exact Hinv|].
  apply IHHact. eapply effect_limit_respected; eassumption.
Qed.

(** ** Funding *)

Lemma action_surveys_cases env s s' :
  action env s s' ->
  forall id',
    (surveys s')@[id'] = (surveys s)@[id'] \/
    (exists p, s' = paid_state id' p s /\
       isCanceled (surveys s)@[id'] = false /\
       participantsRewarded (surveys s)@[id'] < participantsLimit (surveys s)@[id'] /\
       (surveys s')@[id'] =
         with_participantsRewarded (participantsRewarded (surveys s)@[id'] + 1)
           (surveys s)@[id']) \/
    (surveyCreator (surveys s)@[id'] <> 0 /\
     participantsRewarded (surveys s)@[id'] < participantsLimit (surveys s)@[id'] /\
     (surveys s')@[id'] = with_isCanceled true (surveys s)@[id']) \/
    (exists a tk,
       id' = cs_surveyId a /\ s' = created_state env a tk s /\
       surveyCreator (surveys s)@[id'] = 0 /\
       cs_participantsLimit a * cs_rewardAmount a = 0 /\
       (surveys s')@[id'] = created_record env a tk).
Proof.
  intros Hact id'.
  destruct Hact as [tok Hf | id p Hc Hlt Hnew | id tok Hex Hnc Hlt Hf
                    | a tk Hnew Hf HLR Hgas | cid kind | m b Ho | g o Ho];
    try (left; reflexivity).
  - destruct (decide (id = id')) as [->|Hne].
    + right. left. exists p. repeat split; auto.
      rewrite paid_state_surveys. apply mapping_get_insert_eq.
    + left. rewrite paid_state_surveys. apply mapping_get_insert_ne, Hne.
  - destruct (decide (id = id')) as [->|Hne].
    + right. right. left. repeat split; auto.
      unfold canceled_state. simpl. apply mapping_get_insert_eq.
    + left. unfold canceled_state. simpl. apply mapping_get_insert_ne, Hne.
  - destruct (decide (cs_surveyId a = id')) as [<-|Hne].
    + right. right. right. exists a, tk. repeat split; auto.
      unfold created_state. simpl. apply mapping_get_insert_eq.
    + left. unfold created_state. simpl. apply mapping_get_insert_ne, Hne.
Qed.

Lemma action_funding_bounded env s s' :
  action env s s' -> funding_bounded s -> funding_bounded s'.
Proof.
  intros Hact Hinv id. specialize (Hinv id).
  destruct (action_surveys_cases _ _ _ Hact id)
    as [-> | [(p & _ & _ & _ & ->) | [(_ & _ & ->) | (a & tk & _ & _ & _ & HLR & ->)] ] ];
    simpl; try exact Hinv.
  rewrite HLR. apply N.le_0_l.
Qed.

Lemma initial_state_funding_bounded env sender_ name :
  funding_bounded (initial_state env sender_ name).
Proof. intros id. simpl. rewrite mapping_get_empty. simpl. apply N.le_0_l. Qed.

(** X7. After any history of transactions, from a state in which the
    funding of every survey fits a [uint256] and no rewarded count exceeds
    its limit (the deployed contract is such a state), the views return
    and never revert: [getSurveyAmountToFund] gives limit times reward,
    [getSurveysRewardsAmountPayded] gives rewarded times reward, which is
    never more, and [getSurvey] gives the stored fields with the amount to
    fund. *)
Theorem views_never_revert s0 calls id :
  funding_bounded s0 ->
  limit_respected s0 ->
  let s := run_calls calls s0 in
  let r := (surveys s)@[id] in
  getSurveyAmountToFund id s = Ok (participantsLimit r * rewardAmount r, s) /\
  getSurveysRewardsAmountPayded id s = Ok (participantsRewarded r * rewardAmount r, s) /\
  participantsRewarded r * rewardAmount r <= participantsLimit r * rewardAmount r /\
  getSurvey id s
  = Ok ({| v_surveyCreator := surveyCreator r;
           v_participantsLimit := participantsLimit r;
           v_rewardAmount := rewardAmount r;
           v_participantsRewarded := participantsRewarded r;
           v_amountToFund := participantsLimit r * rewardAmount r;
           v_surveyHash := surveyHash r;
           v_isCanceled := isCanceled r |}, s).
Proof.
  intros Hb Hl s r.
  assert (Hb' : funding_bounded s).
  { apply (run_calls_preserves_actions funding_bounded); [|exact Hb].
    intros env s1 s2. apply action_funding_bounded. }
  assert (Hl' : limit_respected s) by (apply run_calls_limit_respected, Hl).
  specialize (Hb' id). specialize (Hl' id). fold r in Hb', Hl'.
  assert (Hle : participantsRewarded r * rewardAmount r
                <= participantsLimit r * rewardAmount r)
    by (apply N.mul_le_mono_r, Hl').
  assert (Hfund : getSurveyAmountToFund id s
                  = Ok (participantsLimit r * rewardAmount r, s)).
  { unfold getSurveyAmountToFund, bind, get, checked_mul. fold r.
    apply N.leb_le in Hb'. rewrite Hb'. reflexivity. }
  split; [exact Hfund|]. split; [|split; [exact Hle|] ].
  - unfold getSurveysRewardsAmountPayded, bind, get, checked_mul. fold r.
    replace (participantsRewarded r * rewardAmount r <=? MAX_UINT256) with true;
      [reflexivity|].
    symmetry. apply N.leb_le. lia.
  - unfold getSurvey. unfold bind at 1. unfold get at 1.
    unfold bind. rewrite Hfund. reflexivity.
Qed.

(** ** Nothing is ever funded *)

Lemma Forall_zero_transfer_app l1 l2 :
  Forall is_zero_transfer l1 -> Forall is_zero_transfer l2 ->
  Forall is_zero_transfer (l1 ++ l2).
Proof. intros H1 H2. apply Forall_app. auto. Qed.

Lemma action_unfunded env s s' : action env s s' -> unfunded s -> unfunded s'.
Proof.
  intros Hact [Hz Hlog]. split.
  - intros id. specialize (Hz id).
    destruct (action_surveys_cases _ _ _ Hact id)
      as [-> | [(p & _ & _ & _ & ->) | [(_ & _ & ->) | (a & tk & _ & _ & _ & HLR & ->)] ] ];
      simpl; assumption.
  - destruct Hact as [tok Hf | id p Hc Hlt Hnew | id tok Hex Hnc Hlt Hf
                      | a tk Hnew Hf HLR Hgas | cid kind | m b Ho | g o Ho];
      try exact Hlog.
    + rewrite paid_state_log.
      assert (HR : rewardAmount (surveys s)@[id] = 0).
      { specialize (Hz id). apply N.eq_mul_0 in Hz as [HL | HR]; [lia | exact HR]. }
      apply Forall_zero_transfer_app; [exact Hlog|].
      apply Forall_zero_transfer_app.
      * repeat constructor. exact HR.
      * destruct (_ =? _); repeat constructor.
    + rewrite canceled_state_log.
      apply Forall_zero_transfer_app; [exact Hlog|].
      repeat constructor. simpl. rewrite (Hz id). reflexivity.
    + unfold created_state. simpl.
      apply Forall_zero_transfer_app; [|repeat constructor].
      apply Forall_zero_transfer_app; [exact Hlog|].
      repeat constructor. exact Hgas.
    + simpl. apply Forall_zero_transfer_app; [exact Hlog | repeat constructor].
    + simpl. apply Forall_zero_transfer_app; [exact Hlog | repeat constructor].
Qed.

Lemma initial_state_unfunded env sender_ name :
  unfunded (initial_state env sender_ name).
Proof.
  split; [|constructor].
  intros id. simpl. rewrite mapping_get_empty. reflexivity.
Qed.

(** X8. The deployed contract never holds a funded survey and never moves
    tokens: after any history of transactions from deployment, every
    survey has limit times reward equal to zero, and every token transfer
    the contract has made (gas-station forward, reward, refund) is of
    amount zero. *)
Theorem deployed_contract_moves_no_tokens env0 sender_ name calls :
  let s := run_calls calls (initial_state env0 sender_ name) in
  (forall id,
     participantsLimit (surveys s)@[id] * rewardAmount (surveys s)@[id] = 0) /\
  (forall token to amount, In (ERC20_transfer token to amount) (log s) -> amount = 0).
Proof.
  intros s.
  assert (Hu : unfunded s).
  { apply (run_calls_preserves_actions unfunded); [|apply initial_state_unfunded].
    intros env s1 s2. apply action_unfunded. }
  destruct Hu as [Hz Hlog]. split; [exact Hz|].
  intros token to amount Hin.
  rewrite Forall_forall in Hlog.
  apply (Hlog (ERC20_transfer token to amount)). apply list_elem_of_In, Hin.
Qed.

(** ** Who has been rewarded *)

Lemma paid_state_rewarded id p s id' p' :
  (surveysUsersRewarded (paid_state id p s))@[id']@[p'] =
  if decide (id = id' /\ p = p') then true else (surveysUsersRewarded s)@[id']@[p'].
Proof.
  rewrite paid_state_membership, mapping_get_insert.
  destruct (decide (id = id')) as [->|Hid].
  - rewrite mapping_get_insert.
    destruct (decide (p = p')) as [->|Hp].
    + rewrite decide_True; [reflexivity | auto].
    + rewrite decide_False; [reflexivity | intros [_ ?]; contradiction].
  - rewrite decide_False; [reflexivity | intros [? _]; contradiction].
Qed.

Lemma occurrences_cons id id0 ids :
  occurrences id (id0 :: ids)
  = (if decide (id0 = id) then 1 else 0) + occurrences id ids.
Proof.
  unfold occurrences. rewrite filter_cons.
  destruct (decide (id0 = id)); simpl; lia.
Qed.

Lemma with_participantsRewarded_same r :
  with_participantsRewarded (participantsRewarded r + 0) r = r.
Proof. destruct r. unfold with_participantsRewarded. simpl. rewrite N.add_0_r. reflexivity. Qed.

(** What a successful run of the loop has done. *)
Lemma payRewards_batch env ids ps s u s' :
  payRewards env ids ps s = Ok (u, s') ->
  length ids = length ps ->
  (forall id,
     (surveys s')@[id] =
     with_participantsRewarded
       (participantsRewarded (surveys s)@[id] + occurrences id ids) (surveys s)@[id]) /\
  (forall (i : nat) id p,
     ids !! i = Some id -> ps !! i = Some p ->
     (surveysUsersRewarded s)@[id]@[p] = false /\
     (surveysUsersRewarded s')@[id]@[p] = true) /\
  (forall id p,
     (surveysUsersRewarded s)@[id]@[p] = true ->
     (surveysUsersRewarded s')@[id]@[p] = true) /\
  NoDup (zip ids ps).
Proof.
  revert ids s. induction ps as [|p0 ps IH]; intros ids s Hrun Hlen.
  - destruct ids; [|discriminate Hlen]. simpl in Hrun. inv_run Hrun.
    split; [|split; [|split] ].
    + intros id. symmetry. apply with_participantsRewarded_same.
    + intros i id p Hi. rewrite lookup_nil in Hi. discriminate.
    + auto.
    + constructor.
  - destruct ids as [|id0 ids]; [discriminate Hlen|].
    injection Hlen as Hlen. simpl in Hrun. inv_run Hrun.
    match goal with H : payReward _ _ _ _ = Ok _ |- _ =>
      apply payReward_Ok in H as (_ & _ & Hnew & ->) end.
    destruct (IH _ _ Hrun Hlen) as (Hrec & Hpairs & Hmono & Hdup).
    split; [|split; [|split] ].
    + intros id. rewrite Hrec, paid_state_surveys, mapping_get_insert, occurrences_cons.
      destruct (decide (id0 = id)) as [->|Hne].
      * unfold with_participantsRewarded. simpl. f_equal. lia.
      * rewrite N.add_0_l. reflexivity.
    + intros i id p Hi Hp. destruct i as [|i]; simpl in Hi, Hp.
      * injection Hi as <-. injection Hp as <-. split; [exact Hnew|].
        apply Hmono. rewrite paid_state_rewarded, decide_True; auto.
      * destruct (Hpairs i id p Hi Hp) as [Hbefore Hafter]. split; [|exact Hafter].
        rewrite paid_state_rewarded in Hbefore.
        destruct (decide (id0 = id /\ p0 = p)); [discriminate | exact Hbefore].
    + intros id p Hin. apply Hmono. rewrite paid_state_rewarded.
      destruct (decide (id0 = id /\ p0 = p)); [reflexivity | exact Hin].
    + simpl. constructor; [|exact Hdup].
      intros Hin. apply list_elem_of_lookup in Hin as [i Hi].
      apply lookup_zip_with_Some in Hi as (id & p & Heq & Hid & Hp).
      injection Heq as <- <-.
      destruct (Hpairs i id0 p0 Hid Hp) as [Hbefore _].
      rewrite paid_state_rewarded, decide_True in Hbefore; [discriminate | auto].
Qed.

(** X9. A pay-rewards message that is handled successfully has arrays of
    equal length and no (survey, participant) pair twice; it raises the
    rewarded count of every survey by the number of times the survey
    occurs in the batch and changes no other field of any survey; every
    pair of the batch was not rewarded before and is recorded as rewarded
    after, and no earlier record is lost. *)
Theorem successful_batch_counts env sig tok e
    (ids : list string) (ps : list address) s b s' :
  _handleRewardPayment env sig tok e ids ps s = Ok (b, s') ->
  length ids = length ps /\
  NoDup (zip ids ps) /\
  (forall id,
     (surveys s')@[id] =
     with_participantsRewarded
       (participantsRewarded (surveys s)@[id] + occurrences id ids) (surveys s)@[id]) /\
  (forall (i : nat) id p,
     ids !! i = Some id -> ps !! i = Some p ->
     (surveysUsersRewarded s)@[id]@[p] = false /\
     (surveysUsersRewarded s')@[id]@[p] = true) /\
  (forall id p,
     (surveysUsersRewarded s)@[id]@[p] = true ->
     (surveysUsersRewarded s')@[id]@[p] = true).
Proof.
  intros Hrun.
  apply _handleRewardPayment_Ok in Hrun as (_ & Hlen & _ & Hrun).
  destruct (payRewards_batch _ _ _ _ _ _ Hrun Hlen) as (Hrec & Hpairs & Hmono & Hdup).
  split; [exact Hlen|]. split; [exact Hdup|]. split; [exact Hrec|].
  split; [exact Hpairs | exact Hmono].
Qed.

Lemma action_rewarded_stays env s s' id p :
  action env s s' ->
  (surveysUsersRewarded s)@[id]@[p] = true ->
  (surveysUsersRewarded s')@[id]@[p] = true.
Proof.
  intros Hact Hin.
  destruct Hact as [tok Hf | id0 p0 Hc Hlt Hnew | id0 tok Hex Hnc Hlt Hf
                    | a tk Hnew Hf HLR Hgas | cid kind | m b Ho | g o Ho];
    try exact Hin.
  rewrite paid_state_rewarded.
  destruct (decide (id0 = id /\ p0 = p)); [reflexivity | exact Hin].
Qed.

(** X10. Once a participant is recorded as rewarded for a survey, the
    record stays through every history of transactions, and the pair is
    never paid again: the payment step for it reverts (with
    [UserAlreadyRewarded] where the survey is neither canceled nor full),
    and so does every pay-rewards message that carries the pair. *)
Theorem rewarded_pair_is_never_paid_again s calls id p :
  (surveysUsersRewarded s)@[id]@[p] = true ->
  let s' := run_calls calls s in
  (surveysUsersRewarded s')@[id]@[p] = true /\
  forall env,
    reverts (payReward env id p s') /\
    (isCanceled (surveys s')@[id] = false ->
     participantsRewarded (surveys s')@[id] < participantsLimit (surveys s')@[id] ->
     payReward env id p s' = Revert Quizzler__UserAlreadyRewarded) /\
    (forall sig tok e (ids : list string) (ps : list address) (i : nat),
       ids !! i = Some id -> ps !! i = Some p ->
       reverts (_handleRewardPayment env sig tok e ids ps s')).
Proof.
  intros Hin s'.
  assert (Hin' : (surveysUsersRewarded s')@[id]@[p] = true).
  { apply (run_calls_preserves_actions
             (fun s => (surveysUsersRewarded s)@[id]@[p] = true)); [|exact Hin].
    intros env s1 s2 Hact. apply action_rewarded_stays with (env := env). exact Hact. }
  split; [exact Hin'|]. intros env. split; [|split].
  - apply not_Ok_reverts. intros [u s2] Hrun.
    apply payReward_Ok in Hrun as (_ & _ & Hnew & _). congruence.
  - intros Hc Hlt. unfold payReward, bind, get.
    apply N.leb_gt in Hlt. rewrite Hc. simpl. rewrite Hlt. simpl.
    rewrite Hin'. reflexivity.
  - intros sig tok e ids ps i Hid Hp.
    apply not_Ok_reverts. intros [b s2] Hrun.
    apply _handleRewardPayment_Ok in Hrun as (_ & Hlen & _ & Hrun).
    destruct (payRewards_batch _ _ _ _ _ _ Hrun Hlen) as (_ & Hpairs & _).
    destruct (Hpairs i id p Hid Hp) as [Hbefore _].
    simpl in Hbefore. congruence.
Qed.

(** ** The rewarded count and the membership agree *)

Lemma mapping_get_false_None (m : gmap N bool) p :
  (forall q v, m !! q = Some v -> v = true) -> m@[p] = false -> m !! p = None.
Proof.
  intros Hall Hp. unfold mapping_get in Hp.
  destruct (m !! p) as [v|] eqn:Hl; [|reflexivity].
  simpl in Hp. subst v. specialize (Hall p false Hl). discriminate.
Qed.

Lemma action_membership_consistent env s s' :
  msg_sender env <> 0 ->
  action env s s' ->
  ledger_consistent s -> membership_consistent s -> membership_consistent s'.
Proof.
  intros Hsender Hact Hled Hmem id.
  destruct (Hmem id) as [Hall Hsize].
  destruct Hact as [tok Hf | id0 p0 Hc Hlt Hnew | id0 tok Hex Hnc Hlt Hf
                    | a tk Hnew Hf HLR Hgas | cid kind | m b Ho | g o Ho];
    try (split; assumption).
  - rewrite paid_state_membership, paid_state_surveys, !mapping_get_insert.
    destruct (decide (id0 = id)) as [->|Hne]; [|split; assumption].
    pose proof (mapping_get_false_None _ _ Hall Hnew) as Hnone.
    split.
    + intros q v Hq. rewrite lookup_insert in Hq.
      destruct (decide (p0 = q)); [congruence | eauto].
    + rewrite map_size_insert_None by exact Hnone. simpl. lia.
  - unfold canceled_state. simpl. rewrite mapping_get_insert.
    destruct (decide (id0 = id)) as [->|Hne]; split; assumption.
  - unfold created_state. simpl. rewrite mapping_get_insert.
    destruct (decide (cs_surveyId a = id)) as [<-|Hne]; [|split; assumption].
    split; [exact Hall|]. simpl.
    destruct (Hled (cs_surveyId a)) as (Hle & Habs & _).
    specialize (Habs Hnew). lia.
Qed.

Lemma initial_state_membership_consistent env sender_ name :
  membership_consistent (initial_state env sender_ name).
Proof.
  intros id. simpl. rewrite !mapping_get_empty. split.
  - intros p v Hp. unfold sol_default, gmap_SolDefault in Hp.
    rewrite lookup_empty in Hp. discriminate.
  - reflexivity.
Qed.

(** X11. Through any history of transactions (none from the zero address)
    from deployment, or from any state in which ledger and membership are
    consistent, the rewarded count of a survey is the number of
    participants recorded as rewarded for it, and a participant is
    recorded exactly when the membership flag reads true. *)
Theorem rewarded_count_is_membership_size s0 calls id :
  ledger_consistent s0 ->
  membership_consistent s0 ->
  senders_nonzero calls ->
  let s := run_calls calls s0 in
  N.of_nat (size (surveysUsersRewarded s)@[id])
  = participantsRewarded (surveys s)@[id] /\
  (forall p,
     (surveysUsersRewarded s)@[id]@[p] = true
     <-> is_Some ((surveysUsersRewarded s)@[id] !! p)).
Proof.
  intros Hled Hmem Hsend s.
  assert (Hboth : ledger_consistent s /\ membership_consistent s).
  { apply (run_calls_preserves_actions_senders
             (fun s => ledger_consistent s /\ membership_consistent s));
      [|exact Hsend | split; assumption].
    intros env s1 s2 Hne Hact [H1 H2]. split.
    - eapply action_ledger_consistent; eassumption.
    - eapply action_membership_consistent; eassumption. }
  destruct Hboth as [_ Hmem']. destruct (Hmem' id) as [Hall Hsize].
  split; [exact Hsize|].
  intros p. split.
  - intros Hp. unfold mapping_get in Hp at 1.
    destruct (_ !! p) as [v|] eqn:Hl; [eauto | discriminate Hp].
  - intros [v Hv]. unfold mapping_get at 1. rewrite Hv. simpl. eapply Hall, Hv.
Qed.

(** ** When the handlers succeed *)

Lemma checked_mul_fits a b s :
  a * b <= MAX_UINT256 -> checked_mul a b s = Ok (a * b, s).
Proof. intros H. unfold checked_mul. apply N.leb_le in H. rewrite H. reflexivity. Qed.

Lemma checked_add_fits a b s :
  a + b <= MAX_UINT256 -> checked_add a b s = Ok (a + b, s).
Proof. intros H. unfold checked_add. apply N.leb_le in H. rewrite H. reflexivity. Qed.

Lemma checked_sub_fits a b s : b <= a -> checked_sub a b s = Ok (a - b, s).
Proof. intros H. unfold checked_sub. apply N.leb_le in H. rewrite H. reflexivity. Qed.

Lemma getSurveyAmountToFund_fits id s :
  participantsLimit (surveys s)@[id] * rewardAmount (surveys s)@[id] <= MAX_UINT256 ->
  getSurveyAmountToFund id s
  = Ok (participantsLimit (surveys s)@[id] * rewardAmount (surveys s)@[id], s).
Proof. intros H. unfold getSurveyAmountToFund, bind, get. apply checked_mul_fits, H. Qed.

Lemma getSurveysRewardsAmountPayded_fits id s :
  participantsRewarded (surveys s)@[id] * rewardAmount (surveys s)@[id] <= MAX_UINT256 ->
  getSurveysRewardsAmountPayded id s
  = Ok (participantsRewarded (surveys s)@[id] * rewardAmount (surveys s)@[id], s).
Proof.
  intros H. unfold getSurveysRewardsAmountPayded, bind, get. apply checked_mul_fits, H.
Qed.

Lemma IERC20_transfer_returns env token to amount s :
  transfer_returns env (log s) token to amount = true ->
  IERC20_transfer env token to amount s
  = Ok (tt, add_log (ERC20_transfer token to amount) s).
Proof. intros H. unfold IERC20_transfer, bind, get. rewrite H. reflexivity. Qed.

(** Run the first statement of a sequence, given its result. *)
Tactic Notation "fwd_by" tactic(tac) := erewrite bind_step by tac; cbv beta zeta.
Tactic Notation "fwd" := fwd_by reflexivity.

Lemma _handleCancelSurvey_runs env sig tok e id s :
  surveyCreator (surveys s)@[id] <> 0 ->
  isCanceled (surveys s)@[id] = false ->
  (msg_sender env = surveyCreator (surveys s)@[id]
   \/ (managers s)@[msg_sender env] = true) ->
  participantsRewarded (surveys s)@[id] < participantsLimit (surveys s)@[id] ->
  proof_accepted env s (cancelProof env s tok e id) tok e sig ->
  participantsLimit (surveys s)@[id] * rewardAmount (surveys s)@[id] <= MAX_UINT256 ->
  transfer_returns env (log s) (rewardToken (surveys s)@[id])
    (surveyCreator (surveys s)@[id])
    (participantsLimit (surveys s)@[id] * rewardAmount (surveys s)@[id]
     - participantsRewarded (surveys s)@[id] * rewardAmount (surveys s)@[id]) = true ->
  _handleCancelSurvey env sig tok e id s = Ok (true, canceled_state id tok s).
Proof.
  intros Hex Hnc Hauth Hlt Hacc Hfit Hcall.
  destruct (preAuthValidations_accepted _ _ _ _ _ _ Hacc) as (signer & Hval & Hman).
  assert (Hcheck : negb (msg_sender env =? surveyCreator (surveys s)@[id])
                   && negb (managers s)@[msg_sender env] = false).
  { destruct Hauth as [Ha | Ha].
    - apply N.eqb_eq in Ha. rewrite Ha. reflexivity.
    - rewrite Ha. apply andb_false_r. }
  assert (Hpaid : participantsRewarded (surveys s)@[id] * rewardAmount (surveys s)@[id]
                  <= participantsLimit (surveys s)@[id] * rewardAmount (surveys s)@[id])
    by (apply N.mul_le_mono_r; lia).
  apply N.eqb_neq in Hex. apply N.leb_gt in Hlt.
  unfold _handleCancelSurvey.
  fwd. rewrite Hex. fwd. rewrite Hnc. fwd. rewrite Hcheck. fwd. rewrite Hlt. fwd.
  fwd_by (exact Hval). fwd.
  replace (managers (set_proofTokens <[tok:=true]> s)) with (managers s) by reflexivity.
  rewrite Hman. fwd.
  fwd_by (apply getSurveyAmountToFund_fits; exact Hfit).
  fwd_by (apply getSurveysRewardsAmountPayded_fits;
          apply (N.le_trans _ _ _ Hpaid Hfit)).
  fwd_by (apply checked_sub_fits; exact Hpaid).
  fwd_by (apply IERC20_transfer_returns; exact Hcall).
  reflexivity.
Qed.

Lemma _handleCancelSurvey_guards env sig tok e id s b s' :
  _handleCancelSurvey env sig tok e id s = Ok (b, s') ->
  participantsLimit (surveys s)@[id] * rewardAmount (surveys s)@[id] <= MAX_UINT256 /\
  transfer_returns env (log s) (rewardToken (surveys s)@[id])
    (surveyCreator (surveys s)@[id])
    (participantsLimit (surveys s)@[id] * rewardAmount (surveys s)@[id]
     - participantsRewarded (surveys s)@[id] * rewardAmount (surveys s)@[id]) = true.
Proof.
  unfold _handleCancelSurvey. intros Hrun. inv_run Hrun.
  match goal with H : preAuthValidations _ _ _ _ _ _ = Ok _ |- _ =>
    apply preAuthValidations_Ok in H as (_ & _ & _ & _ & _ & ->) end.
  simpl in *. subst. split; assumption.
Qed.

(** X12. The cancel handler succeeds exactly when the survey exists, is not
    canceled, the caller is its creator or a manager, it is not fully
    rewarded, the proof is accepted, limit times reward fits a [uint256]
    and the token transfer of the refund returns; it then leaves
    [canceled_state]. *)
Theorem cancel_succeeds_exactly_when env sig tok e id s :
  let r := (surveys s)@[id] in
  let conditions :=
    surveyCreator r <> 0 /\
    isCanceled r = false /\
    (msg_sender env = surveyCreator r \/ (managers s)@[msg_sender env] = true) /\
    participantsRewarded r < participantsLimit r /\
    proof_accepted env s (cancelProof env s tok e id) tok e sig /\
    participantsLimit r * rewardAmount r <= MAX_UINT256 /\
    transfer_returns env (log s) (rewardToken r) (surveyCreator r)
      (participantsLimit r * rewardAmount r - participantsRewarded r * rewardAmount r)
    = true in
  ((exists b s', _handleCancelSurvey env sig tok e id s = Ok (b, s')) <-> conditions) /\
  (conditions ->
   _handleCancelSurvey env sig tok e id s = Ok (true, canceled_state id tok s)).
Proof.
  intros r conditions. subst conditions r.
  split; [|intros (Hex & Hnc & Hauth & Hlt & Hacc & Hfit & Hcall);
           apply _handleCancelSurvey_runs; assumption].
  split.
  - intros (b & s' & Hrun).
    destruct (_handleCancelSurvey_guards _ _ _ _ _ _ _ _ Hrun) as [Hfit Hcall].
    apply _handleCancelSurvey_Ok in Hrun as (_ & Hex & Hnc & Hauth & Hlt & Hacc & _).
    repeat (split; [assumption|]); assumption.
  - intros (Hex & Hnc & Hauth & Hlt & Hacc & Hfit & Hcall).
    eexists _, _. apply _handleCancelSurvey_runs; assumption.
Qed.


Lemma payReward_runs env id p s :
  isCanceled (surveys s)@[id] = false ->
  participantsRewarded (surveys s)@[id] < participantsLimit (surveys s)@[id] ->
  (surveysUsersRewarded s)@[id]@[p] = false ->
  transfer_returns env (log s) (rewardToken (surveys s)@[id]) p
    (rewardAmount (surveys s)@[id]) = true ->
  participantsRewarded (surveys s)@[id] + 1 <= MAX_UINT256 ->
  payReward env id p s = Ok (tt, paid_state id p s).
Proof.
  intros Hnc Hlt Hnew Hcall Hfit. apply N.leb_gt in Hlt.
  unfold payReward.
  fwd. rewrite Hnc. fwd. rewrite Hlt. fwd. rewrite Hnew. fwd.
  fwd_by (apply IERC20_transfer_returns; exact Hcall).
  fwd_by (apply checked_add_fits; exact Hfit).
  fwd. fwd. fwd. fwd.
  unfold paid_state. simpl. rewrite mapping_get_insert_eq. simpl.
  destruct (_ =? _); reflexivity.
Qed.

Lemma payReward_guards env id p s u s' :
  payReward env id p s = Ok (u, s') ->
  transfer_returns env (log s) (rewardToken (surveys s)@[id]) p
    (rewardAmount (surveys s)@[id]) = true /\
  participantsRewarded (surveys s)@[id] + 1 <= MAX_UINT256.
Proof.
  unfold payReward. intros Hrun. inv_run Hrun. split; assumption.
Qed.

(** X13. One payment of the loop succeeds exactly when the survey is not
    canceled, is below its limit, the participant is not yet recorded as
    rewarded, the token transfer of the reward returns and the incremented
    count fits a [uint256]; it then leaves [paid_state]. *)
Theorem payReward_succeeds_exactly_when env id p s :
  let r := (surveys s)@[id] in
  let conditions :=
    isCanceled r = false /\
    participantsRewarded r < participantsLimit r /\
    (surveysUsersRewarded s)@[id]@[p] = false /\
    transfer_returns env (log s) (rewardToken r) p (rewardAmount r) = true /\
    participantsRewarded r + 1 <= MAX_UINT256 in
  ((exists u s', payReward env id p s = Ok (u, s')) <-> conditions) /\
  (conditions -> payReward env id p s = Ok (tt, paid_state id p s)).
Proof.
  intros r conditions. subst conditions r.
  split; [|intros (Hnc & Hlt & Hnew & Hcall & Hfit); apply payReward_runs; assumption].
  split.
  - intros (u & s' & Hrun).
    destruct (payReward_guards _ _ _ _ _ _ Hrun) as [Hcall Hfit].
    apply payReward_Ok in Hrun as (Hnc & Hlt & Hnew & _).
    repeat (split; [assumption|]); assumption.
  - intros (Hnc & Hlt & Hnew & Hcall & Hfit).
    eexists _, _. apply payReward_runs; assumption.
Qed.

Lemma _handleCreateSurvey_runs env payload a amount tk s :
  decode_create payload = Some a ->
  proof_accepted env s
    (createProof env s (cs_token a) (cs_timeToExpire a) (cs_owner a) (cs_surveyId a)
       (cs_participantsLimit a) (cs_rewardAmount a) (cs_surveyHash a)
       (cs_amountToGasStation a))
    (cs_token a) (cs_timeToExpire a) (cs_signature a) ->
  surveyCreator (surveys s)@[cs_surveyId a] = 0 ->
  cs_participantsLimit a * cs_rewardAmount a + cs_amountToGasStation a <= MAX_UINT256 ->
  amount = cs_participantsLimit a * cs_rewardAmount a + cs_amountToGasStation a ->
  transfer_returns env (log s) tk (gasStation s) (cs_amountToGasStation a) = true ->
  _handleCreateSurvey env payload amount tk s = Ok (true, created_state env a tk s).
Proof.
  intros Hdec Hacc Hnew Hfit Hamount Hcall.
  destruct (preAuthValidations_accepted _ _ _ _ _ _ Hacc) as (signer & Hval & Hman).
  assert (HfitLR : cs_participantsLimit a * cs_rewardAmount a <= MAX_UINT256) by lia.
  unfold _handleCreateSurvey. rewrite Hdec.
  fwd. fwd. fwd_by (exact Hval). fwd.
  replace (managers (set_proofTokens <[cs_token a:=true]> s)) with (managers s)
    by reflexivity.
  rewrite Hman. fwd.
  replace (surveys (set_proofTokens <[cs_token a:=true]> s)) with (surveys s)
    by reflexivity.
  rewrite Hnew. fwd. fwd.
  fwd_by (apply checked_mul_fits; exact HfitLR).
  fwd_by (apply checked_add_fits; exact Hfit).
  rewrite Hamount, N.eqb_refl. fwd.
  fwd_by (apply getSurveyAmountToFund_fits; simpl; rewrite mapping_get_insert_eq;
          exact HfitLR).
  simpl. rewrite mapping_get_insert_eq. simpl. rewrite N.eqb_refl.
  fwd. fwd.
  fwd_by (apply IERC20_transfer_returns; exact Hcall).
  reflexivity.
Qed.

Lemma _handleCreateSurvey_guards env payload a amount tk s b s' :
  decode_create payload = Some a ->
  _handleCreateSurvey env payload amount tk s = Ok (b, s') ->
  cs_participantsLimit a * cs_rewardAmount a + cs_amountToGasStation a <= MAX_UINT256.
Proof.
  unfold _handleCreateSurvey. intros Hdec Hrun. inv_run Hrun.
  match goal with H : decode_create _ = Some ?v |- _ =>
    rewrite Hdec in H; injection H as <- end.
  subst. assumption.
Qed.

(** X14. The create handler, on a payload that decodes as a create
    message, succeeds exactly when the proof is accepted, no survey exists
    under the id, limit times reward plus the gas-station amount fits a
    [uint256] and equals the attached amount, and the token transfer to the
    gas station returns; it then leaves [created_state]. *)
Theorem create_succeeds_exactly_when env payload a amount tk s :
  decode_create payload = Some a ->
  let conditions :=
    proof_accepted env s
      (createProof env s (cs_token a) (cs_timeToExpire a) (cs_owner a) (cs_surveyId a)
         (cs_participantsLimit a) (cs_rewardAmount a) (cs_surveyHash a)
         (cs_amountToGasStation a))
      (cs_token a) (cs_timeToExpire a) (cs_signature a) /\
    surveyCreator (surveys s)@[cs_surveyId a] = 0 /\
    cs_participantsLimit a * cs_rewardAmount a + cs_amountToGasStation a
      <= MAX_UINT256 /\
    amount = cs_participantsLimit a * cs_rewardAmount a + cs_amountToGasStation a /\
    transfer_returns env (log s) tk (gasStation s) (cs_amountToGasStation a) = true in
  ((exists b s', _handleCreateSurvey env payload amount tk s = Ok (b, s')) <-> conditions) /\
  (conditions ->
   _handleCreateSurvey env payload amount tk s = Ok (true, created_state env a tk s)).
Proof.
  intros Hdec conditions. subst conditions.
  split; [|intros (Hacc & Hnew & Hfit & Hamount & Hcall);
           apply _handleCreateSurvey_runs; assumption].
  split.
  - intros (b & s' & Hrun).
    pose proof (_handleCreateSurvey_guards _ _ _ _ _ _ _ _ Hdec Hrun) as Hfit.
    apply _handleCreateSurvey_Ok in Hrun
      as (a' & Hdec' & _ & Hamount & Hacc & Hcall & Hnew & _).
    rewrite Hdec in Hdec'. injection Hdec' as <-.
    repeat (split; [assumption|]); assumption.
  - intros (Hacc & Hnew & Hfit & Hamount & Hcall).
    exists true, (created_state env a tk s).
    apply _handleCreateSurvey_runs; assumption.
Qed.

(** ** The packed encodings *)

Lemma to_N_byte_of_N x : Byte.to_N (byte_of_N x) = x mod 256.
Proof.
  unfold byte_of_N.
  destruct (Byte.of_N (x mod 256)) as [b|] eqn:Hb.
  - simpl. apply Byte.to_of_N, Hb.
  - apply Byte.of_N_None_iff in Hb.
    pose proof (N.mod_upper_bound x 256 ltac:(discriminate)). lia.
Qed.

Lemma be_bytes_length n x : length (be_bytes n x) = n.
Proof.
  revert x. induction n as [|n IH]; intros x; simpl; [reflexivity|].
  rewrite length_app, IH. simpl. lia.
Qed.

Lemma be_bytes_inj n x y :
  x < 256 ^ N.of_nat n -> y < 256 ^ N.of_nat n ->
  be_bytes n x = be_bytes n y -> x = y.
Proof.
  revert x y. induction n as [|n IH]; intros x y Hx Hy Heq.
  - simpl in Hx, Hy. lia.
  - simpl in Heq. apply app_inj_tail in Heq as [Hhigh Hlow].
    rewrite Nat2N.inj_succ, N.pow_succ_r' in Hx, Hy.
    assert (Hdiv : x / 256 = y / 256).
    { apply IH; [| |exact Hhigh]; apply N.Div0.div_lt_upper_bound; lia. }
    assert (Hmod : x mod 256 = y mod 256).
    { rewrite <- !to_N_byte_of_N. congruence. }
    rewrite (N.div_mod x 256), (N.div_mod y 256) by discriminate. congruence.
Qed.

Lemma enc_uint256_inj x y :
  is_uint256 x -> is_uint256 y -> enc_uint256 x = enc_uint256 y -> x = y.
Proof. unfold is_uint256. intros Hx Hy. apply be_bytes_inj; assumption. Qed.

Lemma enc_address_inj x y :
  is_address x -> is_address y -> enc_address x = enc_address y -> x = y.
Proof. unfold is_address. intros Hx Hy. apply be_bytes_inj; assumption. Qed.

Lemma enc_string_inj x y : enc_string x = enc_string y -> x = y.
Proof.
  unfold enc_string. intros Heq.
  apply (f_equal String.string_of_list_byte) in Heq.
  rewrite !String.string_of_list_byte_of_string in Heq. exact Heq.
Qed.

Lemma enc_string_of_bytes bs : enc_string (String.string_of_list_byte bs) = bs.
Proof. apply String.list_byte_of_string_of_list_byte. Qed.

(** X15. The digests carry no tag of the message kind.  The create digest
    is the cancel digest of the survey id made of the bytes that follow
    the expiry in the create encoding, and the pay-rewards digest is the
    cancel digest of the 64-byte survey id made of the two lengths; so a
    proof accepted for the one is accepted for the other, under the same
    token. *)
Theorem digests_carry_no_kind env s tok e owner id limit reward hash gas
    (ids : list string) (ps : list address) :
  let create_tail :=
    String.string_of_list_byte
      (enc_address owner ++ enc_string id ++ enc_uint256 limit ++ enc_uint256 reward
       ++ enc_bytes32 hash ++ enc_uint256 gas) in
  let reward_tail :=
    String.string_of_list_byte
      (enc_uint256 (N.of_nat (length ids)) ++ enc_uint256 (N.of_nat (length ps))) in
  cancelProof env s tok e create_tail
  = createProof env s tok e owner id limit reward hash gas /\
  cancelProof env s tok e reward_tail = rewardProof env s tok e ids ps /\
  (forall sig,
     proof_accepted env s (createProof env s tok e owner id limit reward hash gas)
       tok e sig
     <-> proof_accepted env s (cancelProof env s tok e create_tail) tok e sig) /\
  (forall sig,
     proof_accepted env s (rewardProof env s tok e ids ps) tok e sig
     <-> proof_accepted env s (cancelProof env s tok e reward_tail) tok e sig).
Proof.
  intros create_tail reward_tail.
  assert (H1 : cancelProof env s tok e create_tail
               = createProof env s tok e owner id limit reward hash gas).
  { unfold cancelProof, createProof. subst create_tail.
    rewrite enc_string_of_bytes. reflexivity. }
  assert (H2 : cancelProof env s tok e reward_tail = rewardProof env s tok e ids ps).
  { unfold cancelProof, rewardProof. subst reward_tail.
    rewrite enc_string_of_bytes. reflexivity. }
  split; [exact H1|]. split; [exact H2|].
  split; intros sig; [rewrite H1 | rewrite H2]; reflexivity.
Qed.

Lemma createProof_unfold env s tok e owner id limit reward hash gas :
  createProof env s tok e owner id limit reward hash gas
  = if (proofTokens s)@[tok] then 0
    else keccak256 env (createProof_packed env tok e owner id limit reward hash gas).
Proof. reflexivity. Qed.

Lemma cancelProof_unfold env s tok e id :
  cancelProof env s tok e id
  = if (proofTokens s)@[tok] then 0 else keccak256 env (cancelProof_packed env tok e id).
Proof. reflexivity. Qed.

(** X16. Within one kind the packed encoding loses nothing: two create
    encodings of values in the range of their types are equal only if the
    chain id, token, expiry, owner, survey id, limit, reward, hash and gas
    amount are all equal, and likewise two cancel encodings.  The digests
    are the hash of these encodings when the token is unused. *)
Theorem packed_encoding_is_injective env env'
    tok e owner id limit reward hash gas
    tok' e' owner' id' limit' reward' hash' gas' :
  is_uint256 (block_chainid env) -> is_uint256 (block_chainid env') ->
  is_uint256 tok -> is_uint256 tok' -> is_uint256 e -> is_uint256 e' ->
  is_address owner -> is_address owner' ->
  is_uint256 limit -> is_uint256 limit' -> is_uint256 reward -> is_uint256 reward' ->
  is_uint256 hash -> is_uint256 hash' -> is_uint256 gas -> is_uint256 gas' ->
  (createProof_packed env tok e owner id limit reward hash gas
   = createProof_packed env' tok' e' owner' id' limit' reward' hash' gas' ->
   block_chainid env = block_chainid env' /\ tok = tok' /\ e = e' /\ owner = owner' /\
   id = id' /\ limit = limit' /\ reward = reward' /\ hash = hash' /\ gas = gas') /\
  (cancelProof_packed env tok e id = cancelProof_packed env' tok' e' id' ->
   block_chainid env = block_chainid env' /\ tok = tok' /\ e = e' /\ id = id') /\
  (forall s,
     (proofTokens s)@[tok] = false ->
     createProof env s tok e owner id limit reward hash gas
     = keccak256 env (createProof_packed env tok e owner id limit reward hash gas) /\
     cancelProof env s tok e id = keccak256 env (cancelProof_packed env tok e id)).
Proof.
  intros Hc Hc' Ht Ht' He He' Ho Ho' HL HL' HR HR' HH HH' HG HG'.
  split; [|split].
  - unfold createProof_packed, getChainID. intros Heq.
    apply app_inj_1 in Heq as [H1 Heq]; [|unfold enc_uint256; rewrite !be_bytes_length; reflexivity].
    apply app_inj_1 in Heq as [H2 Heq]; [|unfold enc_bytes32; rewrite !be_bytes_length; reflexivity].
    apply app_inj_1 in Heq as [H3 Heq]; [|unfold enc_uint256; rewrite !be_bytes_length; reflexivity].
    apply app_inj_1 in Heq as [H4 Heq]; [|unfold enc_address; rewrite !be_bytes_length; reflexivity].
    apply app_inj_2 in Heq as [H5 Heq];
      [|unfold enc_uint256, enc_bytes32; rewrite !length_app, !be_bytes_length; reflexivity].
    apply app_inj_1 in Heq as [H6 Heq]; [|unfold enc_uint256; rewrite !be_bytes_length; reflexivity].
    apply app_inj_1 in Heq as [H7 Heq]; [|unfold enc_uint256; rewrite !be_bytes_length; reflexivity].
    apply app_inj_1 in Heq as [H8 H9]; [|unfold enc_bytes32; rewrite !be_bytes_length; reflexivity].
    repeat split.
    + apply enc_uint256_inj; assumption.
    + apply enc_uint256_inj; assumption.
    + apply enc_uint256_inj; assumption.
    + apply enc_address_inj; assumption.
    + apply enc_string_inj; assumption.
    + apply enc_uint256_inj; assumption.
    + apply enc_uint256_inj; assumption.
    + apply enc_uint256_inj; assumption.
    + apply enc_uint256_inj; assumption.
  - unfold cancelProof_packed, getChainID. intros Heq.
    apply app_inj_1 in Heq as [H1 Heq]; [|unfold enc_uint256; rewrite !be_bytes_length; reflexivity].
    apply app_inj_1 in Heq as [H2 Heq]; [|unfold enc_bytes32; rewrite !be_bytes_length; reflexivity].
    apply app_inj_1 in Heq as [H3 H4]; [|unfold enc_uint256; rewrite !be_bytes_length; reflexivity].
    repeat split.
    + apply enc_uint256_inj; assumption.
    + apply enc_uint256_inj; assumption.
    + apply enc_uint256_inj; assumption.
    + apply enc_string_inj; assumption.
  - intros s Hfresh. rewrite createProof_unfold, cancelProof_unfold, Hfresh. auto.
Qed.

(** ** Failures *)

Lemma bind_Revert_inv {A B} (m : M A) (k : A -> M B) s e :
  bind m k s = Revert e ->
  m s = Revert e \/ exists a s', m s = Ok (a, s') /\ k a s' = Revert e.
Proof.
  unfold bind. destruct (m s) as [ [a s'] | e']; [eauto | intros [= <-]; auto].
Qed.

Lemma revert_if_Revert c e s e' :
  revert_if c e s = Revert e' -> c = true /\ e' = e.
Proof. destruct c; cbv; [intros [= <-]; auto | discriminate]. Qed.

Lemma checked_add_Revert a b s e : checked_add a b s = Revert e -> e = Panic 17.
Proof. unfold checked_add. destruct (_ <=? _); cbv; [discriminate | intros [= <-]; auto]. Qed.

Lemma checked_mul_Revert a b s e : checked_mul a b s = Revert e -> e = Panic 17.
Proof. unfold checked_mul. destruct (_ <=? _); cbv; [discriminate | intros [= <-]; auto]. Qed.

Lemma checked_sub_Revert a b s e : checked_sub a b s = Revert e -> e = Panic 17.
Proof. unfold checked_sub. destruct (_ <=? _); cbv; [discriminate | intros [= <-]; auto]. Qed.

Lemma abi_decode_Revert {A} (o : option A) s e :
  abi_decode o s = Revert e -> o = None /\ e = AbiDecodeError.
Proof. destruct o; cbv; [discriminate | intros [= <-]; auto]. Qed.

Lemma getSurveyAmountToFund_Revert id s e :
  getSurveyAmountToFund id s = Revert e -> e = Panic 17.
Proof. unfold getSurveyAmountToFund, bind, get. apply checked_mul_Revert. Qed.

Lemma getSurveysRewardsAmountPayded_Revert id s e :
  getSurveysRewardsAmountPayded id s = Revert e -> e = Panic 17.
Proof. unfold getSurveysRewardsAmountPayded, bind, get. apply checked_mul_Revert. Qed.

Lemma IERC20_transfer_Revert env token to amount s e :
  IERC20_transfer env token to amount s = Revert e -> e = ExternalCallReverted.
Proof.
  unfold IERC20_transfer, bind, get.
  destruct (transfer_returns _ _ _ _ _); cbv; [discriminate | intros [= <-]; auto].
Qed.

(** Take a failed run apart: one case for each statement that can fail. *)
Ltac inv_rev H :=
  cbv beta zeta in H;
  lazymatch type of H with
  | bind _ _ _ = Revert _ =>
      let a := fresh "v" in
      let s' := fresh "s" in
      let H1 := fresh "Hrun" in
      apply bind_Revert_inv in H; destruct H as [H | (a & s' & H1 & H)];
      [inv_rev H | inv_run H1; inv_rev H]
  | revert_if _ _ _ = Revert _ =>
      let Hc := fresh "Hfail" in
      apply revert_if_Revert in H; destruct H as [Hc ->]
  | revert _ _ = Revert _ => injection H as <-
  | ret _ _ = Revert _ => discriminate H
  | get _ = Revert _ => discriminate H
  | modify _ _ = Revert _ => discriminate H
  | emit _ _ = Revert _ => discriminate H
  | checked_add _ _ _ = Revert _ => apply checked_add_Revert in H; subst
  | checked_mul _ _ _ = Revert _ => apply checked_mul_Revert in H; subst
  | checked_sub _ _ _ = Revert _ => apply checked_sub_Revert in H; subst
  | abi_decode _ _ = Revert _ =>
      let Hd := fresh "Hundec" in
      apply abi_decode_Revert in H; destruct H as [Hd ->]
  | getSurveyAmountToFund _ _ = Revert _ => apply getSurveyAmountToFund_Revert in H; subst
  | getSurveysRewardsAmountPayded _ _ = Revert _ =>
      apply getSurveysRewardsAmountPayded_Revert in H; subst
  | IERC20_transfer _ _ _ _ _ = Revert _ => apply IERC20_transfer_Revert in H; subst
  | Ok _ = Revert _ => discriminate H
  | Revert _ = Revert _ => injection H as <-
  | _ => idtac
  end.

Lemma preAuthValidations_Revert env m tok e sig s err :
  preAuthValidations env m tok e sig s = Revert err -> validation_error err = true.
Proof.
  unfold preAuthValidations, getSigner. intros Hrun. inv_rev Hrun; try reflexivity.
  destruct (ECDSA_recover _ _ _); inv_rev Hrun. reflexivity.
Qed.

Lemma _handleCancelSurvey_Revert env sig tok e id s err :
  _handleCancelSurvey env sig tok e id s = Revert err -> cancel_error err = true.
Proof.
  unfold _handleCancelSurvey. intros Hrun. inv_rev Hrun; try reflexivity.
  apply preAuthValidations_Revert in Hrun. unfold cancel_error. rewrite Hrun. reflexivity.
Qed.

Lemma _handleCreateSurvey_Revert env payload amount tk s err :
  _handleCreateSurvey env payload amount tk s = Revert err -> create_error err = true.
Proof.
  unfold _handleCreateSurvey. intros Hrun. inv_rev Hrun; try reflexivity.
  - apply preAuthValidations_Revert in Hrun. unfold create_error. rewrite Hrun. reflexivity.
  - exfalso. subst. simpl in *. rewrite mapping_get_insert_eq in *. simpl in *.
    rewrite N.eqb_refl in *. discriminate.
Qed.

Lemma payReward_Revert env id p s err :
  payReward env id p s = Revert err -> payment_error err = true.
Proof.
  unfold payReward. intros Hrun. inv_rev Hrun; try reflexivity.
  destruct (_ =? _); inv_rev Hrun.
Qed.

Lemma payRewards_Revert env ids ps s err :
  length ids = length ps ->
  payRewards env ids ps s = Revert err -> payment_error err = true.
Proof.
  revert ids s. induction ps as [|p ps IH]; intros ids s Hlen Hrun; simpl in Hrun.
  - inv_rev Hrun.
  - destruct ids as [|id ids]; [discriminate Hlen|]. injection Hlen as Hlen.
    inv_rev Hrun.
    + eapply payReward_Revert; eassumption.
    + eapply IH; eassumption.
Qed.

Lemma _handleRewardPayment_Revert env sig tok e ids ps s err :
  _handleRewardPayment env sig tok e ids ps s = Revert err -> reward_error err = true.
Proof.
  unfold _handleRewardPayment. intros Hrun. inv_rev Hrun; try reflexivity.
  - apply preAuthValidations_Revert in Hrun. unfold reward_error. rewrite Hrun. reflexivity.
  - match goal with H : negb (_ =? _) = false |- _ =>
      apply negb_false_iff, N.eqb_eq, Nat2N.inj in H;
      apply (payRewards_Revert _ _ _ _ _ H) in Hrun end.
    unfold reward_error. rewrite Hrun. apply orb_true_iff. left. apply orb_true_r.
Qed.

(** X17. Every failure of a call carries one of the errors of its kind:
    an origin or decoding error, [NoTokens], the errors of validation, of
    the state checks of the handler, of checked arithmetic and of the token
    call.  In particular no call ever fails with [SurveyCreationFailed],
    [SurveyCancelFailed], [RewardPaymentFailed] or [InvalidRewardAmount],
    nor with an out-of-bounds read of the batch arrays: the handlers return
    [true] or revert themselves. *)
Theorem calls_fail_with_their_errors_only env c s err :
  dispatch env c s = Revert err ->
  call_error c err = true /\
  err <> Quizzler__SurveyCreationFailed /\
  err <> Quizzler__SurveyCancelFailed /\
  err <> Quizzler__RewardPaymentFailed /\
  err <> Quizzler_InvalidRewardAmount /\
  err <> Panic 50.
Proof.
  intros Hrun.
  assert (Hset : call_error c err = true).
  { destruct c; simpl in Hrun |- *.
    - unfold _execute in Hrun. inv_rev Hrun; try reflexivity.
      match goal with H : (if ?k =? _ then _ else _) _ = Revert _ |- _ =>
        destruct (k =? CANCEL_SURVEY_MSG_ID);
          [|destruct (k =? PAY_REWARDS_MSG_ID)]; inv_rev H end;
        try reflexivity.
      + apply _handleCancelSurvey_Revert in Hrun.
        rewrite Hrun. rewrite orb_true_r. reflexivity.
      + match goal with H : _handleCancelSurvey _ _ _ _ _ _ = Ok (?b, _) |- _ =>
          apply _handleCancelSurvey_Ok in H as (-> & _) end.
        discriminate.
      + apply _handleRewardPayment_Revert in Hrun. rewrite Hrun. apply orb_true_r.
      + match goal with H : _handleRewardPayment _ _ _ _ _ _ _ = Ok (?b, _) |- _ =>
          apply _handleRewardPayment_Ok in H as (-> & _) end.
        discriminate.
    - unfold _executeWithToken in Hrun. inv_rev Hrun; try reflexivity.
      + apply _handleCreateSurvey_Revert in Hrun.
        rewrite Hrun. rewrite orb_true_r. reflexivity.
      + match goal with H : _handleCreateSurvey _ _ _ _ _ = Ok (?b, _) |- _ =>
          apply _handleCreateSurvey_Ok in H as (a & _ & -> & _) end.
        discriminate.
    - unfold setManager, onlyOwner in Hrun. inv_rev Hrun; reflexivity.
    - unfold setGasStation, onlyOwner in Hrun. inv_rev Hrun; reflexivity.
    - inv_rev Hrun. eapply preAuthValidations_Revert; eassumption. }
  split; [exact Hset|].
  repeat split; intros ->; destruct c; discriminate Hset.
Qed.

(** ** The life of a survey *)

(** X18. A survey that exists keeps its creator, limit, reward amount,
    hash and reward token through every history of transactions; its
    rewarded count never decreases, its canceled flag is never reset, and
    every create message for its id fails. *)
Theorem existing_survey_is_stable s calls id :
  surveyCreator (surveys s)@[id] <> 0 ->
  let r := (surveys s)@[id] in
  let r' := (surveys (run_calls calls s))@[id] in
  surveyCreator r' = surveyCreator r /\
  participantsLimit r' = participantsLimit r /\
  rewardAmount r' = rewardAmount r /\
  surveyHash r' = surveyHash r /\
  rewardToken r' = rewardToken r /\
  participantsRewarded r <= participantsRewarded r' /\
  (isCanceled r = true -> isCanceled r' = true) /\
  (forall env payload a amount tk,
     decode_create payload = Some a -> cs_surveyId a = id ->
     reverts (_handleCreateSurvey env payload amount tk (run_calls calls s))).
Proof.
  intros Hex r r'.
  destruct (run_calls_extends calls s) as [Hext _].
  destruct (Hext id Hex) as (Hc & HL & HR & HH & HT & HP & HC).
  fold r in Hc, HL, HR, HH, HT, HP, HC. fold r' in Hc, HL, HR, HH, HT, HP, HC.
  repeat (split; [assumption|]).
  intros env payload a amount tk Hdec Hid.
  apply not_Ok_reverts. intros [b s'] Hrun.
  apply _handleCreateSurvey_Ok in Hrun as (a' & Hdec' & _ & _ & _ & _ & Hnew & _).
  rewrite Hdec in Hdec'. injection Hdec' as <-.
  rewrite Hid in Hnew. fold r' in Hnew. fold r in Hex. congruence.
Qed.

Lemma payRewards_Ok_live env ids ps s u s' :
  payRewards env ids ps s = Ok (u, s') ->
  length ids = length ps ->
  forall id, In id ids -> isCanceled (surveys s)@[id] = false.
Proof.
  revert ids s. induction ps as [|p ps IH]; intros ids s Hrun Hlen id Hin.
  - destruct ids; [destruct Hin | discriminate Hlen].
  - destruct ids as [|id0 ids]; [destruct Hin|].
    simpl in Hrun. inv_run Hrun.
    match goal with H : payReward _ _ _ _ = Ok _ |- _ =>
      apply payReward_Ok in H as (Hc & _ & _ & ->) end.
    destruct Hin as [-> | Hin]; [exact Hc|].
    injection Hlen as Hlen.
    specialize (IH _ _ Hrun Hlen id Hin).
    rewrite paid_state_surveys, mapping_get_insert in IH.
    destruct (decide (id0 = id)) as [->|Hne]; [exact IH | exact IH].
Qed.

Lemma action_keeps_canceled env s s' id :
  action env s s' ->
  surveyCreator (surveys s)@[id] <> 0 ->
  isCanceled (surveys s)@[id] = true ->
  (surveys s')@[id] = (surveys s)@[id] /\
  (surveysUsersRewarded s')@[id] = (surveysUsersRewarded s)@[id].
Proof.
  intros Hact Hex Hc.
  destruct Hact as [tok Hf | id0 p0 Hnc Hlt Hnew | id0 tok Hex0 Hnc Hlt Hf
                    | a tk Hnew Hf HLR Hgas | cid kind | m b Ho | g o Ho];
    try (split; reflexivity).
  - rewrite paid_state_surveys, paid_state_membership, !mapping_get_insert.
    destruct (decide (id0 = id)) as [->|Hne]; [congruence | split; reflexivity].
  - unfold canceled_state. simpl. rewrite mapping_get_insert.
    destruct (decide (id0 = id)) as [->|Hne]; [congruence | split; reflexivity].
  - unfold created_state. simpl. rewrite mapping_get_insert.
    destruct (decide (cs_surveyId a = id)) as [<-|Hne];
      [contradiction | split; reflexivity].
Qed.

(** X19. A canceled survey is frozen: through every history of
    transactions its record and its rewarded participants stay exactly as
    they were, every payment for it fails with [SurveyAlreadyCanceled],
    and every pay-rewards message that names it reverts. *)
Theorem canceled_survey_is_frozen s calls id :
  surveyCreator (surveys s)@[id] <> 0 ->
  isCanceled (surveys s)@[id] = true ->
  let s' := run_calls calls s in
  (surveys s')@[id] = (surveys s)@[id] /\
  (surveysUsersRewarded s')@[id] = (surveysUsersRewarded s)@[id] /\
  forall env,
    (forall p, payReward env id p s' = Revert Quizzler__SurveyAlreadyCanceled) /\
    (forall sig tok e (ids : list string) (ps : list address),
       In id ids -> reverts (_handleRewardPayment env sig tok e ids ps s')).
Proof.
  intros Hex Hc s'.
  assert (Hkeep : (surveys s')@[id] = (surveys s)@[id] /\
                  (surveysUsersRewarded s')@[id] = (surveysUsersRewarded s)@[id]).
  { apply (run_calls_preserves_actions
             (fun s1 => (surveys s1)@[id] = (surveys s)@[id] /\
                        (surveysUsersRewarded s1)@[id] = (surveysUsersRewarded s)@[id]));
      [|split; reflexivity].
    intros env s1 s2 Hact [Hs Hm].
    destruct (action_keeps_canceled env s1 s2 id Hact) as [Hs' Hm'];
      [rewrite Hs; exact Hex | rewrite Hs; exact Hc |].
    split; congruence. }
  destruct Hkeep as [Hs Hm].
  split; [exact Hs|]. split; [exact Hm|].
  intros env. split.
  - intros p. unfold payReward, bind, get. rewrite Hs, Hc. reflexivity.
  - intros sig tok e ids ps Hin.
    apply not_Ok_reverts. intros [b s2] Hrun.
    apply _handleRewardPayment_Ok in Hrun as (_ & Hlen & _ & Hrun).
    pose proof (payRewards_Ok_live _ _ _ _ _ _ Hrun Hlen id Hin) as Hlive.
    simpl in Hlive. rewrite Hs in Hlive. congruence.
Qed.

(** ** Tokens and completion events *)

Lemma paid_state_completions id p s :
  completions (log (paid_state id p s)) = completions (log s).
Proof.
  rewrite paid_state_log. unfold completions. rewrite !filter_app.
  destruct (_ =? _); simpl; rewrite ?app_nil_r; reflexivity.
Qed.

Lemma payRewards_keeps env ids ps s u s' :
  payRewards env ids ps s = Ok (u, s') ->
  proofTokens s' = proofTokens s /\
  completions (log s') = completions (log s) /\
  log s `prefix_of` log s'.
Proof.
  revert ids s. induction ps as [|p ps IH]; intros ids s Hrun; simpl in Hrun.
  - inv_run Hrun. repeat split; reflexivity.
  - destruct ids as [|id ids]; [discriminate|].
    inv_run Hrun.
    match goal with H : payReward _ _ _ _ = Ok _ |- _ =>
      apply payReward_Ok in H as (_ & _ & _ & ->) end.
    destruct (IH _ _ Hrun) as (Ht & Hc & Hp).
    rewrite Ht, Hc, paid_state_proofTokens, paid_state_completions.
    repeat split.
    etrans; [|exact Hp]. rewrite paid_state_log. apply prefix_app_r. reflexivity.
Qed.

(** The token an envelope presents, if it decodes. *)
Lemma token_marked_only tok (m : gmap N bool) t :
  t <> tok -> (<[tok := true]> m)@[t] = m@[t].
Proof. intros Hne. apply mapping_get_insert_ne. congruence. Qed.

(** X20. A message from the gateway that is handled successfully has
    presented a proof that is accepted in the state it arrives in (non-null
    digest of its own arguments, unused token, not expired, signed by a
    current manager); it consumes exactly that token and no other, and it
    logs exactly one completion event, with its command id and kind, as
    the last event, after the events already logged. *)
Theorem successful_envelope_is_authorized env c s u s' :
  dispatch env c s = Ok (u, s') ->
  forall cid sc sa payload,
    (c = Call_execute cid sc sa payload \/
     exists sym amount, c = Call_executeWithToken cid sc sa payload sym amount) ->
    exists kind digest tok e sig,
      decode_msgId payload = Some kind /\
      presented_proof env s kind payload = Some (digest, tok, e, sig) /\
      proof_accepted env s digest tok e sig /\
      (proofTokens s')@[tok] = true /\
      (forall t, t <> tok -> (proofTokens s')@[t] = (proofTokens s)@[t]) /\
      completions (log s') = completions (log s) ++ [ExecuteEventCompleted cid kind] /\
      last (log s') = Some (ExecuteEventCompleted cid kind) /\
      log s `prefix_of` log s'.
Proof.
  intros Hrun cid sc sa payload [-> | (sym & amount & ->)]; simpl in Hrun.
  - apply _execute_Ok in Hrun
      as (_ & [(Hkind & a & s1 & Hdec & Hh & ->) | (Hkind & a & s1 & Hdec & Hh & ->)]).
    + apply _handleCancelSurvey_Ok in Hh as (_ & _ & _ & _ & _ & Hacc & ->).
      eexists _, _, (cn_token a), _, _.
      split; [exact Hkind|].
      split; [unfold presented_proof; simpl; rewrite Hdec; reflexivity|].
      split; [exact Hacc|].
      split; [simpl; apply mapping_get_insert_eq|].
      split; [intros t Hne; simpl; apply token_marked_only, Hne|].
      split; [|split].
      * simpl. unfold completions. rewrite !filter_app. simpl.
        rewrite !app_nil_r. reflexivity.
      * simpl. apply last_snoc.
      * simpl. rewrite <- !app_assoc. apply prefix_app_r. reflexivity.
    + apply _handleRewardPayment_Ok in Hh as (_ & _ & Hacc & Hh).
      destruct (payRewards_keeps _ _ _ _ _ _ Hh) as (Ht & Hc & Hp).
      eexists _, _, (pr_token a), _, _.
      split; [exact Hkind|].
      split; [unfold presented_proof; simpl; rewrite Hdec; reflexivity|].
      split; [exact Hacc|].
      split; [simpl; rewrite Ht; simpl; apply mapping_get_insert_eq|].
      split; [intros t Hne; simpl; rewrite Ht; simpl; apply token_marked_only, Hne|].
      split; [|split].
      * simpl. unfold completions in *. rewrite filter_app, Hc. reflexivity.
      * simpl. apply last_snoc.
      * simpl. apply prefix_app_r. exact Hp.
  - apply _executeWithToken_Ok in Hrun as (_ & _ & Hkind & s1 & Hh & ->).
    apply _handleCreateSurvey_Ok in Hh as (a & Hdec & _ & _ & Hacc & _ & _ & ->).
    eexists _, _, (cs_token a), _, _.
    split; [exact Hkind|].
    split; [unfold presented_proof; simpl; rewrite Hdec; reflexivity|].
    split; [exact Hacc|].
    split; [simpl; apply mapping_get_insert_eq|].
    split; [intros t Hne; simpl; apply token_marked_only, Hne|].
    split; [|split].
    + simpl. unfold completions. rewrite !filter_app. simpl.
      rewrite !app_nil_r. reflexivity.
    + simpl. apply last_snoc.
    + simpl. rewrite <- !app_assoc. apply prefix_app_r. reflexivity.
Qed.

(** X21. The validation function is public and does not look at the
    manager set or at the caller: called on its own with any non-null
    digest, an unused token, an expiry not yet passed and a signature that
    recovers to any non-zero address, it consumes the token and changes
    nothing else.  After that, through every history of transactions,
    every create, cancel and pay-rewards handler carrying that token
    reverts. *)
Theorem anyone_can_consume_a_token env m tok e sig signer s :
  m <> 0 ->
  (proofTokens s)@[tok] = false ->
  block_timestamp env <= e ->
  ECDSA_recover env (toEthSignedMessageHash env m) sig = Some signer ->
  signer <> 0 ->
  let s1 := transact env (Call_preAuthValidations m tok e sig) s in
  s1 = set_proofTokens <[tok := true]> s /\
  (proofTokens s1)@[tok] = true /\
  forall calls env2,
    (forall payload a amount tk,
       decode_create payload = Some a -> cs_token a = tok ->
       reverts (_handleCreateSurvey env2 payload amount tk (run_calls calls s1))) /\
    (forall sig2 e2 id,
       reverts (_handleCancelSurvey env2 sig2 tok e2 id (run_calls calls s1))) /\
    (forall sig2 e2 ids ps,
       reverts (_handleRewardPayment env2 sig2 tok e2 ids ps (run_calls calls s1))).
Proof.
  intros Hm Hfresh Hexp Hrec Hnz s1.
  assert (Hs1 : s1 = set_proofTokens <[tok := true]> s).
  { subst s1. unfold transact, dispatch.
    unfold preAuthValidations, getSigner, bind, get.
    apply N.eqb_neq in Hm, Hnz. apply N.ltb_ge in Hexp.
    rewrite Hm. simpl. rewrite Hfresh. simpl. rewrite Hexp. simpl.
    rewrite Hrec. simpl. rewrite Hnz. reflexivity. }
  assert (Hused : (proofTokens s1)@[tok] = true).
  { rewrite Hs1. simpl. apply mapping_get_insert_eq. }
  split; [exact Hs1|]. split; [exact Hused|].
  intros calls env2.
  assert (Hlater : (proofTokens (run_calls calls s1))@[tok] = true)
    by (apply (run_calls_extends calls s1), Hused).
  destruct (rejected_proof_reverts env2 (run_calls calls s1))
    as (Hcreate & Hcancel & Hreward).
  split; [|split].
  - intros payload a amount tk Hdec <-.
    eapply Hcreate; [exact Hdec | apply used_token_rejected, Hlater].
  - intros sig2 e2 id. apply Hcancel, used_token_rejected, Hlater.
  - intros sig2 e2 ids ps. apply Hreward, used_token_rejected, Hlater.
Qed.

(** ** Examples for the further properties *)

(** A proof signed by the manager of [Demo], checked by evaluation. *)
Ltac demo_accept :=
  unfold proof_accepted;
  split; [vm_compute; discriminate|];
  split; [vm_compute; reflexivity|];
  split; [vm_compute; discriminate|];
  exists Demo.manager;
  split; [vm_compute; reflexivity|];
  split; [vm_compute; discriminate | vm_compute; reflexivity].

Lemma setManager_sets_one_flag_witness :
  exists s',
    setManager (Demo.env_at Demo.manager 10) Demo.stranger true Demo.s0 = Ok (tt, s') /\
    (managers s')@[Demo.stranger] = true.
Proof.
  destruct (proj2 (proj2 (setManager_sets_one_flag
                            (Demo.env_at Demo.manager 10) Demo.stranger true Demo.s0))
              eq_refl ltac:(vm_compute; discriminate))
    as (s' & Hrun & Hflag & _).
  exists s'. split; assumption.
Defined.

Lemma setGasStation_sets_both_witness :
  exists s',
    setGasStation (Demo.env_at Demo.manager 10) 300 301 Demo.s0 = Ok (tt, s') /\
    gasStation s' = 300 /\ gasOwner s' = 301.
Proof.
  destruct (proj2 (proj2 (proj2 (setGasStation_sets_both
                                   (Demo.env_at Demo.manager 10) 300 301 Demo.s0)))
              eq_refl ltac:(vm_compute; discriminate) ltac:(vm_compute; discriminate))
    as (s' & Hrun & Hg & Ho & _).
  exists s'. split; [exact Hrun|]. split; assumption.
Defined.

Lemma admin_state_changed_by_owner_only_witness :
  admin_state (transact Demo.env (Call_setManager Demo.stranger true) Demo.s0)
  = admin_state Demo.s0.
Proof.
  apply (proj1 (proj2 (admin_state_changed_by_owner_only Demo.env
                         (Call_setManager Demo.stranger true) Demo.s0))).
  vm_compute; discriminate.
Defined.

Lemma envelopes_are_routed_by_origin_and_kind_witness :
  _execute Demo.env 1 "osmosis" "agoric1sender" Demo.cancel_S2 Demo.s_funded
  = Revert Quizzler__WrongSource.
Proof.
  apply (proj1 (envelopes_are_routed_by_origin_and_kind Demo.env 1 "osmosis"
                  "agoric1sender" Demo.cancel_S2 "aUSDC" 0 Demo.s_funded)).
  vm_compute; discriminate.
Defined.

Lemma mismatched_batch_fails_before_validation_witness :
  _handleRewardPayment Demo.env [] 40 2000 ["S2"]%string [] Demo.s_funded
  = Revert Quizzler__ArrayLengthMismatch.
Proof.
  apply (mismatched_batch_fails_before_validation Demo.env [] 40 2000
           ["S2"]%string [] Demo.s_funded).
  simpl; discriminate.
Defined.

Lemma accepted_batch_runs_the_loop_witness :
  _handleRewardPayment Demo.env
    (Demo.sign Demo.env Demo.manager (rewardProof Demo.env Demo.s_funded 40 2000 [] []))
    40 2000 [] [] Demo.s_funded
  = Ok (true, set_proofTokens <[40 := true]> Demo.s_funded).
Proof.
  apply (accepted_batch_runs_the_loop Demo.env _ 40 2000 [] [] Demo.s_funded);
    [reflexivity | demo_accept | reflexivity].
Defined.

Lemma views_never_revert_witness :
  getSurveyAmountToFund "S1" (run_calls Demo.history Demo.s0)
  = Ok (participantsLimit (surveys (run_calls Demo.history Demo.s0))@["S1"%string]
        * rewardAmount (surveys (run_calls Demo.history Demo.s0))@["S1"%string],
        run_calls Demo.history Demo.s0).
Proof.
  exact (proj1 (views_never_revert Demo.s0 Demo.history "S1"
                  (initial_state_funding_bounded _ _ _)
                  (initial_state_limit_respected _ _ _))).
Defined.

Lemma successful_batch_counts_witness :
  match _handleRewardPayment Demo.env
          (Demo.sign Demo.env Demo.manager
             (rewardProof Demo.env Demo.s_funded 40 2000 ["S2"; "S2"]%string [41; 42]))
          40 2000 ["S2"; "S2"]%string [41; 42] Demo.s_funded with
  | Ok (_, s') => participantsRewarded (surveys s')@["S2"%string] = 3
  | Revert _ => False
  end.
Proof.
  destruct (_handleRewardPayment Demo.env _ 40 2000 ["S2"; "S2"]%string [41; 42]
              Demo.s_funded) as [ [b s'] | err] eqn:Hrun;
    [|vm_compute in Hrun; discriminate Hrun].
  destruct (successful_batch_counts _ _ _ _ _ _ _ _ _ Hrun) as (_ & _ & Hrec & _).
  rewrite (Hrec "S2"%string). vm_compute. reflexivity.
Defined.

Lemma rewarded_pair_is_never_paid_again_witness :
  (surveysUsersRewarded Demo.s_funded)@["S2"%string]@[21] = true /\
  (surveysUsersRewarded
     (run_calls [(Demo.env, Call_execute 1 "agoric" "agoric1sender" Demo.cancel_S2)]
        Demo.s_funded))@["S2"%string]@[21] = true.
Proof.
  assert (H : (surveysUsersRewarded Demo.s_funded)@["S2"%string]@[21] = true)
    by (vm_compute; reflexivity).
  split; [exact H|].
  exact (proj1 (rewarded_pair_is_never_paid_again Demo.s_funded _ "S2" 21 H)).
Defined.

Lemma rewarded_count_is_membership_size_witness :
  N.of_nat (size (surveysUsersRewarded (run_calls Demo.history Demo.s0))@["S1"%string])
  = participantsRewarded (surveys (run_calls Demo.history Demo.s0))@["S1"%string].
Proof.
  apply (rewarded_count_is_membership_size Demo.s0 Demo.history "S1").
  - apply initial_state_ledger_consistent.
  - apply initial_state_membership_consistent.
  - repeat constructor; vm_compute; discriminate.
Defined.

Lemma cancel_succeeds_exactly_when_witness :
  _handleCancelSurvey Demo.env
    (Demo.sign Demo.env Demo.manager (cancelProof Demo.env Demo.s_funded 21 2000 "S2"))
    21 2000 "S2" Demo.s_funded
  = Ok (true, canceled_state "S2" 21 Demo.s_funded).
Proof.
  apply (proj2 (cancel_succeeds_exactly_when Demo.env _ 21 2000 "S2" Demo.s_funded)).
  split; [vm_compute; discriminate|].
  split; [vm_compute; reflexivity|].
  split; [left; vm_compute; reflexivity|].
  split; [vm_compute; reflexivity|].
  split; [demo_accept|].
  split; [vm_compute; discriminate | vm_compute; reflexivity].
Defined.

Lemma payReward_succeeds_exactly_when_witness :
  payReward Demo.env "S2" 41 Demo.s_funded = Ok (tt, paid_state "S2" 41 Demo.s_funded).
Proof.
  apply (proj2 (payReward_succeeds_exactly_when Demo.env "S2" 41 Demo.s_funded)).
  split; [vm_compute; reflexivity|].
  split; [vm_compute; reflexivity|].
  split; [vm_compute; reflexivity|].
  split; [vm_compute; reflexivity | vm_compute; discriminate].
Defined.

Lemma create_succeeds_exactly_when_witness :
  exists a,
    decode_create Demo.free_create = Some a /\
    _handleCreateSurvey Demo.env Demo.free_create 0 900 Demo.s0
    = Ok (true, created_state Demo.env a 900 Demo.s0).
Proof.
  eexists. split; [reflexivity|].
  apply (proj2 (create_succeeds_exactly_when Demo.env Demo.free_create _ 0 900 Demo.s0
                  eq_refl)).
  split; [demo_accept|].
  split; [vm_compute; reflexivity|].
  split; [vm_compute; discriminate|].
  split; [vm_compute; reflexivity | vm_compute; reflexivity].
Defined.

Lemma packed_encoding_is_injective_witness :
  createProof_packed Demo.env 11 2000 42 "S1" 2 0 99 0
  <> createProof_packed Demo.env 11 2000 42 "S2" 2 0 99 0.
Proof.
  intros Heq.
  apply (proj1 (packed_encoding_is_injective Demo.env Demo.env
                  11 2000 42 "S1" 2 0 99 0 11 2000 42 "S2" 2 0 99 0
                  eq_refl eq_refl eq_refl eq_refl eq_refl eq_refl eq_refl eq_refl
                  eq_refl eq_refl eq_refl eq_refl eq_refl eq_refl eq_refl eq_refl))
    in Heq.
  destruct Heq as (_ & _ & _ & _ & Hid & _). discriminate Hid.
Defined.

Lemma calls_fail_with_their_errors_only_witness :
  call_error (Call_execute 1 "agoric" "agoric1sender" Demo.expired_cancel)
    Quizzler__ProofExpired = true.
Proof.
  apply (calls_fail_with_their_errors_only Demo.env
           (Call_execute 1 "agoric" "agoric1sender" Demo.expired_cancel) Demo.s_funded).
  vm_compute; reflexivity.
Defined.

Lemma existing_survey_is_stable_witness :
  surveyCreator
    (surveys (run_calls
                [(Demo.env, Call_execute 1 "agoric" "agoric1sender" Demo.cancel_S2)]
                Demo.s_funded))@["S2"%string]
  = surveyCreator (surveys Demo.s_funded)@["S2"%string].
Proof.
  assert (Hex : surveyCreator (surveys Demo.s_funded)@["S2"%string] <> 0)
    by (vm_compute; discriminate).
  exact (proj1 (existing_survey_is_stable Demo.s_funded _ "S2" Hex)).
Defined.

Lemma canceled_survey_is_frozen_witness :
  payReward Demo.env "S2" 41
    (run_calls Demo.history
       (transact Demo.env (Call_execute 1 "agoric" "agoric1sender" Demo.cancel_S2)
          Demo.s_funded))
  = Revert Quizzler__SurveyAlreadyCanceled.
Proof.
  exact (proj1 (proj2 (proj2 (canceled_survey_is_frozen
                         (transact Demo.env
                            (Call_execute 1 "agoric" "agoric1sender" Demo.cancel_S2)
                            Demo.s_funded) Demo.history "S2"
                         ltac:(vm_compute; discriminate)
                         ltac:(vm_compute; reflexivity))) Demo.env) 41).
Defined.

Lemma successful_envelope_is_authorized_witness :
  last (log (transact Demo.env
               (Call_execute 7 "agoric" "agoric1sender" Demo.cancel_S2) Demo.s_funded))
  = Some (ExecuteEventCompleted 7 CANCEL_SURVEY_MSG_ID).
Proof.
  destruct (dispatch Demo.env (Call_execute 7 "agoric" "agoric1sender" Demo.cancel_S2)
              Demo.s_funded) as [ [u s'] | err] eqn:Hrun;
    [|vm_compute in Hrun; discriminate Hrun].
  unfold transact. rewrite Hrun.
  destruct (successful_envelope_is_authorized _ _ _ _ _ Hrun
              7 "agoric"%string "agoric1sender"%string Demo.cancel_S2
              (or_introl eq_refl))
    as (kind & digest & tok & e & sig & Hkind & _ & _ & _ & _ & _ & Hlast & _).
  injection Hkind as <-. exact Hlast.
Defined.

Lemma anyone_can_consume_a_token_witness :
  (proofTokens
     (transact Demo.env
        (Call_preAuthValidations (cancelProof Demo.env Demo.s_funded 24 2000 "S2")
           24 2000
           (Demo.sign Demo.env Demo.stranger
              (cancelProof Demo.env Demo.s_funded 24 2000 "S2")))
        Demo.s_funded))@[24] = true.
Proof.
  refine (proj1 (proj2 (anyone_can_consume_a_token Demo.env
            (cancelProof Demo.env Demo.s_funded 24 2000 "S2") 24 2000
            (Demo.sign Demo.env Demo.stranger
               (cancelProof Demo.env Demo.s_funded 24 2000 "S2"))
            Demo.stranger Demo.s_funded _ _ _ _ _))).
  - vm_compute; discriminate.
  - vm_compute; reflexivity.
  - vm_compute; discriminate.
  - vm_compute; reflexivity.
  - vm_compute; discriminate.
Defined.

Lemma deployed_contract_moves_no_tokens_witness :
  participantsLimit (surveys (run_calls Demo.history Demo.s0))@["S1"%string]
  * rewardAmount (surveys (run_calls Demo.history Demo.s0))@["S1"%string] = 0.
Proof.
  exact (proj1 (deployed_contract_moves_no_tokens (Demo.env_at Demo.manager 0)
                  "agoric1sender" "Avalanche" Demo.history) "S1"%string).
Defined.

Lemma digests_carry_no_kind_witness :
  cancelProof Demo.env Demo.s0 11 2000
    (String.string_of_list_byte
       (enc_address 42 ++ enc_string "S1" ++ enc_uint256 2 ++ enc_uint256 0
        ++ enc_bytes32 99 ++ enc_uint256 0))
  = createProof Demo.env Demo.s0 11 2000 42 "S1" 2 0 99 0.
Proof.
  exact (proj1 (digests_carry_no_kind Demo.env Demo.s0 11 2000 42 "S1" 2 0 99 0 [] [])).
Defined.
